(** * java/java.go: dependency classification, classpaths and class loader contexts

    A shallow embedding of the parts of [java/java.go] that classify the direct
    dependencies of a java module and aggregate what they publish: the build
    flags of [java_import] and its dex jar, the class loader context (CLC) of
    a module, the jar check on source-producing dependencies, the language
    level test and [dex_import].

    What [java.go] calls in other files (the dexpreopt and android packages,
    the rest of the java package, the Go library) is either a parameter, in
    the classes [Dexpreopt], [Android], [JavaCollaborators], [ContextMethods],
    [DexpreopterMethods] and [filepath.Methods], or a definition whose comment
    says where it is taken from.

    Go values are modelled as follows.
    - [int] is [Z]; strings are [string]; slices are lists, [append] is [++].
    - an [android.Path] is the string of the path; a nil path is [None].
    - a [blueprint.DependencyTag] is an interface value: its dynamic type is a
      constructor of [DependencyTag], and [==] is equality of constructor and
      fields.
    - the module context collects reported errors and missing-dependency
      markers; functions that report take a context and return the new one.
    - a Go map is a [gmap]. *)

From Stdlib Require Import ZArith List Bool Ascii String Lia.
From stdpp Require Import base option gmap strings list pretty.

Set Warnings "-register-all".
Local Open Scope Z_scope.

(** ** Paths *)

Abbreviation Path := string.
Abbreviation Paths := (list Path).

(** [os.IsPathSeparator] on the build host. *)
Definition IsPathSeparator (c : ascii) : bool := Ascii.eqb c "/"%char.

(** The loop of Go's [filepath.Ext]: walk from the last byte towards the first,
    stop at a path separator, return the text from the first dot met.
    [acc] holds the bytes already walked, in reading order. *)
Fixpoint extScan (reversed : list ascii) (acc : string) : string :=
  match reversed with
  | [] => EmptyString
  | c :: before =>
      if IsPathSeparator c then EmptyString
      else if Ascii.eqb c "."%char then String c acc
      else extScan before (String c acc)
  end.

(** [android.Path.Ext] is declared outside [java.go]; it is the extension of the
    path's string as [filepath.Ext] computes it. *)
Definition Ext (p : Path) : string :=
  extScan (rev (list_ascii_of_string p)) EmptyString.

(** [android.PathsIfNonNil]: the non-nil paths among the arguments. *)
Definition PathsIfNonNil (ps : list (option Path)) : Paths := omap id ps.

(** ** The module context *)

(** An error reported against the module: the format string and its
    arguments are kept apart, as the call site gives them. *)
Inductive ModuleError : Type :=
  | ModuleErrorOf (format : string) (args : list string)
  | PropertyErrorOf (property : string) (format : string) (args : list string).

#[global] Instance ModuleError_eq_dec : EqDecision ModuleError.
Proof. solve_decision. Defined.

Record ApexInfo : Type := mkApexInfo {
  IsForPlatform : bool;
  ForPrebuiltApex : bool;
  ApexVariationName : string;
}.

(** What [android.ModuleContext] answers and records while one module
    generates its build actions. *)
Record ModuleContext : Type := mkModuleContext {
  ModuleName : string;
  Device : bool;
  ApexInfoProvider : ApexInfo;
  AllowMissingDependencies : bool;
  errs : list ModuleError;
  MissingDeps : list string;
}.

Definition withErrs (ctx : ModuleContext) (es : list ModuleError) : ModuleContext :=
  {| ModuleName := ModuleName ctx; Device := Device ctx;
     ApexInfoProvider := ApexInfoProvider ctx;
     AllowMissingDependencies := AllowMissingDependencies ctx;
     errs := es; MissingDeps := MissingDeps ctx |}.

Definition withMissingDeps (ctx : ModuleContext) (ds : list string) : ModuleContext :=
  {| ModuleName := ModuleName ctx; Device := Device ctx;
     ApexInfoProvider := ApexInfoProvider ctx;
     AllowMissingDependencies := AllowMissingDependencies ctx;
     errs := errs ctx; MissingDeps := ds |}.

(** [ctx.ModuleErrorf]: the error is added to the module's errors. *)
Definition ModuleErrorf (ctx : ModuleContext) (format : string) (args : list string)
  : ModuleContext :=
  withErrs ctx (errs ctx ++ [ModuleErrorOf format args]).

(** [ctx.PropertyErrorf]: the error is added to the module's errors, with the
    property it is about. *)
Definition PropertyErrorf (ctx : ModuleContext) (property format : string)
    (args : list string) : ModuleContext :=
  withErrs ctx (errs ctx ++ [PropertyErrorOf property format args]).

(** [ctx.Failed]: an error has been reported for the module. *)
Definition Failed (ctx : ModuleContext) : bool :=
  match errs ctx with [] => false | _ :: _ => true end.

(** Modelled from the spec: [ctx.AddMissingDependencies] (android package) is
    not in [java.go]; the spec has the consumer "add missing-dependency
    markers", so the names are added to the markers of the module. *)
Definition AddMissingDependencies (ctx : ModuleContext) (deps : list string)
  : ModuleContext :=
  withMissingDeps ctx (MissingDeps ctx ++ deps).

(** Modelled from the spec: what the host does with the markers of a module
    (android package, not in [java.go]): they are "surfaced as missing
    dependency markers if missing dependencies are globally tolerated, else a
    hard module error". *)
Definition reportMissingDependencies (ctx : ModuleContext) : ModuleContext :=
  match MissingDeps ctx with
  | [] => ctx
  | _ :: _ =>
      if AllowMissingDependencies ctx then ctx
      else ModuleErrorf ctx "missing dependencies" (MissingDeps ctx)
  end.

(** A function that can panic: the context at the panic, or the result. *)
Inductive Outcome (A : Type) : Type :=
  | Panicked (ctx : ModuleContext)
  | Done (a : A).
Arguments Panicked {A} ctx.
Arguments Done {A} a.

(** ** Language levels *)

Abbreviation javaVersion := Z.

Definition JAVA_VERSION_UNSUPPORTED : javaVersion := 0.
Definition JAVA_VERSION_6 : javaVersion := 6.
Definition JAVA_VERSION_7 : javaVersion := 7.
Definition JAVA_VERSION_8 : javaVersion := 8.
Definition JAVA_VERSION_9 : javaVersion := 9.
Definition JAVA_VERSION_11 : javaVersion := 11.
Definition JAVA_VERSION_17 : javaVersion := 17.

(** Returns true if javac targeting this version uses system modules instead
    of a bootclasspath. *)
Definition usesJavaModules (v : javaVersion) : bool := 9 <=? v.

(** ** Source-producing dependencies *)

(** An [android.SourceFileProducer] seen as a dependency: the files it
    produces and the name the context gives for it. *)
Record SourceFileProducer : Type := mkSourceFileProducer {
  Srcs : Paths;
  producerName : string;
}.

Definition jarExtensionFormat : string :=
  "genrule %q must generate files ending with .jar to be used as a libs or static_libs dependency".

(** [checkProducesJars]: one module error for each produced file whose
    extension is not [.jar]. *)
Definition checkProducesJars (ctx : ModuleContext) (dep : SourceFileProducer)
  : ModuleContext :=
  fold_left
    (fun ctx f =>
       if bool_decide (Ext f ≠ ".jar")
       then ModuleErrorf ctx jarExtensionFormat [producerName dep]
       else ctx)
    (Srcs dep) ctx.

(** ** Dependency tags *)

Record dependencyTag : Type := mkDependencyTag {
  name : string;
  (** True if the dependency is relinked at runtime. *)
  runtimeLinked : bool;
  (** True if the dependency is a toolchain, for example an annotation processor. *)
  toolchain : bool;
}.

Record usesLibraryDependencyTag : Type := mkUsesLibraryDependencyTag {
  usesLibraryTag : dependencyTag;
  (** SDK version in which the library appeared as a standalone library. *)
  sdkVersion : Z;
  (** If the dependency is optional or required. *)
  optional : bool;
}.

(** A [blueprint.DependencyTag] value: the tag types of [java.go], and the tags
    that other packages declare. *)
Inductive DependencyTag : Type :=
  | JavaTag (t : dependencyTag)
  | InstallTag (installName : string)
  | UsesLibraryTag (t : usesLibraryDependencyTag)
  | ForeignTag (foreignName : string).

#[global] Instance dependencyTag_eq_dec : EqDecision dependencyTag.
Proof. solve_decision. Defined.
#[global] Instance usesLibraryDependencyTag_eq_dec : EqDecision usesLibraryDependencyTag.
Proof. solve_decision. Defined.
#[global] Instance DependencyTag_eq_dec : EqDecision DependencyTag.
Proof. solve_decision. Defined.

(** The constants of the dexpreopt package that [java.go] names. *)
Class Dexpreopt : Type := {
  (** [dexpreopt.AnySdkVersion]: the bucket of an edge with no version. *)
  AnySdkVersion : Z;
}.

Definition makeUsesLibraryDependencyTag (sdkVersion : Z) (optional : bool)
  : usesLibraryDependencyTag :=
  {| usesLibraryTag :=
       {| name := "uses-library-" +:+ pretty sdkVersion;
          runtimeLinked := true; toolchain := false |};
     sdkVersion := sdkVersion;
     optional := optional |}.

Definition tagNamed (n : string) : dependencyTag :=
  {| name := n; runtimeLinked := false; toolchain := false |}.
Definition runtimeTag (n : string) : dependencyTag :=
  {| name := n; runtimeLinked := true; toolchain := false |}.
Definition toolchainTag (n : string) : dependencyTag :=
  {| name := n; runtimeLinked := false; toolchain := true |}.

Definition dataNativeBinsTag : DependencyTag := JavaTag (tagNamed "dataNativeBins").
Definition dataDeviceBinsTag : DependencyTag := JavaTag (tagNamed "dataDeviceBins").
Definition staticLibTag : DependencyTag := JavaTag (tagNamed "staticlib").
Definition libTag : DependencyTag := JavaTag (runtimeTag "javalib").
Definition sdkLibTag : DependencyTag := JavaTag (runtimeTag "sdklib").
Definition java9LibTag : DependencyTag := JavaTag (runtimeTag "java9lib").
Definition pluginTag : DependencyTag := JavaTag (toolchainTag "plugin").
Definition errorpronePluginTag : DependencyTag := JavaTag (toolchainTag "errorprone-plugin").
Definition exportedPluginTag : DependencyTag := JavaTag (toolchainTag "exported-plugin").
Definition bootClasspathTag : DependencyTag := JavaTag (runtimeTag "bootclasspath").
Definition systemModulesTag : DependencyTag := JavaTag (runtimeTag "system modules").
Definition frameworkResTag : DependencyTag := JavaTag (tagNamed "framework-res").
Definition kotlinStdlibTag : DependencyTag := JavaTag (runtimeTag "kotlin-stdlib").
Definition kotlinAnnotationsTag : DependencyTag := JavaTag (runtimeTag "kotlin-annotations").
Definition kotlinPluginTag : DependencyTag := JavaTag (toolchainTag "kotlin-plugin").
Definition proguardRaiseTag : DependencyTag := JavaTag (tagNamed "proguard-raise").
Definition certificateTag : DependencyTag := JavaTag (tagNamed "certificate").
Definition instrumentationForTag : DependencyTag := JavaTag (tagNamed "instrumentation_for").
Definition extraLintCheckTag : DependencyTag := JavaTag (toolchainTag "extra-lint-check").
Definition jniLibTag : DependencyTag := JavaTag (runtimeTag "jnilib").
Definition r8LibraryJarTag : DependencyTag := JavaTag (runtimeTag "r8-libraryjar").
Definition syspropPublicStubDepTag : DependencyTag := JavaTag (tagNamed "sysprop public stub").
Definition javaApiContributionTag : DependencyTag := JavaTag (tagNamed "java-api-contribution").
Definition depApiSrcsTag : DependencyTag := JavaTag (tagNamed "dep-api-srcs").
Definition jniInstallTag : DependencyTag := InstallTag "jni install".
Definition binaryInstallTag : DependencyTag := InstallTag "binary install".

Definition usesLibReqTag `{Dexpreopt} : DependencyTag :=
  UsesLibraryTag (makeUsesLibraryDependencyTag AnySdkVersion false).
Definition usesLibOptTag `{Dexpreopt} : DependencyTag :=
  UsesLibraryTag (makeUsesLibraryDependencyTag AnySdkVersion true).
Definition usesLibCompat28OptTag : DependencyTag :=
  UsesLibraryTag (makeUsesLibraryDependencyTag 28 true).
Definition usesLibCompat29ReqTag : DependencyTag :=
  UsesLibraryTag (makeUsesLibraryDependencyTag 29 false).
Definition usesLibCompat30OptTag : DependencyTag :=
  UsesLibraryTag (makeUsesLibraryDependencyTag 30 true).

Definition IsLibDepTag (depTag : DependencyTag) : bool :=
  bool_decide (depTag = libTag) || bool_decide (depTag = sdkLibTag).

Definition IsStaticLibDepTag (depTag : DependencyTag) : bool :=
  bool_decide (depTag = staticLibTag).

(** ** Class loader contexts *)

(** Modelled from the spec: the types of the dexpreopt package are not in
    [java.go]. A ClassLoaderContextMap is a "mapping from SDK-version-bucket
    to ordered sequence of ContextEntry; ContextEntry = {libraryName, jarPath
    (optional), installPath, Subtree: ClassLoaderContextMap}". The entry also
    keeps the [optional] flag that the caller passes. *)
Inductive ClassLoaderContext : Type := mkClassLoaderContext {
  libraryName : string;
  isOptional : bool;
  jarPath : option Path;
  installPath : option Path;
  Subtree : gmap Z (list ClassLoaderContext);
}.

Abbreviation ClassLoaderContextMap := (gmap Z (list ClassLoaderContext)).

(** Modelled from the spec: [ClassLoaderContextMap.AddContext] (dexpreopt
    package) is not in [java.go]. The library is added "as a new node in the
    tree at the bucket", "with its own jar path, install path, and its
    already-published subtree attached below it"; an absent jar path is
    recorded as it is and "is not an immediate error". *)
Definition AddContext (ctx : ModuleContext) (clcMap : ClassLoaderContextMap)
    (sdkVer : Z) (lib : string) (optional : bool)
    (hostPath installPath : option Path) (nestedClcMap : ClassLoaderContextMap)
  : ModuleContext * ClassLoaderContextMap :=
  (ctx,
   <[sdkVer := (clcMap !!! sdkVer) ++
       [mkClassLoaderContext lib optional hostPath installPath nestedClcMap]]> clcMap).

(** Modelled from the spec: [ClassLoaderContextMap.AddContextMap] (dexpreopt
    package) is not in [java.go]. The other map is merged "directly into the
    current map at the same bucket (flattening - no new node is added)": each
    bucket of the other map is appended to the same bucket of this one. The
    spec gives the parent library's name no part in the merge. *)
Definition AddContextMap (clcMap otherClcMap : ClassLoaderContextMap)
    (parentLib : string) : ClassLoaderContextMap :=
  union_with (fun mine theirs => Some (mine ++ theirs)) clcMap otherClcMap.

(** ** What a dependency publishes *)

(** Modelled from the spec: [OptionalDexJarPath] is declared outside
    [java.go]; the jar path is "optional - absent means invalid". *)
Abbreviation OptionalDexJarPath := (option Path).
Definition PathOrNil (o : OptionalDexJarPath) : option Path := o.
Definition makeDexJarPathFromPath (p : Path) : OptionalDexJarPath := Some p.

(** Modelled from the spec: [android.DepSet] is declared outside [java.go];
    it is a "persistent ordered set", made of the paths of a module and of
    the sets of its dependencies. Nothing here looks inside one. *)
Inductive DepSet : Type :=
  | NewDepSet (direct : Paths) (transitive : list DepSet).

(** [JavaInfo]: the fields that the claims and [java_import] use. *)
Record JavaInfo : Type := mkJavaInfo {
  HeaderJars : Paths;
  TransitiveLibsHeaderJars : option DepSet;
  TransitiveStaticLibsHeaderJars : option DepSet;
  ImplementationAndResourcesJars : Paths;
  ImplementationJars : Paths;
  AidlIncludeDirs : Paths;
}.

Record ProguardSpecInfo : Type := mkProguardSpecInfo {
  (** If true, proguard flags files will be exported to reverse dependencies
      across libs edges. If false, proguard flags files will only be exported
      to reverse dependencies across static_libs edges. *)
  Export_proguard_flags_files : bool;
  (** The proguard flags files that are exported from all transitive deps. *)
  ProguardFlagsFiles : option DepSet;
  (** Implementation detail to store transitive proguard flags files from
      exporting shared deps. *)
  UnconditionallyExportedProguardFlags : option DepSet;
}.

(** Provides build path and install path to DEX jars. *)
Record UsesLibraryDependency : Type := mkUsesLibraryDependency {
  DexJarBuildPath : OptionalDexJarPath;
  DexJarInstallPath : option Path;
  ClassLoaderContexts : ClassLoaderContextMap;
}.

(** [android.SdkSpec], by its text. *)
Abbreviation SdkSpec := string.

(** The two methods of [SdkLibraryDependency] that [java.go] calls. *)
Record SdkLibraryDependency : Type := mkSdkLibraryDependency {
  sharedLibrary : bool;
  SdkHeaderJars : SdkSpec -> Paths;
}.

(** A dependency as the module that depends on it sees it: its name, the
    [JavaInfo] it has set (if any), and, for each interface that [java.go]
    asserts, what the dependency answers when it implements it. *)
Record Module : Type := mkModule {
  OtherModuleName : string;
  JavaInfoProvider : option JavaInfo;
  ProguardSpecInfoProvider : option ProguardSpecInfo;
  asUsesLibraryDependency : option UsesLibraryDependency;
  asSdkLibraryDependency : option SdkLibraryDependency;
  (** [ProvidesUsesLib()] returns a [*string], nil when nothing is declared. *)
  asProvidesUsesLib : option (option string);
}.

(** The android package's helpers that the functions below call. *)
Class Android : Type := {
  RemoveOptionalPrebuiltPrefix : string -> string;
  PathForModuleOut : ModuleContext -> list string -> Path;
  PathForModuleInstall : ModuleContext -> list string -> Path;
  PathForModuleInPartitionInstall : ModuleContext -> list string -> Path;
  PathsForModuleSrc : ModuleContext -> list string -> Paths;
}.

(** The [var sdkLib *string] of [addCLCFromDep]: the name under which the
    dependency is a node of the CLC tree, nil when it is not one. A shared SDK
    library goes under its own name; otherwise a module that implements
    [ProvidesUsesLib] goes under the name that it declares, if any. *)
Definition sdkLibOf `{Android} (depModule : Module) : option string :=
  let depName := RemoveOptionalPrebuiltPrefix (OtherModuleName depModule) in
  match asSdkLibraryDependency depModule with
  | Some lib =>
      if sharedLibrary lib then Some depName
      else match asProvidesUsesLib depModule with
           | Some ulib => ulib
           | None => None
           end
  | None =>
      match asProvidesUsesLib depModule with
      | Some ulib => ulib
      | None => None
      end
  end.

(** Add class loader context (CLC) of a given dependency to the current CLC.
    [depTag] is [ctx.OtherModuleDependencyTag(depModule)]. *)
Definition addCLCFromDep `{Dexpreopt} `{Android} (ctx : ModuleContext)
    (depTag : DependencyTag) (depModule : Module) (clcMap : ClassLoaderContextMap)
  : ModuleContext * ClassLoaderContextMap :=
  match asUsesLibraryDependency depModule with
  | None => (ctx, clcMap)
  | Some dep =>
      let depName := RemoveOptionalPrebuiltPrefix (OtherModuleName depModule) in
      let sdkLib := sdkLibOf depModule in
      let propagate :=
        match sdkLib with
        | Some lib =>
            AddContext ctx clcMap AnySdkVersion lib false
              (PathOrNil (DexJarBuildPath dep)) (DexJarInstallPath dep)
              (ClassLoaderContexts dep)
        | None => (ctx, AddContextMap clcMap (ClassLoaderContexts dep) depName)
        end in
      if IsLibDepTag depTag then propagate
      else if match depTag with
              | UsesLibraryTag tag => bool_decide (sdkVersion tag = AnySdkVersion)
              | _ => false
              end then propagate
      else if bool_decide (depTag = staticLibTag) then
        match sdkLib with
        | Some _ => (ctx, clcMap)
        | None => propagate
        end
      else (ctx, clcMap)
  end.

(** ** Build flags and the SDK descriptor *)

(** [javaBuilderFlags] is declared outside [java.go]; these are the fields that
    [java_import] fills in. *)
Record javaBuilderFlags : Type := mkJavaBuilderFlags {
  bootClasspath : Paths;
  classpath : Paths;
  dexClasspath : Paths;
}.

(** [var flags javaBuilderFlags]: every list is nil. *)
Definition zeroFlags : javaBuilderFlags :=
  {| bootClasspath := []; classpath := []; dexClasspath := [] |}.

Module sdkDep.
Record t : Type := mk {
  useModule : bool;
  useFiles : bool;
  invalidVersion : bool;
  (** The modules that will be added to the bootclasspath when targeting 1.8 or lower *)
  bootclasspath : list string;
  (** The default system modules to use; empty if no system modules are to be used. *)
  systemModules : string;
  (** The modules that will be added to the classpath regardless of the language level *)
  classpath : list string;
  (** The modules that will be added to the classpath when targeting 1.9 or higher *)
  java9Classpath : list string;
  frameworkResModule : string;
  jars : Paths;
  aidl : option Path;
  noStandardLibs : bool;
  noFrameworksLibs : bool;
}.

Definition hasStandardLibs (s : t) : bool := negb (noStandardLibs s).
Definition hasFrameworkLibs (s : t) : bool :=
  negb (noStandardLibs s) && negb (noFrameworksLibs s).
End sdkDep.

(** [proptools.Bool], [proptools.String] and [proptools.StringDefault]. *)
Definition Bool (b : option bool) : bool := default false b.
Definition StringOf (s : option string) : string := default EmptyString s.
Definition StringDefault (s : option string) (def : string) : string := default def s.

(** What a deapexer module answers about the files of a prebuilt apex. *)
Record DeapexerInfo : Type := mkDeapexerInfo {
  PrebuiltExportPath : string -> option Path;
  ApexModuleName : string;
}.

(** The parameters of [compileDex] that [java_import] fills in from what this
    model follows (the minimum SDK version, an [android.ApiLevel], is left
    out). *)
Record compileDexParams : Type := mkCompileDexParams {
  flags : javaBuilderFlags;
  dexSdkVersion : SdkSpec;
  classesJar : Path;
  jarName : string;
}.

(** The functions of the java and android packages, declared outside
    [java.go], whose results [java_import] uses. Those that can report an
    error return the context. *)
Class JavaCollaborators : Type := {
  collectTransitiveHeaderJars :
    ModuleContext -> list (DependencyTag * Module) -> option DepSet * option DepSet;
  (** [decodeSdkDep(ctx, sdkContext)]; the SDK context of a [java_import] is
      given by its [sdk_version]. *)
  decodeSdkDep : ModuleContext -> SdkSpec -> ModuleContext * sdkDep.t;
  FindDeapexerProviderForModule : ModuleContext -> ModuleContext * option DeapexerInfo;
  compileDex : ModuleContext -> compileDexParams -> ModuleContext * Path;
  hiddenAPIEncodeDex : ModuleContext -> Path -> Path;
}.

(** ** Uncompressed dex *)

(** The methods of the context and of its config that the functions below
    call and whose answers [ModuleContext] does not keep. *)
Class ContextMethods : Type := {
  Host : ModuleContext -> bool;
  Windows : ModuleContext -> bool;
  InstallInTestcases : ModuleContext -> bool;
  (** [ctx.DeviceConfig().DeviceArch()] *)
  DeviceArch : ModuleContext -> string;
  (** [ctx.Config().BootJars()] *)
  BootJars : ModuleContext -> list string;
  (** [ctx.Config().UncompressPrivAppDex()] *)
  UncompressPrivAppDex : ModuleContext -> bool;
  (** [ctx.Config().ModulesLoadedByPrivilegedModules()] *)
  ModulesLoadedByPrivilegedModules : ModuleContext -> list string;
  (** [ctx.ExpandSource(srcFile, prop)] *)
  ExpandSource : ModuleContext -> string -> string -> ModuleContext * Path;
}.

(** [inList], that is [android.InList]. *)
Definition inList (s : string) (list : list string) : bool := bool_decide (s ∈ list).

(** [proptools.BoolDefault]. *)
Definition BoolDefault (b : option bool) (def : bool) : bool := default def b.

(** [dexer]: the property of [dexProperties] that [java.go] reads and sets,
    and the answer of [effectiveOptimizeEnabled], a method declared outside
    [java.go]. *)
Record dexer : Type := mkDexer {
  Uncompress_dex : option bool;
  effectiveOptimizeEnabled : bool;
}.

Module dexpreopter.
(** The fields of [dexpreopter] that [java.go] reads or sets. *)
Record t : Type := mk {
  installPath : option Path;
  uncompressedDex : bool;
  isSDKLibrary : bool;
  inputProfilePathOnHost : option Path;
  (** [importDexpreoptProperties.Dex_preopt.Profile_guided] *)
  Profile_guided : option bool;
}.

Definition withInstallPath (d : t) (p : Path) : t :=
  {| installPath := Some p; uncompressedDex := uncompressedDex d;
     isSDKLibrary := isSDKLibrary d;
     inputProfilePathOnHost := inputProfilePathOnHost d;
     Profile_guided := Profile_guided d |}.

Definition withUncompressedDex (d : t) (b : bool) : t :=
  {| installPath := installPath d; uncompressedDex := b;
     isSDKLibrary := isSDKLibrary d;
     inputProfilePathOnHost := inputProfilePathOnHost d;
     Profile_guided := Profile_guided d |}.

Definition withInputProfilePathOnHost (d : t) (p : Path) : t :=
  {| installPath := installPath d; uncompressedDex := uncompressedDex d;
     isSDKLibrary := isSDKLibrary d;
     inputProfilePathOnHost := Some p;
     Profile_guided := Profile_guided d |}.
End dexpreopter.

(** The methods of [dexpreopter] that [java.go] calls; they are declared
    outside it. *)
Class DexpreopterMethods : Type := {
  dexpreoptDisabled : ModuleContext -> dexpreopter.t -> bool;
  odexOnSystemOther : ModuleContext -> dexpreopter.t -> option Path -> bool;
  getInstallPath : ModuleContext -> dexpreopter.t -> Path -> Path;
  (** [j.dexpreopt(ctx, dexJarFile)] *)
  dexpreopt : ModuleContext -> dexpreopter.t -> Path -> ModuleContext * dexpreopter.t;
}.

Definition shouldUncompressDex `{ContextMethods} `{DexpreopterMethods}
    (ctx : ModuleContext) (dexpreopter : dexpreopter.t) : bool :=
  (* Store uncompressed (and aligned) any dex files from jars in APEXes. *)
  if negb (IsForPlatform (ApexInfoProvider ctx)) then true
  (* Store uncompressed (and do not strip) dex files from boot class path jars. *)
  else if inList (ModuleName ctx) (BootJars ctx) then true
  (* Store uncompressed dex files that are preopted on /system. *)
  else if negb (dexpreoptDisabled ctx dexpreopter) &&
          (Host ctx ||
           negb (odexOnSystemOther ctx dexpreopter (dexpreopter.installPath dexpreopter)))
  then true
  else if UncompressPrivAppDex ctx &&
          inList (ModuleName ctx) (ModulesLoadedByPrivilegedModules ctx) then true
  else false.

(** Sets [dexer.dexProperties.Uncompress_dex] to the proper value. *)
Definition setUncompressDex `{ContextMethods} `{DexpreopterMethods}
    (ctx : ModuleContext) (dexpreopter : dexpreopter.t) (d : dexer) : dexer :=
  match Uncompress_dex d with
  | None =>
      (* If the value was not force-set by the user, use reasonable default
         based on the module. *)
      {| Uncompress_dex := Some (shouldUncompressDex ctx dexpreopter);
         effectiveOptimizeEnabled := effectiveOptimizeEnabled d |}
  | Some _ => d
  end.

(** The two statements that [Library] and [Import] run one after the other,
    [setUncompressDex(ctx, &j.dexpreopter, &j.dexer)] and
    [j.dexpreopter.uncompressedDex = *j.dexProperties.Uncompress_dex]; [None]
    when the pointer is nil and its dereference panics. *)
Definition setAndReadUncompressDex `{ContextMethods} `{DexpreopterMethods}
    (ctx : ModuleContext) (dp : dexpreopter.t) (d : dexer)
  : option (dexpreopter.t * dexer) :=
  let d := setUncompressDex ctx dp d in
  match Uncompress_dex d with
  | Some b => Some (dexpreopter.withUncompressedDex dp b, d)
  | None => None
  end.

(** [setUncompressDex(ctx, &j.dexpreopter, &j.dexer)] followed by
    [j.dexpreopter.uncompressedDex = *j.dexProperties.Uncompress_dex], as a
    total function: the call leaves the pointer set, to the value that the
    user gave or else to the answer of [shouldUncompressDex], so the
    dereference reads that value. *)
Definition setUncompressedDex `{ContextMethods} `{DexpreopterMethods}
    (ctx : ModuleContext) (dp : dexpreopter.t) (d : dexer)
  : dexpreopter.t * dexer :=
  let b :=
    match Uncompress_dex d with
    | Some b => b
    | None => shouldUncompressDex ctx dp
    end in
  (dexpreopter.withUncompressedDex dp b, setUncompressDex ctx dp d).

(** [filepath.Join] of the Go library: it joins the elements with the
    separator and cleans the result. *)
Module filepath.
Class Methods : Type := {
  Join : list string -> string;
}.
End filepath.

(** ** java_import *)

Module ImportModule.

Record ImportProperties : Type := mkImportProperties {
  Jars : list string;
  (** The version of the SDK that the source prebuilt file was built against. *)
  Sdk_version : option string;
  (** The minimum version of the SDK that this module supports. *)
  Min_sdk_version : option string;
  Replace_max_sdk_version_placeholder : option string;
  Installable : option bool;
  (** If not empty, classes are restricted to the specified packages. *)
  Permitted_packages : list string;
  (** List of shared java libs that this module has dependencies to *)
  Libs : list string;
  (** List of files to remove from the jar file(s) *)
  Exclude_files : list string;
  (** List of directories to remove from the jar file(s) *)
  Exclude_dirs : list string;
  (** if set to true, run Jetifier against .jar file. Defaults to false. *)
  Jetifier : option bool;
  (** set the name of the output *)
  Stem : option string;
  (** [Aidl.Export_include_dirs] *)
  Export_include_dirs : list string;
}.

(** How the [if ctx.Device()] block ends. *)
Record DexActions : Type := mkDexActions {
  dexCtx : ModuleContext;
  dexFlags : javaBuilderFlags;
  dexJar : OptionalDexJarPath;
  dexJarInstall : option Path;
  (** [j.dexpreopter] and [j.dexer] as the block leaves them. *)
  dexDexpreopter : dexpreopter.t;
  dexDexer : dexer;
  (** The block executed [return]: no [JavaInfo] is set. *)
  returned : bool;
}.

(** The fields of [Import] that [GenerateAndroidBuildActions] reads or sets. *)
Record t : Type := mk {
  (** [j.Name()], the name that dependents see. *)
  Name : string;
  (** [j.ModuleBase.Name()] and [j.BaseModuleName()]. *)
  BaseModuleName : string;
  dexer : dexer;
  dexpreopter : dexpreopter.t;
  properties : ImportProperties;
  Compile_dex : option bool;
  dexJarFile : OptionalDexJarPath;
  dexJarInstallFile : option Path;
  combinedClasspathFile : option Path;
  classLoaderContexts : ClassLoaderContextMap;
  exportAidlIncludeDirs : Paths;
  hideApexVariantFromMake : bool;
  transitiveLibsHeaderJars : option DepSet;
  transitiveStaticLibsHeaderJars : option DepSet;
}.

Definition SdkVersion (j : t) : SdkSpec := StringOf (Sdk_version (properties j)).

Definition StemOf (j : t) : string :=
  StringDefault (Stem (properties j)) (BaseModuleName j).

(** [apexRootRelativePathToJavaLib] returns the path, relative to the root of
    the apex's contents, for the java library with the specified name. *)
Definition apexRootRelativePathToJavaLib `{filepath.Methods} (name : string) : string :=
  filepath.Join ["javalib"; name +:+ ".jar"].

(** The [switch tag] of the visitor for a dependency with a [JavaInfo]. *)
Definition addHeaderJars (tag : DependencyTag) (dep : JavaInfo)
    (flags : javaBuilderFlags) : javaBuilderFlags :=
  if bool_decide (tag = libTag) || bool_decide (tag = sdkLibTag) then
    {| bootClasspath := bootClasspath flags;
       classpath := classpath flags ++ HeaderJars dep;
       dexClasspath := dexClasspath flags ++ HeaderJars dep |}
  else if bool_decide (tag = staticLibTag) then
    {| bootClasspath := bootClasspath flags;
       classpath := classpath flags ++ HeaderJars dep;
       dexClasspath := dexClasspath flags |}
  else if bool_decide (tag = bootClasspathTag) then
    {| bootClasspath := bootClasspath flags ++ HeaderJars dep;
       classpath := classpath flags;
       dexClasspath := dexClasspath flags |}
  else flags.

(** The function that [GenerateAndroidBuildActions] passes to
    [ctx.VisitDirectDeps], applied to the dependency [module] reached through
    an edge tagged [tag]. It updates the flags and the CLC of [j]. *)
Definition visitDirectDep `{Dexpreopt} `{Android} (j : t)
    (acc : ModuleContext * javaBuilderFlags * ClassLoaderContextMap)
    (edge : DependencyTag * Module)
  : ModuleContext * javaBuilderFlags * ClassLoaderContextMap :=
  let '(ctx, flags, clcMap) := acc in
  let '(tag, module) := edge in
  let flags :=
    match JavaInfoProvider module with
    | Some dep => addHeaderJars tag dep flags
    | None =>
        match asSdkLibraryDependency module with
        | Some dep =>
            if bool_decide (tag = libTag) || bool_decide (tag = sdkLibTag) then
              {| bootClasspath := bootClasspath flags;
                 classpath := classpath flags ++ SdkHeaderJars dep (SdkVersion j);
                 dexClasspath := dexClasspath flags |}
            else flags
        | None => flags
        end
    end in
  let '(ctx, clcMap) := addCLCFromDep ctx tag module clcMap in
  (ctx, flags, clcMap).

(** [ctx.VisitDirectDeps] with that function, from [var flags] and
    [make(dexpreopt.ClassLoaderContextMap)]. *)
Definition visitDirectDeps `{Dexpreopt} `{Android} (j : t) (ctx : ModuleContext)
    (directDeps : list (DependencyTag * Module))
  : ModuleContext * javaBuilderFlags * ClassLoaderContextMap :=
  fold_left (visitDirectDep j) directDeps (ctx, zeroFlags, ∅).

(** The first statements of the [Compile_dex] branch: an invalid SDK version
    adds missing dependencies, a prebuilt SDK adds its jars to the classpath. *)
Definition addSdkDep (ctx : ModuleContext) (sdkDep : sdkDep.t)
    (flags : javaBuilderFlags) : ModuleContext * javaBuilderFlags :=
  if sdkDep.invalidVersion sdkDep then
    (AddMissingDependencies
       (AddMissingDependencies ctx (sdkDep.bootclasspath sdkDep))
       (sdkDep.java9Classpath sdkDep),
     flags)
  else if sdkDep.useFiles sdkDep then
    (ctx,
     {| bootClasspath := bootClasspath flags;
        classpath := classpath flags ++ sdkDep.jars sdkDep;
        dexClasspath := dexClasspath flags |})
  else (ctx, flags).

(** The [if ctx.Device()] block: the dex jar of a variant for a prebuilt apex
    comes from the deapexer and is handed to [j.dexpreopt]; otherwise, with
    [compile_dex], the jar is compiled to dex with the flags collected so far
    and the SDK's. [initHiddenAPI] sets the [hiddenAPI] structure of the
    module, which is not among the fields of [t]. *)
Definition deviceActions `{Android} `{JavaCollaborators} `{ContextMethods}
    `{DexpreopterMethods} `{filepath.Methods} (j : t)
    (ctx : ModuleContext) (flags : javaBuilderFlags) (jarName : string)
    (outputFile : Path) : DexActions :=
  let unchanged ctx :=
    mkDexActions ctx flags (dexJarFile j) (dexJarInstallFile j) (dexpreopter j) (dexer j) in
  if negb (Device ctx) then unchanged ctx false
  else
    let ai := ApexInfoProvider ctx in
    if ForPrebuiltApex ai then
      match FindDeapexerProviderForModule ctx with
      | (ctx, None) => unchanged ctx true
      | (ctx, Some di) =>
          let dexJarFileApexRootRelative :=
            apexRootRelativePathToJavaLib (BaseModuleName j) in
          match PrebuiltExportPath di dexJarFileApexRootRelative with
          | Some dexOutputPath =>
              let dexJarFile := makeDexJarPathFromPath dexOutputPath in
              let installPath :=
                PathForModuleInPartitionInstall ctx
                  ["apex"; ApexVariationName ai;
                   apexRootRelativePathToJavaLib (BaseModuleName j)] in
              let dp :=
                dexpreopter.withInstallPath (dexpreopter j)
                  (getInstallPath ctx (dexpreopter j) installPath) in
              let '(dp, d) := setUncompressedDex ctx dp (dexer j) in
              let dp :=
                match PrebuiltExportPath di (dexJarFileApexRootRelative +:+ ".prof") with
                | Some profilePath => dexpreopter.withInputProfilePathOnHost dp profilePath
                | None => dp
                end in
              let '(ctx, dp) := dexpreopt ctx dp dexOutputPath in
              mkDexActions ctx flags dexJarFile (Some installPath) dp d false
          | None =>
              unchanged
                (ModuleErrorf ctx
                   "internal error: no dex implementation jar available from prebuilt APEX %s"
                   [ApexModuleName di])
                false
          end
      end
    else if Bool (Compile_dex j) then
      let '(ctx, sdkDep) := decodeSdkDep ctx (SdkVersion j) in
      let '(ctx, flags) := addSdkDep ctx sdkDep flags in
      let dp :=
        dexpreopter.withInstallPath (dexpreopter j)
          (getInstallPath ctx (dexpreopter j)
             (PathForModuleInstall ctx ["framework"; jarName])) in
      let '(dp, d) := setUncompressedDex ctx dp (dexer j) in
      let dexParams :=
        {| flags := flags; dexSdkVersion := SdkVersion j;
           classesJar := outputFile; jarName := jarName |} in
      let '(ctx, dexOutputFile) := compileDex ctx dexParams in
      if Failed ctx then
        mkDexActions ctx flags (dexJarFile j) (dexJarInstallFile j) dp d true
      else
        let dexOutputFile := hiddenAPIEncodeDex ctx dexOutputFile in
        mkDexActions ctx flags (makeDexJarPathFromPath dexOutputFile)
          (Some (PathForModuleInstall ctx ["framework"; jarName])) dp d false
    else unchanged ctx false.

(** What [GenerateAndroidBuildActions] leaves behind. *)
Record Generated : Type := mkGenerated {
  ctxAfter : ModuleContext;
  moduleAfter : t;
  flagsAfter : javaBuilderFlags;
  (** [ctx.SetProvider(JavaInfoProvider, ...)], when it is reached. *)
  JavaInfoSet : option JavaInfo;
}.

(** [GenerateAndroidBuildActions] on the direct dependencies [directDeps],
    in the order in which the context visits them. The build rules that the
    function emits (jar merging, jetifier, install) and the [hiddenAPI]
    structure are outside this model. *)
Definition GenerateAndroidBuildActions `{Dexpreopt} `{Android} `{JavaCollaborators}
    `{ContextMethods} `{DexpreopterMethods} `{filepath.Methods}
    (j : t) (ctx : ModuleContext) (directDeps : list (DependencyTag * Module))
  : Generated :=
  let hide :=
    if negb (IsForPlatform (ApexInfoProvider ctx)) then true
    else hideApexVariantFromMake j in
  let jarName := StemOf j +:+ ".jar" in
  let outputFile := PathForModuleOut ctx ["combined"; jarName] in
  let outputFile :=
    if Bool (Jetifier (properties j))
    then PathForModuleOut ctx ["jetifier"; jarName] else outputFile in
  let transitive := collectTransitiveHeaderJars ctx directDeps in
  let '(ctx, flags, clcMap) := visitDirectDeps j ctx directDeps in
  let aidlDirs := PathsForModuleSrc ctx (Export_include_dirs (properties j)) in
  let dex := deviceActions j ctx flags jarName outputFile in
  let j' :=
    {| Name := Name j;
       BaseModuleName := BaseModuleName j;
       dexer := dexDexer dex;
       dexpreopter := dexDexpreopter dex;
       properties := properties j;
       Compile_dex := Compile_dex j;
       dexJarFile := dexJar dex;
       dexJarInstallFile := dexJarInstall dex;
       combinedClasspathFile := Some outputFile;
       classLoaderContexts := clcMap;
       exportAidlIncludeDirs := aidlDirs;
       hideApexVariantFromMake := hide;
       transitiveLibsHeaderJars := transitive.1;
       transitiveStaticLibsHeaderJars := transitive.2 |} in
  {| ctxAfter := dexCtx dex;
     moduleAfter := j';
     flagsAfter := dexFlags dex;
     JavaInfoSet :=
       if returned dex then None
       else Some
         {| HeaderJars := PathsIfNonNil [combinedClasspathFile j'];
            TransitiveLibsHeaderJars := transitiveLibsHeaderJars j';
            TransitiveStaticLibsHeaderJars := transitiveStaticLibsHeaderJars j';
            ImplementationAndResourcesJars := PathsIfNonNil [combinedClasspathFile j'];
            ImplementationJars := PathsIfNonNil [combinedClasspathFile j'];
            AidlIncludeDirs := exportAidlIncludeDirs j' |} |}.

End ImportModule.

(** ** dex_import *)

Module DexImport.

Record DexImportProperties : Type := mkDexImportProperties {
  Jars : list string;
  (** set the name of the output *)
  Stem : option string;
}.

Record t : Type := mk {
  (** [j.ModuleBase.Name()] *)
  BaseName : string;
  properties : DexImportProperties;
  dexJarFile : OptionalDexJarPath;
  dexpreopter : dexpreopter.t;
  hideApexVariantFromMake : bool;
}.

Definition jarsFormat : string := "exactly one jar must be provided".

Definition StemOf (j : t) : string :=
  StringDefault (Stem (properties j)) (BaseName j).

(** The rule that makes the output jar: [zip2zip] and [zipalign] through a
    temporary file, or a copy. *)
Inductive DexRule : Type :=
  | UncompressDexRule (input temporary output : Path)
  | CpRule (input output : Path).

Definition ruleInput (r : DexRule) : Path :=
  match r with
  | UncompressDexRule input _ _ => input
  | CpRule input _ => input
  end.

Definition ruleOutput (r : DexRule) : Path :=
  match r with
  | UncompressDexRule _ _ output => output
  | CpRule _ output => output
  end.

(** A call of [ctx.InstallFile]. *)
Record Install : Type := mkInstall {
  installDir : Path;
  installName : string;
  installSrc : Path;
}.

(** What [GenerateAndroidBuildActions] leaves behind when it returns. *)
Record Finished : Type := mkFinished {
  ctxAfter : ModuleContext;
  moduleAfter : t;
  rule : DexRule;
  installs : list Install;
}.

(** [GenerateAndroidBuildActions], from its first statement to its last. It
    panics, with the context as it is then, when [j.properties.Jars[0]] is
    out of range. *)
Definition GenerateAndroidBuildActions `{Android} `{ContextMethods}
    `{DexpreopterMethods} (j : t) (ctx : ModuleContext) : Outcome Finished :=
  let ctx :=
    if bool_decide (length (Jars (properties j)) ≠ 1%nat)
    then PropertyErrorf ctx "jars" jarsFormat []
    else ctx in
  let apexInfo := ApexInfoProvider ctx in
  let hide :=
    if negb (IsForPlatform apexInfo) then true
    else hideApexVariantFromMake j in
  let dp :=
    dexpreopter.withInstallPath (dexpreopter j)
      (getInstallPath ctx (dexpreopter j)
         (PathForModuleInstall ctx ["framework"; StemOf j +:+ ".jar"])) in
  let dp := dexpreopter.withUncompressedDex dp (shouldUncompressDex ctx dp) in
  match Jars (properties j) !! 0%nat with
  | None => Panicked ctx
  | Some jar =>
      let '(ctx, inputJar) := ExpandSource ctx jar "jars" in
      let dexOutputFile := PathForModuleOut ctx [ModuleName ctx +:+ ".jar"] in
      let rule :=
        if dexpreopter.uncompressedDex dp then
          UncompressDexRule inputJar
            (PathForModuleOut ctx [ModuleName ctx +:+ ".jar.unaligned"]) dexOutputFile
        else CpRule inputJar dexOutputFile in
      let '(ctx, dp) := dexpreopt ctx dp dexOutputFile in
      Done {| ctxAfter := ctx;
              moduleAfter :=
                {| BaseName := BaseName j;
                   properties := properties j;
                   dexJarFile := makeDexJarPathFromPath dexOutputFile;
                   dexpreopter := dp;
                   hideApexVariantFromMake := hide |};
              rule := rule;
              installs :=
                if IsForPlatform apexInfo then
                  [{| installDir := PathForModuleInstall ctx ["framework"];
                      installName := StemOf j +:+ ".jar";
                      installSrc := dexOutputFile |}]
                else [] |}
  end.

(** [DexImport.DexJarBuildPath] *)
Definition DexJarBuildPath (j : t) : OptionalDexJarPath := dexJarFile j.


End DexImport.

(** ** A concrete build, used to run the definitions *)

Definition stripPrebuilt (n : string) : string :=
  match n with
  | String "p" (String "r" (String "e" (String "b" (String "u" (String "i"
      (String "l" (String "t" (String "_" rest)))))))) => rest
  | _ => n
  end.

Definition joinPath (parts : list string) : string :=
  fold_right (fun part rest => "/" +:+ part +:+ rest) EmptyString parts.

Definition sampleDexpreopt : Dexpreopt := {| AnySdkVersion := 10000 |}.

Definition sampleAndroid : Android :=
  {| RemoveOptionalPrebuiltPrefix := stripPrebuilt;
     PathForModuleOut := fun ctx parts => "out/" +:+ ModuleName ctx +:+ joinPath parts;
     PathForModuleInstall := fun ctx parts => "install" +:+ joinPath parts;
     PathForModuleInPartitionInstall := fun ctx parts => "install" +:+ joinPath parts;
     PathsForModuleSrc := fun ctx srcs => srcs |}.

Definition sampleSdkDep : sdkDep.t :=
  {| sdkDep.useModule := false; sdkDep.useFiles := true; sdkDep.invalidVersion := true;
     sdkDep.bootclasspath := ["core-oj"; "core-libart"];
     sdkDep.systemModules := EmptyString;
     sdkDep.classpath := [];
     sdkDep.java9Classpath := ["framework"];
     sdkDep.frameworkResModule := EmptyString;
     sdkDep.jars := ["prebuilts/sdk/android.jar"];
     sdkDep.aidl := None;
     sdkDep.noStandardLibs := false; sdkDep.noFrameworksLibs := false |}.

Definition sampleCollaborators : JavaCollaborators :=
  {| collectTransitiveHeaderJars := fun ctx deps => (None, None);
     decodeSdkDep := fun ctx spec => (ctx, sampleSdkDep);
     FindDeapexerProviderForModule := fun ctx => (ctx, None);
     compileDex := fun ctx params => (ctx, "out/" +:+ ModuleName ctx +:+ "/dex/" +:+ jarName params);
     hiddenAPIEncodeDex := fun ctx p => p |}.

Definition sampleCtx (n : string) : ModuleContext :=
  {| ModuleName := n; Device := true;
     ApexInfoProvider :=
       {| IsForPlatform := true; ForPrebuiltApex := false; ApexVariationName := EmptyString |};
     AllowMissingDependencies := true;
     errs := []; MissingDeps := [] |}.

(** A context whose methods answer as for a device module that is neither a
    boot jar nor loaded by privileged modules, and a dexpreopter that is
    disabled. *)
Definition sampleContextMethods : ContextMethods :=
  {| Host := fun ctx => negb (Device ctx);
     Windows := fun ctx => false;
     InstallInTestcases := fun ctx => false;
     DeviceArch := fun ctx => "arm64";
     BootJars := fun ctx => ["core-oj"; "framework"];
     UncompressPrivAppDex := fun ctx => true;
     ModulesLoadedByPrivilegedModules := fun ctx => ["telephony-common"];
     ExpandSource := fun ctx src prop => (ctx, src) |}.

Definition sampleDexpreopterMethods : DexpreopterMethods :=
  {| dexpreoptDisabled := fun ctx d => true;
     odexOnSystemOther := fun ctx d p => false;
     getInstallPath := fun ctx d p => p;
     dexpreopt := fun ctx d p => (ctx, d) |}.

Definition sampleDexpreopter : dexpreopter.t :=
  {| dexpreopter.installPath := None; dexpreopter.uncompressedDex := false;
     dexpreopter.isSDKLibrary := false; dexpreopter.inputProfilePathOnHost := None;
     dexpreopter.Profile_guided := Some true |}.

(** [filepath.Join] on elements that are clean already. *)
Definition sampleFilepath : filepath.Methods :=
  {| filepath.Join := fun elems => String.concat "/" elems |}.

(** The variant of [n] for the prebuilt apex [com.android.art]. *)
Definition sampleApexCtx (n : string) : ModuleContext :=
  {| ModuleName := n; Device := true;
     ApexInfoProvider :=
       {| IsForPlatform := false; ForPrebuiltApex := true;
          ApexVariationName := "com.android.art" |};
     AllowMissingDependencies := false;
     errs := []; MissingDeps := [] |}.

(** A deapexer that exports every file of the apex. *)
Definition sampleDeapexerInfo : DeapexerInfo :=
  {| PrebuiltExportPath := fun f => Some ("out/deapexer/" +:+ f);
     ApexModuleName := "com.android.art" |}.

Definition sampleApexCollaborators : JavaCollaborators :=
  {| collectTransitiveHeaderJars := fun ctx deps => (None, None);
     decodeSdkDep := fun ctx spec => (ctx, sampleSdkDep);
     FindDeapexerProviderForModule := fun ctx => (ctx, Some sampleDeapexerInfo);
     compileDex := fun ctx params =>
       (ctx, "out/" +:+ ModuleName ctx +:+ "/dex/" +:+ jarName params);
     hiddenAPIEncodeDex := fun ctx p => p |}.

Definition sampleJavaInfo (jar : Path) : JavaInfo :=
  {| HeaderJars := [jar]; TransitiveLibsHeaderJars := None;
     TransitiveStaticLibsHeaderJars := None;
     ImplementationAndResourcesJars := [jar]; ImplementationJars := [jar];
     AidlIncludeDirs := [] |}.

(** A plain java library [n] with header jar [n.jar] and an empty CLC. *)
Definition sampleLibrary (n : string) : Module :=
  {| OtherModuleName := n;
     JavaInfoProvider := Some (sampleJavaInfo (n +:+ ".jar"));
     ProguardSpecInfoProvider := None;
     asUsesLibraryDependency :=
       Some {| DexJarBuildPath := Some (n +:+ ".dex.jar");
               DexJarInstallPath := Some ("/system/framework/" +:+ n +:+ ".jar");
               ClassLoaderContexts := ∅ |};
     asSdkLibraryDependency := None;
     asProvidesUsesLib := Some None |}.

(** A shared SDK library [n]; [dexJar] is the dex jar it publishes, and its
    own CLC has one node for [org.apache.http.legacy]. *)
Definition sampleSdkLibrary (n : string) (dexJar : option Path) : Module :=
  {| OtherModuleName := n;
     JavaInfoProvider := Some (sampleJavaInfo (n +:+ ".stubs.jar"));
     ProguardSpecInfoProvider := None;
     asUsesLibraryDependency :=
       Some {| DexJarBuildPath := dexJar;
               DexJarInstallPath := Some ("/system/framework/" +:+ n +:+ ".jar");
               ClassLoaderContexts :=
                 {[ 10000 :=
                    [mkClassLoaderContext "org.apache.http.legacy" false
                       (Some "legacy.dex.jar") (Some "/system/framework/legacy.jar") ∅] ]} |};
     asSdkLibraryDependency :=
       Some {| sharedLibrary := true; SdkHeaderJars := fun _ => [n +:+ ".stubs.jar"] |};
     asProvidesUsesLib := None |}.

Definition sampleImport (n : string) : ImportModule.t :=
  {| ImportModule.Name := "prebuilt_" +:+ n;
     ImportModule.BaseModuleName := n;
     ImportModule.dexer := mkDexer None false;
     ImportModule.dexpreopter := sampleDexpreopter;
     ImportModule.properties :=
       {| ImportModule.Jars := [n +:+ ".jar"];
          ImportModule.Sdk_version := Some "current";
          ImportModule.Min_sdk_version := None;
          ImportModule.Replace_max_sdk_version_placeholder := None;
          ImportModule.Installable := None;
          ImportModule.Permitted_packages := [];
          ImportModule.Libs := [];
          ImportModule.Exclude_files := [];
          ImportModule.Exclude_dirs := [];
          ImportModule.Jetifier := None;
          ImportModule.Stem := None;
          ImportModule.Export_include_dirs := [] |};
     ImportModule.Compile_dex := Some true;
     ImportModule.dexJarFile := None;
     ImportModule.dexJarInstallFile := None;
     ImportModule.combinedClasspathFile := None;
     ImportModule.classLoaderContexts := ∅;
     ImportModule.exportAidlIncludeDirs := [];
     ImportModule.hideApexVariantFromMake := false;
     ImportModule.transitiveLibsHeaderJars := None;
     ImportModule.transitiveStaticLibsHeaderJars := None |}.

(** The bucket that an edge declares: the version of a uses-library tag, the
    any-version bucket for every other tag. *)
Definition edgeBucket `{Dexpreopt} (tag : DependencyTag) : Z :=
  match tag with
  | UsesLibraryTag t => sdkVersion t
  | _ => AnySdkVersion
  end.

(** A uses-library tag of the any-version bucket (not a compatibility one). *)
Definition isUsesLibraryAny `{Dexpreopt} (tag : DependencyTag) : bool :=
  match tag with
  | UsesLibraryTag t => bool_decide (sdkVersion t = AnySdkVersion)
  | _ => false
  end.

(** The CLC that a dependency has published, empty when it publishes none. *)
Definition publishedCLC (depModule : Module) : ClassLoaderContextMap :=
  match asUsesLibraryDependency depModule with
  | Some dep => ClassLoaderContexts dep
  | None => ∅
  end.

(** The header jars of a dependency that publishes [JavaInfo] and is reached
    through one of [tags]. *)
Definition headerJarsThrough (tags : list DependencyTag)
    (edge : DependencyTag * Module) : Paths :=
  match JavaInfoProvider edge.2 with
  | Some dep => if bool_decide (edge.1 ∈ tags) then HeaderJars dep else []
  | None => []
  end.

(** A plain java library [n] that publishes no dex jar and has an empty CLC. *)
Definition samplePlain (n : string) : Module :=
  {| OtherModuleName := n;
     JavaInfoProvider := Some (sampleJavaInfo (n +:+ ".jar"));
     ProguardSpecInfoProvider := None;
     asUsesLibraryDependency :=
       Some {| DexJarBuildPath := None;
               DexJarInstallPath := None;
               ClassLoaderContexts := ∅ |};
     asSdkLibraryDependency := None;
     asProvidesUsesLib := None |}.

(** A library that is not an SDK library and declares the library [lib] that
    it provides. *)
Definition sampleProvider (n lib : string) : Module :=
  {| OtherModuleName := n;
     JavaInfoProvider := Some (sampleJavaInfo (n +:+ ".jar"));
     ProguardSpecInfoProvider := None;
     asUsesLibraryDependency :=
       Some {| DexJarBuildPath := Some (n +:+ ".dex.jar");
               DexJarInstallPath := None;
               ClassLoaderContexts := ∅ |};
     asSdkLibraryDependency := None;
     asProvidesUsesLib := Some (Some lib) |}.

(** A plain library whose own CLC has a node for the SDK library [lib]. *)
Definition sampleUser (n lib : string) : Module :=
  {| OtherModuleName := n;
     JavaInfoProvider := Some (sampleJavaInfo (n +:+ ".jar"));
     ProguardSpecInfoProvider := None;
     asUsesLibraryDependency :=
       Some {| DexJarBuildPath := Some (n +:+ ".dex.jar");
               DexJarInstallPath := None;
               ClassLoaderContexts :=
                 {[ 10000 := [mkClassLoaderContext lib false (Some (lib +:+ ".dex.jar"))
                                None ∅] ]} |};
     asSdkLibraryDependency := None;
     asProvidesUsesLib := Some None |}.

(** A map with one node in the any-version bucket. *)
Definition sampleCLC : ClassLoaderContextMap :=
  {[ 10000 := [mkClassLoaderContext "x" false None None ∅] ]}.

(** The errors that a step reports: those of the context after it that the
    context before it did not have. *)
Definition reported (before after : ModuleContext) : list ModuleError :=
  drop (length (errs before)) (errs after).




Definition sampleDexImport (jars : list string) : DexImport.t :=
  {| DexImport.BaseName := "dex";
     DexImport.properties := DexImport.mkDexImportProperties jars None;
     DexImport.dexJarFile := None;
     DexImport.dexpreopter := sampleDexpreopter;
     DexImport.hideApexVariantFromMake := false |}.

(** * Further parts of java.go

    The rest of the embedding follows [java.go] beyond the places above: the
    names of the language levels, the dependencies that the mutators of
    [java_import], [java_test_host], [java_binary] and [java_api_library]
    request, the methods of [java_import] about its jars and its prebuilt
    apex, the device binaries of a host test, the two kinds of variants of a
    binary, the API files of [java_api_library], the installation of
    libraries and imports, and the members of an SDK snapshot.

    - A mutator context records the dependencies requested, one entry for
      each name, in the order of the calls.
    - A function that can panic returns an [option], or an [Outcome] when the
      context at the panic matters; a function that returns early is written
      with [Flow].
    - Build rules, installed files, copied files and added properties are
      returned as values, in the order in which the code emits them.
    - What is declared outside [java.go] is a field of a class, as before. *)

(** ** Language levels: names *)

(** [javaVersion.String]. *)
Definition javaVersionString (v : javaVersion) : string :=
  if bool_decide (v = JAVA_VERSION_6) then "1.6"
  else if bool_decide (v = JAVA_VERSION_7) then "1.7"
  else if bool_decide (v = JAVA_VERSION_8) then "1.8"
  else if bool_decide (v = JAVA_VERSION_9) then "1.9"
  else if bool_decide (v = JAVA_VERSION_11) then "11"
  else if bool_decide (v = JAVA_VERSION_17) then "17"
  else "unsupported".

(** [javaVersion.StringForKotlinc]; kotlinc supports 1.6, 1.8, 9, 10, 11, 12,
    13, 14, 15, 16, 17. *)
Definition StringForKotlinc (v : javaVersion) : string :=
  if bool_decide (v = JAVA_VERSION_7) then "1.6"
  else if bool_decide (v = JAVA_VERSION_9) then "9"
  else javaVersionString v.

Definition kotlincJvmTargets : list string :=
  ["1.6"; "1.8"; "9"; "10"; "11"; "12"; "13"; "14"; "15"; "16"; "17"].

(** [normalizeJavaVersion]: the language level that the [java_version]
    property names; a level that is not supported and a name that is not
    recognised are property errors. *)
Definition normalizeJavaVersion (ctx : ModuleContext) (version : string)
  : ModuleContext * javaVersion :=
  if bool_decide (version = "1.6" ∨ version = "6") then (ctx, JAVA_VERSION_6)
  else if bool_decide (version = "1.7" ∨ version = "7") then (ctx, JAVA_VERSION_7)
  else if bool_decide (version = "1.8" ∨ version = "8") then (ctx, JAVA_VERSION_8)
  else if bool_decide (version = "1.9" ∨ version = "9") then (ctx, JAVA_VERSION_9)
  else if bool_decide (version = "11") then (ctx, JAVA_VERSION_11)
  else if bool_decide (version = "17") then (ctx, JAVA_VERSION_17)
  else if bool_decide (version ∈ ["10"; "12"; "13"; "14"; "15"; "16"]) then
    (PropertyErrorf ctx "java_version" "Java language level %s is not supported"
       [version],
     JAVA_VERSION_UNSUPPORTED)
  else
    (PropertyErrorf ctx "java_version" "Unrecognized Java language level" [],
     JAVA_VERSION_UNSUPPORTED).

(** ** Dependency tags: licenses *)

Inductive LicenseAnnotation : Type :=
  | LicenseAnnotationSharedDependency
  | LicenseAnnotationToolchain.

(** [dependencyTag.LicenseAnnotations]; a [usesLibraryDependencyTag] has the
    method through the tag that it embeds. *)
Definition LicenseAnnotations (d : dependencyTag) : list LicenseAnnotation :=
  if runtimeLinked d then [LicenseAnnotationSharedDependency]
  else if toolchain d then [LicenseAnnotationToolchain]
  else [].

Definition IsJniDepTag (depTag : DependencyTag) : bool :=
  bool_decide (depTag = jniLibTag).

(** ** Dependencies that a mutator requests *)

(** [blueprint.Variation]. *)
Record Variation : Type := mkVariation {
  Mutator : string;
  VariationName : string;
}.

(** The three calls with which the mutators of [java.go] request
    dependencies. *)
Inductive AddCall : Type :=
  | ViaAddVariationDependencies
  | ViaAddFarVariationDependencies
  | ViaAddDependency.

(** One requested dependency: the call, the variations asked for, the tag of
    the edge and the name of the module depended on. *)
Record DepRequest : Type := mkDepRequest {
  reqCall : AddCall;
  reqVariations : list Variation;
  reqTag : DependencyTag;
  reqName : string;
}.

(** What an [android.BottomUpMutatorContext] answers and records: the module
    context, and the dependencies requested so far, one for each name, in the
    order of the calls. *)
Record BottomUpMutatorContext : Type := mkBottomUpMutatorContext {
  moduleCtx : ModuleContext;
  requested : list DepRequest;
}.

Definition addRequests (call : AddCall) (ctx : BottomUpMutatorContext)
    (variations : list Variation) (tag : DependencyTag) (names : list string)
  : BottomUpMutatorContext :=
  {| moduleCtx := moduleCtx ctx;
     requested := requested ctx ++ map (mkDepRequest call variations tag) names |}.

(** [ctx.AddVariationDependencies(variations, tag, names...)]. *)
Definition AddVariationDependencies : BottomUpMutatorContext -> list Variation ->
    DependencyTag -> list string -> BottomUpMutatorContext :=
  addRequests ViaAddVariationDependencies.

(** [ctx.AddFarVariationDependencies(variations, tag, names...)]. *)
Definition AddFarVariationDependencies : BottomUpMutatorContext -> list Variation ->
    DependencyTag -> list string -> BottomUpMutatorContext :=
  addRequests ViaAddFarVariationDependencies.

(** [ctx.AddDependency(ctx.Module(), tag, name)]. *)
Definition AddDependency (ctx : BottomUpMutatorContext) (tag : DependencyTag)
    (name : string) : BottomUpMutatorContext :=
  addRequests ViaAddDependency ctx [] tag [name].

(** The dependencies that a mutator requested: those of the context after it
    that the context before it did not have. *)
Definition newRequests (before after : BottomUpMutatorContext) : list DepRequest :=
  drop (length (requested before)) (requested after).

(** The names requested with a tag. *)
Definition namesWithTag (tag : DependencyTag) (reqs : list DepRequest) : list string :=
  map reqName (filter (fun r => reqTag r = tag) reqs).

(** The lists of the config package that [sdkDeps] names. *)
Class JavaConfig : Type := {
  LegacyCorePlatformBootclasspathLibraries : list string;
  FrameworkLibraries : list string;
}.

(** [sdkDeps]: the dependencies on the modules of the SDK. *)
Definition sdkDeps `{JavaCollaborators} `{JavaConfig} (ctx : BottomUpMutatorContext)
    (sdkContext : SdkSpec) (d : dexer) : BottomUpMutatorContext :=
  let '(mctx, sdkDep) := decodeSdkDep (moduleCtx ctx) sdkContext in
  let ctx := {| moduleCtx := mctx; requested := requested ctx |} in
  let ctx :=
    if sdkDep.useModule sdkDep then
      let ctx := AddVariationDependencies ctx [] bootClasspathTag
                   (sdkDep.bootclasspath sdkDep) in
      let ctx := AddVariationDependencies ctx [] java9LibTag
                   (sdkDep.java9Classpath sdkDep) in
      let ctx := AddVariationDependencies ctx [] sdkLibTag (sdkDep.classpath sdkDep) in
      let ctx :=
        if effectiveOptimizeEnabled d && sdkDep.hasStandardLibs sdkDep then
          AddVariationDependencies ctx [] proguardRaiseTag
            LegacyCorePlatformBootclasspathLibraries
        else ctx in
      if effectiveOptimizeEnabled d && sdkDep.hasFrameworkLibs sdkDep then
        AddVariationDependencies ctx [] proguardRaiseTag FrameworkLibraries
      else ctx
    else ctx in
  if bool_decide (sdkDep.systemModules sdkDep ≠ EmptyString) then
    AddVariationDependencies ctx [] systemModulesTag [sdkDep.systemModules sdkDep]
  else ctx.

(** An SDK that is built from modules, and the lists of the config package. *)
Definition sampleModuleSdkDep : sdkDep.t :=
  {| sdkDep.useModule := true; sdkDep.useFiles := false; sdkDep.invalidVersion := false;
     sdkDep.bootclasspath := ["core-oj"; "core-libart"];
     sdkDep.systemModules := "core-current-stubs-system-modules";
     sdkDep.classpath := ["android_stubs_current"];
     sdkDep.java9Classpath := ["framework"];
     sdkDep.frameworkResModule := "framework-res";
     sdkDep.jars := [];
     sdkDep.aidl := None;
     sdkDep.noStandardLibs := false; sdkDep.noFrameworksLibs := false |}.

Definition sampleModuleCollaborators : JavaCollaborators :=
  {| collectTransitiveHeaderJars := fun ctx deps => (None, None);
     decodeSdkDep := fun ctx spec => (ctx, sampleModuleSdkDep);
     FindDeapexerProviderForModule := fun ctx => (ctx, None);
     compileDex := fun ctx params =>
       (ctx, "out/" +:+ ModuleName ctx +:+ "/dex/" +:+ jarName params);
     hiddenAPIEncodeDex := fun ctx p => p |}.

Definition sampleJavaConfig : JavaConfig :=
  {| LegacyCorePlatformBootclasspathLibraries := ["legacy.core.platform.api.stubs"];
     FrameworkLibraries := ["ext"; "framework"] |}.

Definition sampleMutatorCtx (n : string) : BottomUpMutatorContext :=
  {| moduleCtx := sampleCtx n; requested := [] |}.

(** ** java_import: the other methods *)

(** [requiredFilesFromPrebuiltApexForImport] returns information about the
    files that a java_import or java_sdk_library_import with the specified
    base module name requires to be exported from a prebuilt_apex/apex_set. *)
Definition requiredFilesFromPrebuiltApexForImport `{filepath.Methods} (name : string)
    (d : dexpreopter.t) : list string :=
  let dexJarFileApexRootRelative := ImportModule.apexRootRelativePathToJavaLib name in
  (* Add the dex implementation jar to the set of exported files. *)
  let files := [dexJarFileApexRootRelative] in
  if BoolDefault (dexpreopter.Profile_guided d) false
  then files ++ [dexJarFileApexRootRelative +:+ ".prof"]
  else files.

(** An [error] made by [fmt.Errorf]: the format and its arguments. *)
Record error : Type := Errorf {
  errorFormat : string;
  errorArgs : list string;
}.

Module ImportMethods.

(** [Import.DepsMutator]; [d] is the [dexer] that [Import] embeds. *)
Definition DepsMutator `{JavaCollaborators} `{JavaConfig} (j : ImportModule.t)
    (d : dexer) (ctx : BottomUpMutatorContext) : BottomUpMutatorContext :=
  let ctx := AddVariationDependencies ctx [] libTag
               (ImportModule.Libs (ImportModule.properties j)) in
  if Device (moduleCtx ctx) && Bool (ImportModule.Compile_dex j) then
    sdkDeps ctx (ImportModule.SdkVersion j) d
  else ctx.

(** [Import.OutputFiles]: the list holds [j.combinedClasspathFile] as it is,
    nil or not. *)
Definition OutputFiles (j : ImportModule.t) (tag : string)
  : list (option Path) * option error :=
  if bool_decide (tag = EmptyString ∨ tag = ".jar") then
    ([ImportModule.combinedClasspathFile j], None)
  else ([], Some (Errorf "unsupported module reference tag %q" [tag])).

Definition HeaderJars (j : ImportModule.t) : Paths :=
  match ImportModule.combinedClasspathFile j with
  | None => []
  | Some p => [p]
  end.

Definition ImplementationAndResourcesJars (j : ImportModule.t) : Paths :=
  match ImportModule.combinedClasspathFile j with
  | None => []
  | Some p => [p]
  end.

(** [Import.RequiredFilesFromPrebuiltApex]; [d] is the [dexpreopter] that
    [Import] embeds. *)
Definition RequiredFilesFromPrebuiltApex `{filepath.Methods} (j : ImportModule.t)
    (d : dexpreopter.t) : list string :=
  let name := ImportModule.BaseModuleName j in
  requiredFilesFromPrebuiltApexForImport name d.

End ImportMethods.

(** ** java_test_host: device binaries *)

(** [android.Target], by the variations that [Target.Variations] gives. *)
Record Target : Type := mkTarget {
  Variations : list Variation;
}.

(** What [ctx.Config()] holds about targets, and [android.FirstTarget]. *)
Class TargetConfig : Type := {
  (** [ctx.Config().AndroidFirstDeviceTarget] *)
  AndroidFirstDeviceTarget : Target;
  (** [ctx.Config().Targets[android.Android]] *)
  AndroidTargets : list Target;
  (** [android.FirstTarget(targets, filter)] *)
  FirstTarget : list Target -> string -> list Target;
  (** [ctx.Config().Targets], as [%q] prints it *)
  TargetsText : string;
}.

(** [ctx.PropertyErrorf] of a mutator context. *)
Definition MutatorPropertyErrorf (ctx : BottomUpMutatorContext)
    (property format : string) (args : list string) : BottomUpMutatorContext :=
  {| moduleCtx := PropertyErrorf (moduleCtx ctx) property format args;
     requested := requested ctx |}.

(** A function body that can [return] early: the state when it returned, or
    the state with which it goes on. *)
Inductive Flow (A : Type) : Type :=
  | Returned (a : A)
  | Going (a : A).
Arguments Returned {A} a.
Arguments Going {A} a.

Definition andThen {A : Type} (f : Flow A) (k : A -> Flow A) : Flow A :=
  match f with
  | Returned a => Returned a
  | Going a => k a
  end.

Definition finish {A : Type} (f : Flow A) : A :=
  match f with
  | Returned a => a
  | Going a => a
  end.

Notation "f >>> k" := (andThen f k) (at level 61, left associativity).

Module TestHost.

Record hostTestProperties : Type := mkHostTestProperties {
  (** list of native binary modules that should be installed alongside the test *)
  Data_native_bins : list string;
  (** This property only adds the first variant of the dependency *)
  Data_device_bins_first : list string;
  (** This property adds 64bit AND 32bit variants of the dependency *)
  Data_device_bins_both : list string;
  (** This property only adds 64bit variants of the dependency *)
  Data_device_bins_64 : list string;
  (** This property adds 32bit variants of the dependency if available, or
      else defaults to the 64bit variant *)
  Data_device_bins_prefer32 : list string;
  (** This property only adds 32bit variants of the dependency *)
  Data_device_bins_32 : list string;
}.

Record t : Type := mk {
  (** [j.Name()] *)
  Name : string;
  testHostProperties : hostTestProperties;
}.

Definition addDataDeviceBinsDeps `{TargetConfig} (j : t)
    (ctx : BottomUpMutatorContext) : BottomUpMutatorContext :=
  let props := testHostProperties j in
  let ctx :=
    if bool_decide (0 < length (Data_device_bins_first props))%nat then
      let deviceVariations := Variations AndroidFirstDeviceTarget in
      AddFarVariationDependencies ctx deviceVariations dataDeviceBinsTag
        (Data_device_bins_first props)
    else ctx in
  let android32TargetList := FirstTarget AndroidTargets "lib32" in
  let android64TargetList := FirstTarget AndroidTargets "lib64" in
  let maybeAndroid32Target := head android32TargetList in
  let maybeAndroid64Target := head android64TargetList in
  finish (
    (if bool_decide (0 < length (Data_device_bins_both props))%nat then
       match maybeAndroid32Target, maybeAndroid64Target with
       | None, None =>
           Returned (MutatorPropertyErrorf ctx "data_device_bins_both"
                       "no device targets available. Targets: %q" [TargetsText])
       | _, _ =>
           let ctx :=
             match maybeAndroid32Target with
             | Some target =>
                 AddFarVariationDependencies ctx (Variations target)
                   dataDeviceBinsTag (Data_device_bins_both props)
             | None => ctx
             end in
           let ctx :=
             match maybeAndroid64Target with
             | Some target =>
                 AddFarVariationDependencies ctx (Variations target)
                   dataDeviceBinsTag (Data_device_bins_both props)
             | None => ctx
             end in
           Going ctx
       end
     else Going ctx)
    >>> (fun ctx =>
      if bool_decide (0 < length (Data_device_bins_prefer32 props))%nat then
        match maybeAndroid32Target with
        | Some target =>
            Going (AddFarVariationDependencies ctx (Variations target)
                     dataDeviceBinsTag (Data_device_bins_prefer32 props))
        | None =>
            match maybeAndroid64Target with
            | None =>
                Returned (MutatorPropertyErrorf ctx "data_device_bins_prefer32"
                            "no device targets available. Targets: %q" [TargetsText])
            | Some target =>
                Going (AddFarVariationDependencies ctx (Variations target)
                         dataDeviceBinsTag (Data_device_bins_prefer32 props))
            end
        end
      else Going ctx)
    >>> (fun ctx =>
      if bool_decide (0 < length (Data_device_bins_32 props))%nat then
        match maybeAndroid32Target with
        | None =>
            Returned (MutatorPropertyErrorf ctx "data_device_bins_32"
                        "cannot find 32bit device target. Targets: %q" [TargetsText])
        | Some target =>
            let deviceVariations := Variations target in
            Going (AddFarVariationDependencies ctx deviceVariations
                     dataDeviceBinsTag (Data_device_bins_32 props))
        end
      else Going ctx)
    >>> (fun ctx =>
      if bool_decide (0 < length (Data_device_bins_64 props))%nat then
        match maybeAndroid64Target with
        | None =>
            Returned (MutatorPropertyErrorf ctx "data_device_bins_64"
                        "cannot find 64bit device target. Targets: %q" [TargetsText])
        | Some target =>
            let deviceVariations := Variations target in
            Going (AddFarVariationDependencies ctx deviceVariations
                     dataDeviceBinsTag (Data_device_bins_64 props))
        end
      else Going ctx)).

Definition dataDeviceBins (j : t) : list string :=
  let props := testHostProperties j in
  let ret := [] in
  let ret := ret ++ Data_device_bins_first props in
  let ret := ret ++ Data_device_bins_both props in
  let ret := ret ++ Data_device_bins_prefer32 props in
  let ret := ret ++ Data_device_bins_32 props in
  let ret := ret ++ Data_device_bins_64 props in
  ret.

(** [tradefed.Option] and [tradefed.Object], the one [tradefed.Config] that
    [java.go] makes. *)
Record Option : Type := mkOption {
  OptionName : string;
  Key : string;
  Value : string;
}.

Record Object : Type := mkObject {
  Type_ : string;
  Class_ : string;
  Options : list Option;
}.

(** The [configs] that [TestHost.GenerateAndroidBuildActions] passes to
    [generateAndroidBuildActionsWithConfig]; [Join] is [filepath.Join]. *)
Definition configs (Join : list string -> string) (j : t) : list Object :=
  let dataDeviceBins := dataDeviceBins j in
  if bool_decide (0 < length dataDeviceBins)%nat then
    (* add Tradefed configuration to push device bins to device for testing *)
    let remoteDir := Join ["/data/local/tests/unrestricted/"; Name j] in
    let options := [mkOption "cleanup" EmptyString "true"] in
    let options :=
      fold_left
        (fun options bin =>
           let fullPath := Join [remoteDir; bin] in
           options ++ [mkOption "push-file" bin fullPath])
        dataDeviceBins options in
    [mkObject "target_preparer" "com.android.tradefed.targetprep.PushFilePreparer"
       options]
  else [].

(** The keys of the [push-file] options of the configs. *)
Definition pushFileKeys (configs : list Object) : list string :=
  map Key (filter (fun o => OptionName o = "push-file") (flat_map Options configs)).

End TestHost.

(** A config with a 64-bit device target only. *)
Definition sampleTargetConfig : TargetConfig :=
  {| AndroidFirstDeviceTarget := mkTarget [mkVariation "os" "android"; mkVariation "arch" "arm64"];
     AndroidTargets := [mkTarget [mkVariation "os" "android"; mkVariation "arch" "arm64"]];
     FirstTarget := fun targets filter =>
       if bool_decide (filter = "lib64") then take 1 targets else [];
     TargetsText := "map[android:[arm64]]" |}.

Definition sampleTestHost : TestHost.t :=
  {| TestHost.Name := "host-test";
     TestHost.testHostProperties :=
       {| TestHost.Data_native_bins := [];
          TestHost.Data_device_bins_first := ["bin-first"];
          TestHost.Data_device_bins_both := ["bin-both"];
          TestHost.Data_device_bins_64 := ["bin-64"];
          TestHost.Data_device_bins_prefer32 := ["bin-prefer32"];
          TestHost.Data_device_bins_32 := [] |} |}.

(** ** java_binary *)

(** The paths of sources, made by the android package. *)
Class SourcePaths : Type := {
  (** [android.PathForModuleSrc(ctx, path)] *)
  PathForModuleSrc : ModuleContext -> string -> Path;
  (** [android.PathForSource(ctx, path)] *)
  PathForSource : ModuleContext -> string -> Path;
}.

(** What the context answers about the variant of a binary, and the
    functions of the android and java packages that [Binary] calls; they are
    declared outside [java.go]. *)
Class BinaryMethods : Type := {
  (** [ctx.Arch().ArchType == android.Common] *)
  ArchIsCommon : ModuleContext -> bool;
  (** [android.CommonArch.String()] *)
  CommonArchString : string;
  (** [j.PartitionTag(ctx.DeviceConfig())] *)
  PartitionTag : ModuleContext -> string;
  (** The path that [ctx.InstallExecutable(dir, name, src)] returns. *)
  InstallExecutable : ModuleContext -> Path -> string -> option Path -> Path;
  (** [j.deps(ctx)], the dependencies of the [Module] that [Binary] embeds. *)
  Module_deps : BottomUpMutatorContext -> BottomUpMutatorContext;
}.

Module Binary.

Record binaryProperties : Type := mkBinaryProperties {
  (** installable script to execute the resulting jar *)
  Wrapper : option string;
  (** Name of the class containing main to be inserted into the manifest as
      Main-Class. *)
  Main_class : option string;
  (** Names of modules containing JNI libraries that should be installed
      alongside the host variant of the binary. *)
  Jni_libs : list string;
}.

Record t : Type := mk {
  binaryProps : binaryProperties;
  (** [j.properties.Manifest] *)
  Manifest : option string;
  (** [j.overridableDeviceProperties.Stem] *)
  StemProperty : option string;
  stem : string;
  overrideManifest : option Path;
  isWrapperVariant : bool;
  wrapperFile : option Path;
  binaryFile : option Path;
}.

(** [j.Stem()], declared outside [java.go], returns [j.stem]. *)
Definition Stem (j : t) : string := stem j.

(** The arguments of the rule [deviceBinaryWrapper]. *)
Record WrapperRule : Type := mkWrapperRule {
  wrapperOutput : Path;
  jar_name : string;
  partition : string;
  main_class : string;
}.

(** An executable installed with [ctx.InstallExecutable]. *)
Record Executable : Type := mkExecutable {
  execDir : Path;
  execName : string;
  execSrc : option Path;
}.

Record Generated : Type := mkGenerated {
  ctxAfter : ModuleContext;
  moduleAfter : t;
  (** [GenerateMainClassManifest(ctx, manifestFile, mainClass)] *)
  mainClassManifest : option (Path * string);
  wrapperRule : option WrapperRule;
  installed : option Executable;
  (** [j.Library.GenerateAndroidBuildActions(ctx)] comes next. *)
  thenLibrary : bool;
}.

Definition withStem (j : t) (s : string) : t :=
  {| binaryProps := binaryProps j; Manifest := Manifest j;
     StemProperty := StemProperty j; stem := s;
     overrideManifest := overrideManifest j;
     isWrapperVariant := isWrapperVariant j;
     wrapperFile := wrapperFile j; binaryFile := binaryFile j |}.

Definition withOverrideManifest (j : t) (p : Path) : t :=
  {| binaryProps := binaryProps j; Manifest := Manifest j;
     StemProperty := StemProperty j; stem := stem j;
     overrideManifest := Some p;
     isWrapperVariant := isWrapperVariant j;
     wrapperFile := wrapperFile j; binaryFile := binaryFile j |}.

Definition withWrapper (j : t) (wrapper : option Path) (binary : option Path) : t :=
  {| binaryProps := binaryProps j; Manifest := Manifest j;
     StemProperty := StemProperty j; stem := stem j;
     overrideManifest := overrideManifest j;
     isWrapperVariant := true;
     wrapperFile := wrapper; binaryFile := binary |}.

(** [Binary.GenerateAndroidBuildActions], up to the call of
    [Library.GenerateAndroidBuildActions] in the common variant. The wrapper
    branch asks [ctx.Windows()] twice; the answer is read once here. *)
Definition GenerateAndroidBuildActions `{Android} `{ContextMethods} `{SourcePaths}
    `{BinaryMethods} (j : t) (ctx : ModuleContext) : Generated :=
  let j := withStem j (StringDefault (StemProperty j) (ModuleName ctx)) in
  if ArchIsCommon ctx then
    (* Compile the jar *)
    match Main_class (binaryProps j) with
    | Some mainClass =>
        let ctx :=
          match Manifest j with
          | Some _ =>
              PropertyErrorf ctx "main_class"
                "main_class cannot be used when manifest is set" []
          | None => ctx
          end in
        let manifestFile := PathForModuleOut ctx ["manifest.txt"] in
        {| ctxAfter := ctx;
           moduleAfter := withOverrideManifest j manifestFile;
           mainClassManifest := Some (manifestFile, StringOf (Main_class (binaryProps j)));
           wrapperRule := None; installed := None; thenLibrary := true |}
    | None =>
        {| ctxAfter := ctx; moduleAfter := j; mainClassManifest := None;
           wrapperRule := None; installed := None; thenLibrary := true |}
    end
  else
    (* Handle the binary wrapper *)
    let windows := Windows ctx in
    let '(ctx, wrapper, rule) :=
      match Wrapper (binaryProps j) with
      | Some path => (ctx, Some (PathForModuleSrc ctx path), None)
      | None =>
          let ctx :=
            if windows then
              PropertyErrorf ctx "wrapper" "wrapper is required for Windows" []
            else ctx in
          if Device ctx then
            (* device binary should have a main_class property if it does not
               have a specific wrapper, so that a default wrapper can be
               generated for it. *)
            match Main_class (binaryProps j) with
            | None =>
                (PropertyErrorf ctx "main_class"
                   "main_class property is required for device binary if no default wrapper is assigned"
                   [],
                 wrapperFile j, None)
            | Some _ =>
                let wrapper := PathForModuleOut ctx [ModuleName ctx +:+ ".sh"] in
                let jarName := Stem j +:+ ".jar" in
                let partition := PartitionTag ctx in
                (ctx, Some wrapper,
                 Some {| wrapperOutput := wrapper; jar_name := jarName;
                         partition := partition;
                         main_class := StringOf (Main_class (binaryProps j)) |})
            end
          else
            (ctx, Some (PathForSource ctx "build/soong/scripts/jar-wrapper.sh"), None)
      end in
    let ext := if windows then ".bat" else EmptyString in
    (* The host installation rules make the installed wrapper depend on all
       the dependencies of the wrapper variant, which will include the common
       variant's jar file and any JNI libraries. *)
    let dir := PathForModuleInstall ctx ["bin"] in
    let binary := InstallExecutable ctx dir (ModuleName ctx +:+ ext) wrapper in
    {| ctxAfter := ctx;
       moduleAfter := withWrapper j wrapper (Some binary);
       mainClassManifest := None;
       wrapperRule := rule;
       installed := Some {| execDir := dir; execName := ModuleName ctx +:+ ext;
                            execSrc := wrapper |};
       thenLibrary := false |}.

(** [Binary.DepsMutator]; the variant is asked for its architecture twice,
    and the answer is read once here. *)
Definition DepsMutator `{BinaryMethods} (j : t) (ctx : BottomUpMutatorContext)
  : BottomUpMutatorContext :=
  let common := ArchIsCommon (moduleCtx ctx) in
  let ctx := if common then Module_deps ctx else ctx in
  if negb common then
    (* These dependencies ensure the host installation rules will install the
       jar file and the jni libraries when the wrapper is installed. *)
    let ctx := AddVariationDependencies ctx [] jniInstallTag (Jni_libs (binaryProps j)) in
    AddVariationDependencies ctx [mkVariation "arch" CommonArchString]
      binaryInstallTag [ModuleName (moduleCtx ctx)]
  else ctx.

End Binary.

Definition sampleSourcePaths : SourcePaths :=
  {| PathForModuleSrc := fun ctx p => "src/" +:+ p;
     PathForSource := fun ctx p => p |}.

(** The methods as they answer for the common variant of a binary, or for
    its variant for one architecture. *)
Definition sampleBinaryMethods (common : bool) : BinaryMethods :=
  {| ArchIsCommon := fun ctx => common;
     CommonArchString := "common";
     PartitionTag := fun ctx => "system";
     InstallExecutable := fun ctx dir name src => dir +:+ "/" +:+ name;
     Module_deps := fun ctx => ctx |}.

Definition sampleBinary : Binary.t :=
  {| Binary.binaryProps :=
       {| Binary.Wrapper := None; Binary.Main_class := Some "com.android.Main";
          Binary.Jni_libs := ["libjni"] |};
     Binary.Manifest := None;
     Binary.StemProperty := None;
     Binary.stem := EmptyString;
     Binary.overrideManifest := None;
     Binary.isWrapperVariant := false;
     Binary.wrapperFile := None;
     Binary.binaryFile := None |}.

From Stdlib Require Import Sorted.
(** ** java_api_library *)

(** [JavaApiImportInfo], what a [java_api_contribution] provides. *)
Record JavaApiImportInfo : Type := mkJavaApiImportInfo {
  ApiFile : option Path;
}.

Module JavaApiContribution.

Record t : Type := mk {
  (** name of the API surface *)
  Api_surface : option string;
  (** relative path to the API signature text file *)
  Api_file : option string;
}.

(** [JavaApiContribution.GenerateAndroidBuildActions]: the
    [JavaApiImportInfo] that it sets. *)
Definition GenerateAndroidBuildActions `{SourcePaths} (ap : t) (ctx : ModuleContext)
  : JavaApiImportInfo :=
  let apiFile :=
    match Api_file ap with
    | Some apiFileString => Some (PathForModuleSrc ctx (StringOf (Some apiFileString)))
    | None => None
    end in
  {| ApiFile := apiFile |}.

End JavaApiContribution.

(** The names of the API signature files and the base name of a path; both
    are made outside [java.go]. *)
Class ApiScopes : Type := {
  (** API signature file names sorted from the narrowest api scope to the
      widest api scope *)
  scopeOrderedSourceFileNames : list string;
  (** [Path.Base] *)
  Base : Path -> string;
}.

(** The place of a file name among the names of a list: the index of its
    first occurrence, the length of the list when it has none. *)
Fixpoint scopeIndex (scopes : list string) (name : string) : nat :=
  match scopes with
  | [] => 0
  | scope :: rest =>
      if bool_decide (name = scope) then 0 else S (scopeIndex rest name)
  end.

Module ApiLibrary.

Record JavaApiLibraryProperties : Type := mkJavaApiLibraryProperties {
  (** name of the API surface *)
  Api_surface : option string;
  (** list of Java API contribution modules that consists this API surface *)
  Api_contributions : list string;
  (** list of api.txt files relative to this directory that contribute to
      the API surface. *)
  Api_files : list string;
  (** List of shared java libs that this module has dependencies to and
      should be passed as classpath in javac invocation *)
  Libs : list string;
  (** List of java libs that this module has static dependencies to and will
      be merge zipped after metalava invocation *)
  Static_libs : list string;
  (** Java Api library to provide the full API surface stub jar file. *)
  Full_api_surface_stub : option string;
}.

Definition DepsMutator (properties : JavaApiLibraryProperties)
    (ctx : BottomUpMutatorContext) : BottomUpMutatorContext :=
  let apiContributions := Api_contributions properties in
  let ctx :=
    fold_left (fun ctx apiContributionName =>
                 AddDependency ctx javaApiContributionTag apiContributionName)
      apiContributions ctx in
  let ctx := AddVariationDependencies ctx [] libTag (Libs properties) in
  let ctx := AddVariationDependencies ctx [] staticLibTag (Static_libs properties) in
  match Full_api_surface_stub properties with
  | Some stub => AddVariationDependencies ctx [] depApiSrcsTag [StringOf (Some stub)]
  | None => ctx
  end.

Definition sortApiFilesByApiScope `{ApiScopes} (ctx : ModuleContext)
    (srcFiles : Paths) : ModuleContext * Paths :=
  let sortedSrcFiles :=
    fold_left
      (fun sortedSrcFiles scopeSourceFileName =>
         fold_left
           (fun sortedSrcFiles sourceFileName =>
              if bool_decide (Base sourceFileName = scopeSourceFileName)
              then sortedSrcFiles ++ [sourceFileName]
              else sortedSrcFiles)
           srcFiles sortedSrcFiles)
      scopeOrderedSourceFileNames [] in
  let ctx :=
    if bool_decide (length srcFiles ≠ length sortedSrcFiles) then
      ModuleErrorf ctx "Unrecognizable source file found within %s" srcFiles
    else ctx in
  (ctx, sortedSrcFiles).

(** The files of one scope, in the order of the sources. *)
Definition filesOfScope `{ApiScopes} (srcFiles : Paths) (scope : string) : Paths :=
  filter (fun f => Base f = scope) srcFiles.

(** A direct dependency as [GenerateAndroidBuildActions] sees it: its name
    and what [ctx.OtherModuleProvider] answers for the two providers. *)
Record Dep : Type := mkDep {
  depName : string;
  apiImportInfo : JavaApiImportInfo;
  javaInfo : JavaInfo;
}.

(** An edge at which the visit panics: a contribution whose API file is nil,
    or a full API surface stub without header jar. *)
Definition panicsAt (edge : DependencyTag * Dep) : Prop :=
  (edge.1 = javaApiContributionTag /\ ApiFile (apiImportInfo edge.2) = None) \/
  (edge.1 = depApiSrcsTag /\ HeaderJars (javaInfo edge.2) = []).

(** The variables that the visit of the dependencies fills. *)
Record Collected : Type := mkCollected {
  visitCtx : ModuleContext;
  srcFiles : Paths;
  classPaths : Paths;
  staticLibs : Paths;
  depApiSrcsStubsJar : option Path;
}.

(** The function that [GenerateAndroidBuildActions] passes to
    [ctx.VisitDirectDeps]. [providerApiFile.String()] panics on a nil path,
    [provider.HeaderJars[0]] on an empty list. *)
Definition visitDep `{SourcePaths} (acc : Outcome Collected)
    (edge : DependencyTag * Dep) : Outcome Collected :=
  match acc with
  | Panicked ctx => Panicked ctx
  | Done c =>
      let '(tag, dep) := edge in
      if bool_decide (tag = javaApiContributionTag) then
        let provider := apiImportInfo dep in
        let providerApiFile := ApiFile provider in
        let ctx :=
          if bool_decide (providerApiFile = None) &&
             negb (AllowMissingDependencies (visitCtx c))
          then ModuleErrorf (visitCtx c) "Error: %s has an empty api file." [depName dep]
          else visitCtx c in
        match providerApiFile with
        | None => Panicked ctx
        | Some file =>
            Done {| visitCtx := ctx;
                    srcFiles := srcFiles c ++ [PathForSource ctx file];
                    classPaths := classPaths c; staticLibs := staticLibs c;
                    depApiSrcsStubsJar := depApiSrcsStubsJar c |}
        end
      else if bool_decide (tag = libTag) then
        let provider := javaInfo dep in
        Done {| visitCtx := visitCtx c; srcFiles := srcFiles c;
                classPaths := classPaths c ++ HeaderJars provider;
                staticLibs := staticLibs c;
                depApiSrcsStubsJar := depApiSrcsStubsJar c |}
      else if bool_decide (tag = staticLibTag) then
        let provider := javaInfo dep in
        Done {| visitCtx := visitCtx c; srcFiles := srcFiles c;
                classPaths := classPaths c;
                staticLibs := staticLibs c ++ HeaderJars provider;
                depApiSrcsStubsJar := depApiSrcsStubsJar c |}
      else if bool_decide (tag = depApiSrcsTag) then
        let provider := javaInfo dep in
        match HeaderJars provider !! 0%nat with
        | None => Panicked (visitCtx c)
        | Some jar =>
            Done {| visitCtx := visitCtx c; srcFiles := srcFiles c;
                    classPaths := classPaths c; staticLibs := staticLibs c;
                    depApiSrcsStubsJar := Some jar |}
        end
      else Done c
  end.

(** [GenerateAndroidBuildActions] from the visit of the dependencies to the
    sorted API files: the visit, the [api_files] of the module, the check
    that there is an API file, and the sort. The rules that metalava, javac
    and d8 run with these files are outside this model. *)
Definition collectApiFiles `{SourcePaths} `{ApiScopes}
    (properties : JavaApiLibraryProperties) (ctx : ModuleContext)
    (directDeps : list (DependencyTag * Dep)) : Outcome Collected :=
  match fold_left visitDep directDeps
          (Done {| visitCtx := ctx; srcFiles := []; classPaths := [];
                   staticLibs := []; depApiSrcsStubsJar := None |}) with
  | Panicked ctx => Panicked ctx
  | Done c =>
      (* Add the api_files inputs *)
      let srcFiles :=
        fold_left (fun srcFiles api => srcFiles ++ [PathForModuleSrc (visitCtx c) api])
          (Api_files properties) (srcFiles c) in
      let ctx :=
        if bool_decide (srcFiles = []) && negb (AllowMissingDependencies (visitCtx c))
        then ModuleErrorf (visitCtx c) "Error: %s has an empty api file."
               [ModuleName (visitCtx c)]
        else visitCtx c in
      let '(ctx, srcFiles) := sortApiFilesByApiScope ctx srcFiles in
      Done {| visitCtx := ctx; srcFiles := srcFiles;
              classPaths := classPaths c; staticLibs := staticLibs c;
              depApiSrcsStubsJar := depApiSrcsStubsJar c |}
  end.

End ApiLibrary.

(** Three scopes, and paths whose base name is what follows the last slash. *)
Fixpoint afterLastSlash (chars : list ascii) (acc : list ascii) : list ascii :=
  match chars with
  | [] => acc
  | c :: rest =>
      if Ascii.eqb c "/"%char then afterLastSlash rest []
      else afterLastSlash rest (acc ++ [c])
  end.

Definition sampleApiScopes : ApiScopes :=
  {| scopeOrderedSourceFileNames :=
       ["current.txt"; "system-current.txt"; "module-lib-current.txt"];
     Base := fun p =>
       string_of_list_ascii (afterLastSlash (list_ascii_of_string p) []) |}.

Definition sampleApiLibraryProperties : ApiLibrary.JavaApiLibraryProperties :=
  {| ApiLibrary.Api_surface := Some "public";
     ApiLibrary.Api_contributions := ["contribution"];
     ApiLibrary.Api_files := ["api/current.txt"];
     ApiLibrary.Libs := ["lib"];
     ApiLibrary.Static_libs := [];
     ApiLibrary.Full_api_surface_stub := None |}.

(** A contribution with its API file and a library, as dependencies. *)
Definition sampleApiDeps : list (DependencyTag * ApiLibrary.Dep) :=
  [(javaApiContributionTag,
    ApiLibrary.mkDep "contribution"
      {| ApiFile := Some "contribution/system-current.txt" |}
      (mkJavaInfo [] None None [] [] []));
   (libTag,
    ApiLibrary.mkDep "lib" {| ApiFile := None |} (sampleJavaInfo "lib.jar"))].

(** ** Installation of java_library and java_import *)

(** A call of [ctx.InstallFile(installPath, name, srcPath, deps...)]. *)
Record InstalledFile : Type := mkInstalledFile {
  toDir : Path;
  asName : string;
  fromSrc : Path;
  withDeps : Paths;
}.

(** [android.PathForHostDexInstall], declared outside [java.go]. *)
Class HostDexPaths : Type := {
  PathForHostDexInstall : ModuleContext -> list string -> Path;
}.

Module LibraryInstall.

(** The fields of [Library] that the installation reads. *)
Record t : Type := mk {
  (** [j.properties.Installable] *)
  Installable : option bool;
  (** [j.deviceProperties.Hostdex] *)
  Hostdex : option bool;
  (** [j.Stem()] *)
  Stem : string;
  outputFile : Path;
  InstallMixin : option (ModuleContext -> Path -> Paths);
}.

(** The installation in [Library.GenerateAndroidBuildActions], from
    [exclusivelyForApex] to the call of [collectProguardSpecInfo]: the files
    installed, the host dex file first. *)
Definition install `{Android} `{ContextMethods} `{HostDexPaths} (j : t)
    (ctx : ModuleContext) : list InstalledFile :=
  let apexInfo := ApexInfoProvider ctx in
  let exclusivelyForApex := negb (IsForPlatform apexInfo) in
  if (Bool (Installable j) || Host ctx) && negb exclusivelyForApex then
    let extraInstallDeps :=
      match InstallMixin j with
      | Some mixin => mixin ctx (outputFile j)
      | None => []
      end in
    let hostDexNeeded := Bool (Hostdex j) && negb (Host ctx) in
    let hostdex :=
      if hostDexNeeded then
        [{| toDir := PathForHostDexInstall ctx ["framework"];
            asName := Stem j +:+ "-hostdex.jar";
            fromSrc := outputFile j; withDeps := [] |}]
      else [] in
    let installDir :=
      if InstallInTestcases ctx then
        let archDir := if negb (Host ctx) then DeviceArch ctx else EmptyString in
        PathForModuleInstall ctx [ModuleName ctx; archDir]
      else PathForModuleInstall ctx ["framework"] in
    hostdex ++
    [{| toDir := installDir; asName := Stem j +:+ ".jar";
        fromSrc := outputFile j; withDeps := extraInstallDeps |}]
  else [].

End LibraryInstall.


Definition sampleHostDexPaths : HostDexPaths :=
  {| PathForHostDexInstall := fun ctx parts => "hostdex" +:+ joinPath parts |}.

Definition sampleLibraryInstall : LibraryInstall.t :=
  {| LibraryInstall.Installable := Some true;
     LibraryInstall.Hostdex := Some true;
     LibraryInstall.Stem := "core";
     LibraryInstall.outputFile := "out/core/core.jar";
     LibraryInstall.InstallMixin := None |}.

(** ** Members of an SDK snapshot *)

Definition aidlIncludeDir : string := "aidl".
Definition javaDir : string := "java".
Definition jarFileSuffix : string := ".jar".
Definition testConfigSuffix : string := "-AndroidTest.xml".

(** What the snapshot code calls outside [java.go]. *)
Class SnapshotMethods : Type := {
  (** [filepath.Join] *)
  filepathJoin : list string -> string;
  (** The files of [sdkModuleContext.GlobWithDeps(pattern, nil)]. *)
  GlobWithDeps : string -> list string;
  (** [android.ReplaceFinalizedCodenames(config, raw)]: the canonical text,
      and the error if there is one. *)
  ReplaceFinalizedCodenames : string -> string * option string;
}.

(** path to the jar file of a java library. Relative to <sdk_root>/<api_dir> *)
Definition sdkSnapshotFilePathForMember `{SnapshotMethods}
    (osPrefix name suffix : string) : string :=
  filepathJoin [javaDir; osPrefix; name +:+ suffix].

Definition sdkSnapshotFilePathForJar `{SnapshotMethods} (osPrefix name : string)
  : string :=
  sdkSnapshotFilePathForMember osPrefix name jarFileSuffix.

(** The value of a property of [android.BpPropertySet]. *)
Inductive PropertyValue : Type :=
  | StringValue (s : string)
  | StringsValue (l : list string)
  | BoolValue (b : bool)
  | SetValue (properties : list (string * PropertyValue)).

(** What [AddToPropertySet] leaves behind: the files copied with
    [builder.CopyToSnapshot(src, dest)] and the properties added, both in
    the order of the calls. *)
Record Snapshot : Type := mkSnapshot {
  copied : list (Path * string);
  added : list (string * PropertyValue);
}.

Module testSdkMemberProperties.

Record t : Type := mk {
  JarToExport : option Path;
  TestConfig : option Path;
}.

(** [PopulateFromVariant]; [implementationJars] is
    [test.ImplementationJars()] and [testConfig] is [test.testConfig].
    [None] when the function panics. *)
Definition PopulateFromVariant (implementationJars : Paths)
    (testConfig : option Path) : option t :=
  if bool_decide (length implementationJars ≠ 1%nat) then None
  else Some {| JarToExport := implementationJars !! 0%nat; TestConfig := testConfig |}.

(** [AddToPropertySet]; [osPrefix] is [p.OsPrefix()] and [name] is
    [ctx.Name()]. *)
Definition AddToPropertySet `{SnapshotMethods} (p : t) (osPrefix name : string)
  : Snapshot :=
  let s := {| copied := []; added := [] |} in
  let s :=
    match JarToExport p with
    | Some exportedJar =>
        let snapshotRelativeJavaLibPath := sdkSnapshotFilePathForJar osPrefix name in
        {| copied := copied s ++ [(exportedJar, snapshotRelativeJavaLibPath)];
           added := added s ++ [("jars", StringsValue [snapshotRelativeJavaLibPath])] |}
    | None => s
    end in
  match TestConfig p with
  | Some testConfig =>
      let snapshotRelativeTestConfigPath :=
        sdkSnapshotFilePathForMember osPrefix name testConfigSuffix in
      {| copied := copied s ++ [(testConfig, snapshotRelativeTestConfigPath)];
         added := added s ++ [("test_config", StringValue snapshotRelativeTestConfigPath)] |}
  | None => s
  end.

End testSdkMemberProperties.

Module librarySdkMemberProperties.

Record t : Type := mk {
  JarToExport : option Path;
  AidlIncludeDirs : Paths;
  (** The list of permitted packages that need to be passed to the prebuilts
      as they are used to create the updatable-bcp-packages.txt file. *)
  PermittedPackages : list string;
  (** The value of the min_sdk_version property, translated into a number
      where possible. *)
  MinSdkVersion : option string;
  DexPreoptProfileGuided : option bool;
}.

(** What [PopulateFromVariant] reads of the [Library] variant. *)
Record Variant : Type := mkVariant {
  (** The answer of the [jarToExportGetter] of the member type for [j]. *)
  jarToExport : option Path;
  (** [j.AidlIncludeDirs()] *)
  aidlIncludeDirs : Paths;
  (** [j.PermittedPackagesForUpdatableBootJars()] *)
  permittedPackages : list string;
  (** [j.deviceProperties.Min_sdk_version] *)
  Min_sdk_version : option string;
  (** [j.minSdkVersion.String()] *)
  minSdkVersionString : string;
  (** [j.dexpreopter.dexpreoptProperties.Dex_preopt_result.Profile_guided] *)
  Profile_guided : bool;
}.

Definition PopulateFromVariant `{SnapshotMethods} (ctx : ModuleContext) (j : Variant)
  : ModuleContext * t :=
  (* If the min_sdk_version was set then add the canonical representation of
     the API level to the snapshot. *)
  let '(ctx, minSdkVersion) :=
    match Min_sdk_version j with
    | Some _ =>
        let '(canonical, err) := ReplaceFinalizedCodenames (minSdkVersionString j) in
        let ctx :=
          match err with
          | Some e => ModuleErrorf ctx "%s" [e]
          | None => ctx
          end in
        (ctx, Some canonical)
    | None => (ctx, None)
    end in
  (ctx,
   {| JarToExport := jarToExport j;
      AidlIncludeDirs := aidlIncludeDirs j;
      PermittedPackages := permittedPackages j;
      MinSdkVersion := minSdkVersion;
      DexPreoptProfileGuided := if Profile_guided j then Some true else None |}).

(** [AddToPropertySet]; [snapshotPathGetter] and [onlyCopyJarToSnapshot] are
    the fields of the member type, [osPrefix] is [p.OsPrefix()] and [name] is
    [ctx.Name()]. *)
Definition AddToPropertySet `{SourcePaths} `{SnapshotMethods}
    (snapshotPathGetter : string -> string -> string) (onlyCopyJarToSnapshot : bool)
    (sdkModuleContext : ModuleContext) (p : t) (osPrefix name : string) : Snapshot :=
  let s := {| copied := []; added := [] |} in
  let s :=
    match JarToExport p with
    | Some exportedJar =>
        (* Delegate the creation of the snapshot relative path to the member type. *)
        let snapshotRelativeJavaLibPath := snapshotPathGetter osPrefix name in
        (* Copy the exported jar to the snapshot. *)
        {| copied := copied s ++ [(exportedJar, snapshotRelativeJavaLibPath)];
           added := added s ++ [("jars", StringsValue [snapshotRelativeJavaLibPath])] |}
    | None => s
    end in
  let s :=
    match MinSdkVersion p with
    | Some v => {| copied := copied s;
                   added := added s ++ [("min_sdk_version", StringValue v)] |}
    | None => s
    end in
  let s :=
    if bool_decide (0 < length (PermittedPackages p))%nat then
      {| copied := copied s;
         added := added s ++ [("permitted_packages", StringsValue (PermittedPackages p))] |}
    else s in
  let dexPreoptSet :=
    match DexPreoptProfileGuided p with
    | Some _ => [("profile_guided", BoolValue (Bool (DexPreoptProfileGuided p)))]
    | None => []
    end in
  let s := {| copied := copied s;
              added := added s ++ [("dex_preopt", SetValue dexPreoptSet)] |} in
  (* Do not copy anything else to the snapshot. *)
  if onlyCopyJarToSnapshot then s
  else
    let aidlIncludeDirs := AidlIncludeDirs p in
    {| copied :=
         fold_left
           (fun copied dir =>
              let aidlFiles := GlobWithDeps (dir +:+ "/**/*.aidl") in
              fold_left
                (fun copied file =>
                   copied ++ [(PathForSource sdkModuleContext file,
                               filepathJoin [aidlIncludeDir; file])])
                aidlFiles copied)
           aidlIncludeDirs (copied s);
       added := added s |}.

End librarySdkMemberProperties.

Definition sampleSnapshotMethods : SnapshotMethods :=
  {| filepathJoin := fun parts => String.concat "/" parts;
     GlobWithDeps := fun pattern => [];
     ReplaceFinalizedCodenames := fun raw => (raw, None) |}.

Definition sampleLibraryVariant : librarySdkMemberProperties.Variant :=
  {| librarySdkMemberProperties.jarToExport := Some "out/mylib/mylib.jar";
     librarySdkMemberProperties.aidlIncludeDirs := [];
     librarySdkMemberProperties.permittedPackages := ["com.android.mylib"];
     librarySdkMemberProperties.Min_sdk_version := Some "Tiramisu";
     librarySdkMemberProperties.minSdkVersionString := "33";
     librarySdkMemberProperties.Profile_guided := true |}.

(** * Properties *)

(** ** Language levels *)

Example usesJavaModules_levels :
  map usesJavaModules
    [JAVA_VERSION_UNSUPPORTED; JAVA_VERSION_6; JAVA_VERSION_7; JAVA_VERSION_8;
     JAVA_VERSION_9; JAVA_VERSION_11; JAVA_VERSION_17]
  = [false; false; false; false; true; true; true].
Proof. reflexivity. Qed.

(** C8. For every language level [v], [usesJavaModules] answers true exactly
    when [v >= 9]: from level 9 on javac is given system modules, below 9 the
    bootclasspath. *)
Theorem C8_usesJavaModules_iff (v : javaVersion) :
  (usesJavaModules v = true <-> v >= 9) /\
  (usesJavaModules v = false <-> v < 9).
Proof.
  unfold usesJavaModules. split.
  - rewrite Z.leb_le. lia.
  - rewrite Z.leb_gt. lia.
Qed.

(** ** Source-producing dependencies *)

Example Ext_samples :
  map Ext ["out/gen/a.jar"; "a.srcjar"; "dir.jar/classes"; "noext"; "a.b.jar"; ".jar"]
  = [".jar"; ".srcjar"; EmptyString; EmptyString; ".jar"; ".jar"].
Proof. reflexivity. Qed.

Lemma extScan_suffix (l : list ascii) (acc : string) :
  exists pre,
    rev l ++ list_ascii_of_string acc = pre ++ list_ascii_of_string (extScan l acc).
Proof.
  revert acc. induction l as [|c l IH]; intros acc; simpl.
  - exists (list_ascii_of_string acc). symmetry. apply app_nil_r.
  - destruct (IsPathSeparator c).
    { exists ((rev l ++ [c]) ++ list_ascii_of_string acc). symmetry. apply app_nil_r. }
    destruct (Ascii.eqb c "."%char).
    + exists (rev l). by rewrite <- app_assoc.
    + destruct (IH (String c acc)) as [pre Hpre]. exists pre.
      rewrite <- Hpre. by rewrite <- app_assoc.
Qed.

Lemma string_of_list_ascii_app (a b : list ascii) :
  string_of_list_ascii (a ++ b) = string_of_list_ascii a +:+ string_of_list_ascii b.
Proof. induction a as [|c a IH]; simpl; [done|]. by rewrite IH. Qed.

Lemma list_ascii_of_string_app (a b : string) :
  list_ascii_of_string (a +:+ b) = list_ascii_of_string a ++ list_ascii_of_string b.
Proof. induction a as [|c a IH]; simpl; [done|]. by rewrite IH. Qed.

(** The extension is the text that ends the path. *)
Lemma Ext_suffix (p : Path) : exists stem, p = stem +:+ Ext p.
Proof.
  destruct (extScan_suffix (rev (list_ascii_of_string p)) EmptyString) as [pre Hpre].
  exists (string_of_list_ascii pre). fold (Ext p) in Hpre.
  rewrite rev_involutive in Hpre. simpl in Hpre. rewrite app_nil_r in Hpre.
  apply (f_equal string_of_list_ascii) in Hpre.
  by rewrite string_of_list_ascii_app, !string_of_list_ascii_of_string in Hpre.
Qed.

(** A path has the extension [.jar] exactly when it ends in [.jar]. *)
Lemma Ext_jar_iff (p : Path) : Ext p = ".jar" <-> exists stem, p = stem +:+ ".jar".
Proof.
  split.
  - intros He. destruct (Ext_suffix p) as [stem Hs]. exists stem. by rewrite <- He.
  - intros [stem ->]. unfold Ext.
    rewrite list_ascii_of_string_app, rev_app_distr. reflexivity.
Qed.

Lemma checkProducesJars_errs (ctx : ModuleContext) (dep : SourceFileProducer) :
  checkProducesJars ctx dep =
  withErrs ctx
    (errs ctx ++
     replicate (length (filter (fun f => Ext f ≠ ".jar") (Srcs dep)))
       (ModuleErrorOf jarExtensionFormat [producerName dep])).
Proof.
  unfold checkProducesJars. generalize (Srcs dep) as l. intros l. revert ctx.
  induction l as [|f l IH]; intros ctx.
  - simpl. rewrite app_nil_r. by destruct ctx.
  - rewrite filter_cons. cbn [fold_left]. rewrite IH.
    case_bool_decide; case_decide; try done.
    unfold ModuleErrorf, withErrs. simpl. by rewrite <- app_assoc.
Qed.

(** C7. [checkProducesJars] reports a module error exactly when one of the
    files that the dependency produces has an extension other than [.jar];
    when every file ends in [.jar] the context is left as it was. *)
Theorem C7_checkProducesJars_error_iff (ctx : ModuleContext) (dep : SourceFileProducer) :
  (reported ctx (checkProducesJars ctx dep) <> [] <->
     exists f, f ∈ Srcs dep /\ Ext f <> ".jar") /\
  (forall e, e ∈ reported ctx (checkProducesJars ctx dep) ->
     e = ModuleErrorOf jarExtensionFormat [producerName dep]) /\
  ((forall f, f ∈ Srcs dep -> exists stem, f = stem +:+ ".jar") <->
     checkProducesJars ctx dep = ctx).
Proof.
  rewrite checkProducesJars_errs. unfold reported. simpl.
  rewrite drop_app_length.
  assert (Hnil : forall l : list Path,
             filter (fun f => Ext f ≠ ".jar") l = [] <-> forall f, f ∈ l -> Ext f = ".jar").
  { intros l. split.
    - intros Hall f Hf. destruct (decide (Ext f = ".jar")) as [|Hne]; [done|].
      by destruct (filter_nil_not_elem_of _ _ f Hall Hne).
    - intros Hall. induction l as [|f l IH]; [done|].
      rewrite filter_cons_False.
      + apply IH. intros g Hg. apply Hall. by right.
      + intros Hne. apply Hne, Hall. left. }
  split; [|split].
  - split.
    + intros Hne. destruct (filter _ (Srcs dep)) as [|f l] eqn:Hfl; [done|].
      assert (Hin : f ∈ filter (fun f => Ext f ≠ ".jar") (Srcs dep))
        by (rewrite Hfl; left).
      apply list_elem_of_filter in Hin as [Hext Hin]. by exists f.
    + intros (f & Hf & Hext) Hrep.
      assert (Hin : f ∈ filter (fun f => Ext f ≠ ".jar") (Srcs dep))
        by by apply list_elem_of_filter.
      destruct (filter _ (Srcs dep)); [by apply not_elem_of_nil in Hin | done].
  - intros e He. by apply elem_of_replicate in He as [-> _].
  - split.
    + intros Hall.
      assert (Hf : filter (fun f => Ext f ≠ ".jar") (Srcs dep) = []).
      { apply Hnil. intros f Hf. apply Ext_jar_iff. by apply Hall. }
      rewrite Hf. simpl. rewrite app_nil_r. by destruct ctx.
    + intros Heq f Hf. apply Ext_jar_iff.
      apply (proj1 (Hnil (Srcs dep))); [|done].
      apply (f_equal errs) in Heq. simpl in Heq.
      destruct (filter _ (Srcs dep)); [done|].
      apply (f_equal length) in Heq. rewrite length_app in Heq. simpl in Heq. lia.
Qed.

(** ** dex_import *)

Example DexImport_no_jars :
  @DexImport.GenerateAndroidBuildActions sampleAndroid sampleContextMethods
    sampleDexpreopterMethods (sampleDexImport []) (sampleCtx "d")
  = Panicked (PropertyErrorf (sampleCtx "d") "jars" DexImport.jarsFormat []).
Proof. reflexivity. Qed.

Lemma reported_refl (ctx : ModuleContext) : reported ctx ctx = [].
Proof. apply drop_all. Qed.

Lemma reported_PropertyErrorf (ctx : ModuleContext) (property format : string)
    (args : list string) :
  reported ctx (PropertyErrorf ctx property format args)
  = [PropertyErrorOf property format args].
Proof. unfold reported, PropertyErrorf. simpl. apply drop_app_length. Qed.






(** ** Classpaths of java_import *)

Lemma visitDirectDep_flags `{Dexpreopt} `{Android} (j : ImportModule.t)
    (ctx : ModuleContext) (flags : javaBuilderFlags) (clcMap : ClassLoaderContextMap)
    (tag : DependencyTag) (module : Module) (dep : JavaInfo) :
  JavaInfoProvider module = Some dep ->
  (ImportModule.visitDirectDep j (ctx, flags, clcMap) (tag, module)).1.2
  = ImportModule.addHeaderJars tag dep flags.
Proof.
  intros Hdep. unfold ImportModule.visitDirectDep. rewrite Hdep.
  by destruct (addCLCFromDep ctx tag module clcMap).
Qed.

(** C1, as the code has it. A dependency that publishes [JavaInfo] has its
    header jars appended to the compile classpath when it is a static, libs or
    sdklib dependency; they are appended to the dex classpath for libs and
    sdklib only, and a static dependency leaves the dex classpath as it was. *)
Theorem C1_header_jars_by_tag `{Dexpreopt} `{Android} (j : ImportModule.t)
    (ctx : ModuleContext) (flags : javaBuilderFlags) (clcMap : ClassLoaderContextMap)
    (tag : DependencyTag) (module : Module) (dep : JavaInfo) :
  JavaInfoProvider module = Some dep ->
  tag = staticLibTag \/ tag = libTag \/ tag = sdkLibTag ->
  let flags' := (ImportModule.visitDirectDep j (ctx, flags, clcMap) (tag, module)).1.2 in
  classpath flags' = classpath flags ++ HeaderJars dep /\
  dexClasspath flags' =
    dexClasspath flags ++ (if bool_decide (tag = staticLibTag) then [] else HeaderJars dep) /\
  bootClasspath flags' = bootClasspath flags.
Proof.
  intros Hdep Htag. cbv zeta. rewrite (visitDirectDep_flags _ _ _ _ _ _ _ Hdep).
  destruct Htag as [-> | [-> | ->]]; cbn; by rewrite ?app_nil_r.
Qed.

Lemma C1_header_jars_by_tag_witness :
  let visit tag :=
    (@ImportModule.visitDirectDep sampleDexpreopt sampleAndroid (sampleImport "a")
       (sampleCtx "a", zeroFlags, ∅) (tag, sampleLibrary "b")).1.2 in
  (classpath (visit staticLibTag) = ["b.jar"] /\ dexClasspath (visit staticLibTag) = []) /\
  (classpath (visit libTag) = ["b.jar"] /\ dexClasspath (visit libTag) = ["b.jar"]).
Proof.
  cbv zeta. split.
  - destruct (@C1_header_jars_by_tag sampleDexpreopt sampleAndroid (sampleImport "a")
                (sampleCtx "a") zeroFlags ∅ staticLibTag (sampleLibrary "b")
                (sampleJavaInfo "b.jar") eq_refl (or_introl eq_refl)) as (Hc & Hd & _).
    split; [exact Hc | exact Hd].
  - destruct (@C1_header_jars_by_tag sampleDexpreopt sampleAndroid (sampleImport "a")
                (sampleCtx "a") zeroFlags ∅ libTag (sampleLibrary "b")
                (sampleJavaInfo "b.jar") eq_refl (or_intror (or_introl eq_refl)))
      as (Hc & Hd & _).
    split; [exact Hc | exact Hd].
Defined.

(** C1 as the spec words it fails: the header jar of a static dependency is
    not appended to the dex classpath, and the header jar of a libs
    dependency is. *)
Lemma C1_counterexample :
  let visit tag :=
    (@ImportModule.visitDirectDep sampleDexpreopt sampleAndroid (sampleImport "a")
       (sampleCtx "a", zeroFlags, ∅) (tag, sampleLibrary "b")).1.2 in
  JavaInfoProvider (sampleLibrary "b") = Some (sampleJavaInfo "b.jar") /\
  dexClasspath (visit staticLibTag)
    <> dexClasspath zeroFlags ++ HeaderJars (sampleJavaInfo "b.jar") /\
  dexClasspath (visit libTag) <> dexClasspath zeroFlags.
Proof. cbv zeta. split; [reflexivity|]. split; vm_compute; discriminate. Qed.

(** Over all the direct dependencies, when each publishes [JavaInfo]: the
    compile classpath is made of the header jars of the static, libs and
    sdklib dependencies, the dex classpath of those of the libs and sdklib
    dependencies, in the order of the visit. *)
Lemma visitDirectDeps_header_jars `{Dexpreopt} `{Android} (j : ImportModule.t)
    (ctx : ModuleContext) (directDeps : list (DependencyTag * Module)) :
  Forall (fun edge => is_Some (JavaInfoProvider edge.2)) directDeps ->
  let flags := (ImportModule.visitDirectDeps j ctx directDeps).1.2 in
  classpath flags = flat_map (headerJarsThrough [libTag; sdkLibTag; staticLibTag]) directDeps /\
  dexClasspath flags = flat_map (headerJarsThrough [libTag; sdkLibTag]) directDeps.
Proof.
  intros Hall. unfold ImportModule.visitDirectDeps.
  cut (forall acc,
         let flags := (fold_left (ImportModule.visitDirectDep j) directDeps acc).1.2 in
         classpath flags =
           classpath acc.1.2 ++
           flat_map (headerJarsThrough [libTag; sdkLibTag; staticLibTag]) directDeps /\
         dexClasspath flags =
           dexClasspath acc.1.2 ++
           flat_map (headerJarsThrough [libTag; sdkLibTag]) directDeps).
  { intros Hacc. exact (Hacc (ctx, zeroFlags, ∅)). }
  induction Hall as [|[tag module] rest [dep Hdep] _ Hrest]; intros [[ctx0 flags0] clc0].
  - simpl. by rewrite !app_nil_r.
  - cbn [fold_left flat_map]. cbv zeta in Hrest |- *. cbn [snd] in Hdep.
    destruct (Hrest (ImportModule.visitDirectDep j (ctx0, flags0, clc0) (tag, module)))
      as [Hc Hd].
    assert (Hone : forall tags,
               headerJarsThrough tags (tag, module) =
               if bool_decide (tag ∈ tags) then HeaderJars dep else []).
    { intros tags. unfold headerJarsThrough. cbn [fst snd]. by rewrite Hdep. }
    rewrite Hc, Hd, (visitDirectDep_flags _ _ _ _ _ _ _ Hdep), !app_assoc, !Hone.
    unfold ImportModule.addHeaderJars.
    destruct (decide (tag = libTag)) as [-> | Hlib]; [done|].
    destruct (decide (tag = sdkLibTag)) as [-> | Hsdk]; [done|].
    destruct (decide (tag = staticLibTag)) as [-> | Hstatic]; [cbn; by rewrite app_nil_r|].
    assert (Hnot3 : tag ∉ [libTag; sdkLibTag; staticLibTag])
      by (rewrite !elem_of_cons, elem_of_nil; intros [?|[?|[?|[]]]]; done).
    assert (Hnot2 : tag ∉ [libTag; sdkLibTag])
      by (rewrite !elem_of_cons, elem_of_nil; intros [?|[?|[]]]; done).
    rewrite (bool_decide_eq_false_2 _ Hnot3), (bool_decide_eq_false_2 _ Hnot2).
    rewrite (bool_decide_eq_false_2 _ Hlib), (bool_decide_eq_false_2 _ Hsdk),
      (bool_decide_eq_false_2 _ Hstatic). cbn.
    destruct (bool_decide (tag = bootClasspathTag)); cbn; by rewrite ?app_nil_r.
Qed.

(** ** An invalid SDK version *)

(** C6. A device [java_import] that is compiled to dex and whose SDK
    descriptor has [invalidVersion] set records the descriptor's
    [bootclasspath] and [java9Classpath] modules as missing dependencies, adds
    no SDK jar to the classpath and reports no error; the flags and the
    context go to the dex compilation as they are then. The markers turn into
    an error only where missing dependencies are not allowed. *)
Theorem C6_invalid_sdk_version `{Android} `{JavaCollaborators} `{ContextMethods}
    `{DexpreopterMethods} `{filepath.Methods} (j : ImportModule.t)
    (ctx decoded : ModuleContext) (sd : sdkDep.t) (flags : javaBuilderFlags)
    (jarName : string) (outputFile : Path) :
  Device ctx = true ->
  ForPrebuiltApex (ApexInfoProvider ctx) = false ->
  Bool (ImportModule.Compile_dex j) = true ->
  decodeSdkDep ctx (ImportModule.SdkVersion j) = (decoded, sd) ->
  sdkDep.invalidVersion sd = true ->
  let marked :=
    AddMissingDependencies (AddMissingDependencies decoded (sdkDep.bootclasspath sd))
      (sdkDep.java9Classpath sd) in
  let dex := ImportModule.deviceActions j ctx flags jarName outputFile in
  ImportModule.addSdkDep decoded sd flags = (marked, flags) /\
  MissingDeps marked =
    MissingDeps decoded ++ sdkDep.bootclasspath sd ++ sdkDep.java9Classpath sd /\
  reported decoded marked = [] /\
  ImportModule.dexFlags dex = flags /\
  ImportModule.dexCtx dex =
    (compileDex marked
       {| flags := flags; dexSdkVersion := ImportModule.SdkVersion j;
          classesJar := outputFile; jarName := jarName |}).1 /\
  (reported marked (reportMissingDependencies marked) <> [] ->
   AllowMissingDependencies decoded = false).
Proof.
  intros Hdev Hapex Hdex Hsd Hinv marked dex.
  assert (Hadd : ImportModule.addSdkDep decoded sd flags = (marked, flags)).
  { unfold ImportModule.addSdkDep. by rewrite Hinv. }
  split; [exact Hadd|]. split; [|split; [|split; [|split]]].
  - subst marked. simpl. by rewrite <- app_assoc.
  - unfold reported. subst marked. simpl. apply drop_all.
  - subst dex. unfold ImportModule.deviceActions.
    rewrite Hdev, Hapex, Hdex. simpl. rewrite Hsd, Hadd.
    destruct (compileDex marked _) as [ctx' out]. by destruct (Failed ctx').
  - subst dex. unfold ImportModule.deviceActions.
    rewrite Hdev, Hapex, Hdex. simpl. rewrite Hsd, Hadd.
    destruct (compileDex marked _) as [ctx' out]. by destruct (Failed ctx').
  - unfold reportMissingDependencies, reported.
    destruct (MissingDeps marked); [by rewrite drop_all|].
    change (AllowMissingDependencies marked) with (AllowMissingDependencies decoded).
    destruct (AllowMissingDependencies decoded); [by rewrite drop_all | done].
Qed.

Lemma C6_invalid_sdk_version_witness :
  let dex :=
    @ImportModule.deviceActions sampleAndroid sampleCollaborators sampleContextMethods
      sampleDexpreopterMethods sampleFilepath (sampleImport "a")
      (sampleCtx "a") {| bootClasspath := []; classpath := ["b.jar"]; dexClasspath := [] |}
      "a.jar" "out/a/combined/a.jar" in
  MissingDeps (ImportModule.dexCtx dex) = ["core-oj"; "core-libart"; "framework"] /\
  classpath (ImportModule.dexFlags dex) = ["b.jar"] /\
  errs (ImportModule.dexCtx dex) = [].
Proof.
  destruct (@C6_invalid_sdk_version sampleAndroid sampleCollaborators sampleContextMethods
              sampleDexpreopterMethods sampleFilepath (sampleImport "a")
              (sampleCtx "a") (sampleCtx "a") sampleSdkDep
              {| bootClasspath := []; classpath := ["b.jar"]; dexClasspath := [] |}
              "a.jar" "out/a/combined/a.jar" eq_refl eq_refl eq_refl eq_refl eq_refl)
    as (_ & _ & _ & Hflags & Hctx & _).
  cbv zeta. rewrite Hflags, Hctx. repeat split.
Defined.

(** ** Class loader contexts *)

Lemma AddContextMap_lookup (clcMap other : ClassLoaderContextMap) (parent : string) (b : Z) :
  AddContextMap clcMap other parent !!! b = clcMap !!! b ++ other !!! b.
Proof.
  unfold AddContextMap. rewrite !lookup_total_alt, lookup_union_with.
  destruct (clcMap !! b), (other !! b); simpl; by rewrite ?app_nil_r.
Qed.

Lemma AddContextMap_empty (clcMap : ClassLoaderContextMap) (parent : string) :
  AddContextMap clcMap ∅ parent = clcMap.
Proof.
  unfold AddContextMap. apply map_eq. intros b.
  rewrite lookup_union_with, lookup_empty. by destruct (clcMap !! b).
Qed.

Lemma sdkLibOf_is_Some `{Android} (depModule : Module) :
  (exists lib, asSdkLibraryDependency depModule = Some lib /\ sharedLibrary lib = true) \/
  (exists n, asProvidesUsesLib depModule = Some (Some n)) ->
  exists lib, sdkLibOf depModule = Some lib.
Proof.
  unfold sdkLibOf. intros [(lib & -> & ->) | (n & ->)]; [by eexists|].
  destruct (asSdkLibraryDependency depModule) as [lib|]; [|by eexists].
  destruct (sharedLibrary lib); by eexists.
Qed.

(** The name of the node is the dependency's own name for a shared SDK
    library, and the declared name otherwise. *)
Lemma sdkLibOf_name `{Android} (depModule : Module) (lib : string) :
  sdkLibOf depModule = Some lib ->
  (exists l, asSdkLibraryDependency depModule = Some l /\ sharedLibrary l = true /\
             lib = RemoveOptionalPrebuiltPrefix (OtherModuleName depModule)) \/
  asProvidesUsesLib depModule = Some (Some lib).
Proof.
  unfold sdkLibOf. intros Hlib.
  destruct (asSdkLibraryDependency depModule) as [l|] eqn:Hl.
  - destruct (sharedLibrary l) eqn:Hs.
    + left. exists l. by simplify_eq.
    + right. destruct (asProvidesUsesLib depModule) as [[n|]|]; by simplify_eq.
  - right. destruct (asProvidesUsesLib depModule) as [[n|]|]; by simplify_eq.
Qed.

(** [addCLCFromDep] reports nothing, whatever the edge and the dependency. *)
Lemma addCLCFromDep_ctx `{Dexpreopt} `{Android} (ctx : ModuleContext)
    (tag : DependencyTag) (depModule : Module) (clcMap : ClassLoaderContextMap) :
  (addCLCFromDep ctx tag depModule clcMap).1 = ctx.
Proof.
  unfold addCLCFromDep, AddContext.
  destruct (asUsesLibraryDependency depModule) as [dep|]; [|done].
  destruct (IsLibDepTag tag); [by destruct (sdkLibOf depModule)|].
  destruct (match tag with UsesLibraryTag _ => _ | _ => _ end);
    [by destruct (sdkLibOf depModule)|].
  destruct (bool_decide (tag = staticLibTag)); by destruct (sdkLibOf depModule).
Qed.

(** What [addCLCFromDep] does on an edge that propagates the uses-library
    context of a dependency that is a node of the tree. *)
Lemma addCLCFromDep_node `{Dexpreopt} `{Android} (ctx : ModuleContext)
    (tag : DependencyTag) (depModule : Module) (clcMap : ClassLoaderContextMap)
    (dep : UsesLibraryDependency) (lib : string) :
  asUsesLibraryDependency depModule = Some dep ->
  sdkLibOf depModule = Some lib ->
  IsLibDepTag tag || isUsesLibraryAny tag = true ->
  addCLCFromDep ctx tag depModule clcMap =
  AddContext ctx clcMap AnySdkVersion lib false (PathOrNil (DexJarBuildPath dep))
    (DexJarInstallPath dep) (ClassLoaderContexts dep).
Proof.
  intros Hdep Hlib Htag. unfold addCLCFromDep. rewrite Hdep, Hlib.
  destruct (IsLibDepTag tag); [done|]. simpl in Htag.
  unfold isUsesLibraryAny in Htag. by rewrite Htag.
Qed.

(** C2. A dependency that is a shared SDK library, or that declares the
    library it provides, and that is reached through a libs or sdklib edge or
    through a uses-library edge of the any-version bucket, becomes one new
    node of the map: the node is added at the end of the bucket that the edge
    declares, with the library's name (the dependency's own name for a shared
    SDK library, the declared name otherwise), the dependency's dex jar build
    path and install path, and the CLC that the dependency has published below
    it. Nothing else in the map changes and no error is reported. *)
Theorem C2_sdk_library_becomes_node `{Dexpreopt} `{Android} (ctx : ModuleContext)
    (tag : DependencyTag) (depModule : Module) (clcMap : ClassLoaderContextMap)
    (dep : UsesLibraryDependency) :
  asUsesLibraryDependency depModule = Some dep ->
  (exists lib, asSdkLibraryDependency depModule = Some lib /\ sharedLibrary lib = true) \/
  (exists n, asProvidesUsesLib depModule = Some (Some n)) ->
  IsLibDepTag tag = true \/
  (exists t, tag = UsesLibraryTag t /\ sdkVersion t = AnySdkVersion) ->
  exists lib,
    ((exists l, asSdkLibraryDependency depModule = Some l /\ sharedLibrary l = true /\
                lib = RemoveOptionalPrebuiltPrefix (OtherModuleName depModule)) \/
     asProvidesUsesLib depModule = Some (Some lib)) /\
    addCLCFromDep ctx tag depModule clcMap =
      (ctx,
       <[edgeBucket tag :=
           clcMap !!! edgeBucket tag ++
           [mkClassLoaderContext lib false (DexJarBuildPath dep) (DexJarInstallPath dep)
              (ClassLoaderContexts dep)]]> clcMap).
Proof.
  intros Hdep Hsdk Htag.
  destruct (sdkLibOf_is_Some depModule Hsdk) as [lib Hlib].
  exists lib. split; [by apply sdkLibOf_name|].
  assert (Hbucket : edgeBucket tag = AnySdkVersion).
  { destruct Htag as [Hl | (t & -> & Ht)]; [|done].
    by destruct tag. }
  rewrite (addCLCFromDep_node ctx tag depModule clcMap dep lib Hdep Hlib).
  - unfold AddContext, PathOrNil. by rewrite Hbucket.
  - destruct Htag as [-> | (t & -> & Ht)]; [done|].
    unfold isUsesLibraryAny. rewrite bool_decide_eq_true_2 by done. apply orb_true_r.
Qed.

Lemma C2_sdk_library_becomes_node_witness :
  (@addCLCFromDep sampleDexpreopt sampleAndroid (sampleCtx "a")
     (@usesLibReqTag sampleDexpreopt)
     (sampleSdkLibrary "prebuilt_android.test.base" (Some "base.dex.jar")) ∅).2
  !! 10000
  = Some [mkClassLoaderContext "android.test.base" false (Some "base.dex.jar")
            (Some "/system/framework/prebuilt_android.test.base.jar")
            {[ 10000 :=
               [mkClassLoaderContext "org.apache.http.legacy" false
                  (Some "legacy.dex.jar") (Some "/system/framework/legacy.jar") ∅] ]}].
Proof.
  destruct (@C2_sdk_library_becomes_node sampleDexpreopt sampleAndroid (sampleCtx "a")
              (@usesLibReqTag sampleDexpreopt)
              (sampleSdkLibrary "prebuilt_android.test.base" (Some "base.dex.jar")) ∅
              _ eq_refl
              (or_introl (ex_intro _ _ (conj eq_refl eq_refl)))
              (or_intror (ex_intro _ _ (conj eq_refl eq_refl))))
    as (lib & [(l & _ & _ & ->) | Hlib] & Hadd).
  - rewrite Hadd. reflexivity.
  - discriminate Hlib.
Defined.

Example addCLCFromDep_samples :
  let run tag depModule :=
    (@addCLCFromDep sampleDexpreopt sampleAndroid (sampleCtx "a") tag depModule sampleCLC).2
      !!! 10000 in
  libraryName <$> run libTag (sampleProvider "impl" "com.example.lib") = ["x"; "com.example.lib"] /\
  libraryName <$> run staticLibTag (sampleProvider "impl" "com.example.lib") = ["x"] /\
  libraryName <$> run staticLibTag (sampleUser "b" "sdk") = ["x"; "sdk"] /\
  libraryName <$> run libTag (sampleUser "b" "sdk") = ["x"; "sdk"] /\
  libraryName <$> run (@usesLibOptTag sampleDexpreopt) (sampleSdkLibrary "prebuilt_s" None)
    = ["x"; "s"] /\
  libraryName <$> run usesLibCompat29ReqTag (sampleSdkLibrary "s" None) = ["x"].
Proof. repeat split. Qed.

(** C3. On an edge that is neither libs or sdklib nor a uses-library edge of
    the any-version bucket, no node is added and nothing is reported. A static
    dependency that is not a node of the tree (it is no shared SDK library and
    declares no library that it provides) has the CLC that it published merged
    into the map, bucket by bucket; a static dependency that is such a node,
    and a dependency reached through any other tag (plugin, bootclasspath,
    system modules, ...), leave the map as it was. *)
Theorem C3_static_and_other_tags `{Dexpreopt} `{Android} (ctx : ModuleContext)
    (tag : DependencyTag) (depModule : Module) (clcMap : ClassLoaderContextMap) :
  IsLibDepTag tag = false ->
  isUsesLibraryAny tag = false ->
  let merges := bool_decide (tag = staticLibTag) && bool_decide (sdkLibOf depModule = None) in
  addCLCFromDep ctx tag depModule clcMap =
    (ctx,
     if merges
     then AddContextMap clcMap (publishedCLC depModule)
            (RemoveOptionalPrebuiltPrefix (OtherModuleName depModule))
     else clcMap) /\
  (forall b, (addCLCFromDep ctx tag depModule clcMap).2 !!! b =
             clcMap !!! b ++ (if merges then publishedCLC depModule !!! b else [])) /\
  (merges = false -> addCLCFromDep ctx tag depModule clcMap = (ctx, clcMap)).
Proof.
  intros Hlib Hany merges.
  assert (Heq : addCLCFromDep ctx tag depModule clcMap =
    (ctx,
     if merges
     then AddContextMap clcMap (publishedCLC depModule)
            (RemoveOptionalPrebuiltPrefix (OtherModuleName depModule))
     else clcMap)).
  { subst merges. unfold addCLCFromDep, publishedCLC.
    unfold isUsesLibraryAny in Hany. rewrite Hlib, Hany.
    destruct (asUsesLibraryDependency depModule) as [dep|].
    - destruct (bool_decide (tag = staticLibTag)); [|done].
      by destruct (sdkLibOf depModule) as [lib|].
    - rewrite AddContextMap_empty. by destruct (_ && _). }
  split; [exact Heq|]. split.
  - intros b. rewrite Heq. simpl. destruct merges.
    + apply AddContextMap_lookup.
    + by rewrite app_nil_r.
  - intros Hm. by rewrite Heq, Hm.
Qed.

Lemma C3_static_and_other_tags_witness :
  let run tag depModule :=
    (@addCLCFromDep sampleDexpreopt sampleAndroid (sampleCtx "a") tag depModule sampleCLC) in
  run staticLibTag (sampleSdkLibrary "s" (Some "s.dex.jar")) = (sampleCtx "a", sampleCLC) /\
  run pluginTag (sampleSdkLibrary "s" (Some "s.dex.jar")) = (sampleCtx "a", sampleCLC) /\
  run bootClasspathTag (sampleLibrary "b") = (sampleCtx "a", sampleCLC) /\
  run systemModulesTag (sampleLibrary "b") = (sampleCtx "a", sampleCLC) /\
  run usesLibCompat28OptTag (sampleSdkLibrary "s" (Some "s.dex.jar"))
    = (sampleCtx "a", sampleCLC).
Proof.
  pose proof (fun tag depModule =>
    @C3_static_and_other_tags sampleDexpreopt sampleAndroid (sampleCtx "a")
      tag depModule sampleCLC) as unchanged.
  cbv beta zeta.
  split; [|split; [|split; [|split]]].
  - exact (proj2 (proj2 (unchanged staticLibTag (sampleSdkLibrary "s" (Some "s.dex.jar"))
                           eq_refl eq_refl)) eq_refl).
  - exact (proj2 (proj2 (unchanged pluginTag (sampleSdkLibrary "s" (Some "s.dex.jar"))
                           eq_refl eq_refl)) eq_refl).
  - exact (proj2 (proj2 (unchanged bootClasspathTag (sampleLibrary "b")
                           eq_refl eq_refl)) eq_refl).
  - exact (proj2 (proj2 (unchanged systemModulesTag (sampleLibrary "b")
                           eq_refl eq_refl)) eq_refl).
  - exact (proj2 (proj2 (unchanged usesLibCompat28OptTag
                           (sampleSdkLibrary "s" (Some "s.dex.jar"))
                           eq_refl eq_refl)) eq_refl).
Defined.

(** C4. A uses-library dependency that publishes no dex jar path, reached
    through a uses-library edge, required or optional: nothing is reported,
    whatever the edge. An entry is recorded, with an absent jar path and as
    not optional, exactly when the edge is of the any-version bucket and the
    dependency is a node of the tree (a shared SDK library, or a module that
    declares the library it provides). On an edge of the any-version bucket
    a dependency that is no such node has the CLC that it published merged
    into the map, without an entry of its own; on a compatibility edge the
    map is left as it was. *)
Theorem C4_missing_dex_jar_by_edge `{Dexpreopt} `{Android} (ctx : ModuleContext)
    (t : usesLibraryDependencyTag) (depModule : Module) (clcMap : ClassLoaderContextMap)
    (dep : UsesLibraryDependency) :
  asUsesLibraryDependency depModule = Some dep ->
  DexJarBuildPath dep = None ->
  let after := addCLCFromDep ctx (UsesLibraryTag t) depModule clcMap in
  after.1 = ctx /\
  reported ctx after.1 = [] /\
  after.2 =
    (if bool_decide (sdkVersion t = AnySdkVersion) then
       match sdkLibOf depModule with
       | Some lib =>
           <[AnySdkVersion :=
               clcMap !!! AnySdkVersion ++
               [mkClassLoaderContext lib false None (DexJarInstallPath dep)
                  (ClassLoaderContexts dep)]]> clcMap
       | None =>
           AddContextMap clcMap (ClassLoaderContexts dep)
             (RemoveOptionalPrebuiltPrefix (OtherModuleName depModule))
       end
     else clcMap).
Proof.
  intros Hdep Hjar after. subst after.
  rewrite addCLCFromDep_ctx. split; [done|]. split; [apply reported_refl|].
  unfold addCLCFromDep. rewrite Hdep.
  change (IsLibDepTag (UsesLibraryTag t)) with false. cbv iota.
  destruct (bool_decide (sdkVersion t = AnySdkVersion)).
  - unfold AddContext, PathOrNil. rewrite Hjar.
    by destruct (sdkLibOf depModule) as [lib|].
  - by rewrite bool_decide_eq_false_2.
Qed.

Lemma C4_missing_dex_jar_by_edge_witness :
  let after :=
    @addCLCFromDep sampleDexpreopt sampleAndroid (sampleCtx "a")
      (@usesLibReqTag sampleDexpreopt) (sampleSdkLibrary "s" None) ∅ in
  errs after.1 = [] /\
  jarPath <$> after.2 !!! 10000 = [None] /\
  libraryName <$> after.2 !!! 10000 = ["s"].
Proof.
  destruct (@C4_missing_dex_jar_by_edge sampleDexpreopt sampleAndroid (sampleCtx "a")
              (makeUsesLibraryDependencyTag 10000 false) (sampleSdkLibrary "s" None) ∅
              _ eq_refl eq_refl)
    as (Hctx & _ & Hmap).
  cbv zeta. change (@usesLibReqTag sampleDexpreopt)
    with (UsesLibraryTag (makeUsesLibraryDependencyTag 10000 false)).
  rewrite Hctx, Hmap. repeat split.
Defined.

(** C4 as the spec words it fails on a required uses-library edge of a
    compatibility bucket, where no entry is recorded for the dependency, and
    for a required dependency that is not a node of the tree, which gets no
    entry of its own either. *)
Lemma C4_counterexample :
  let run tag depModule :=
    (@addCLCFromDep sampleDexpreopt sampleAndroid (sampleCtx "a") tag depModule ∅).2 in
  (optional (makeUsesLibraryDependencyTag 29 false) = false /\
   DexJarBuildPath <$> asUsesLibraryDependency (sampleSdkLibrary "s" None) = Some None /\
   run usesLibCompat29ReqTag (sampleSdkLibrary "s" None) = ∅) /\
  (DexJarBuildPath <$> asUsesLibraryDependency (samplePlain "b") = Some None /\
   run (@usesLibReqTag sampleDexpreopt) (samplePlain "b") = ∅).
Proof. cbv zeta. repeat split. Qed.

(** ** Lists *)

Lemma elem_of_flat_map {A B : Type} (f : A -> list B) (l : list A) (y : B) :
  y ∈ flat_map f l <-> exists x, x ∈ l /\ y ∈ f x.
Proof.
  rewrite list_elem_of_In, in_flat_map. split.
  - intros (x & Hx & Hy). exists x. split; by apply list_elem_of_In.
  - intros (x & Hx & Hy). exists x. split; by apply list_elem_of_In.
Qed.

(** * Properties of the further parts *)

Local Ltac elem_of_list := rewrite ?elem_of_cons, ?elem_of_nil; auto 14.

(** ** Language levels: names *)

Example javaVersion_names :
  map javaVersionString [6; 7; 8; 9; 10; 11; 17; 0; -1]
    = ["1.6"; "1.7"; "1.8"; "1.9"; "unsupported"; "11"; "17"; "unsupported"; "unsupported"] /\
  map StringForKotlinc [6; 7; 8; 9; 11; 17; 0]
    = ["1.6"; "1.6"; "1.8"; "9"; "11"; "17"; "unsupported"] /\
  map (fun s => (normalizeJavaVersion (sampleCtx "a") s).2) ["8"; "1.8"; "1.11"; "10"; "21"; ""]
    = [8; 8; 0; 0; 0; 0].
Proof. repeat split. Qed.

Lemma javaVersionString_supported (v : javaVersion) :
  javaVersionString v <> "unsupported" <-> v ∈ [6; 7; 8; 9; 11; 17].
Proof.
  unfold javaVersionString, JAVA_VERSION_6, JAVA_VERSION_7, JAVA_VERSION_8,
    JAVA_VERSION_9, JAVA_VERSION_11, JAVA_VERSION_17.
  rewrite !elem_of_cons, elem_of_nil.
  repeat case_bool_decide; subst; split; try done; try tauto; intros; lia.
Qed.

(** X1. Reading back the name of a supported language level gives the level,
    and reports nothing. *)
Theorem normalizeJavaVersion_String (ctx : ModuleContext) (v : javaVersion) :
  javaVersionString v <> "unsupported" ->
  normalizeJavaVersion ctx (javaVersionString v) = (ctx, v).
Proof.
  intros Hv. apply javaVersionString_supported in Hv.
  rewrite !elem_of_cons, elem_of_nil in Hv.
  destruct Hv as [-> | [-> | [-> | [-> | [-> | [-> | []]]]]]]; reflexivity.
Qed.

Lemma normalizeJavaVersion_String_witness :
  normalizeJavaVersion (sampleCtx "a") (javaVersionString 11) = (sampleCtx "a", 11).
Proof. apply normalizeJavaVersion_String. discriminate. Defined.

(** The two results of [normalizeJavaVersion], by cases on the name. *)
Lemma normalizeJavaVersion_cases (ctx : ModuleContext) (s : string) :
  (exists v, v ∈ [6; 7; 8; 9; 11; 17] /\
             (s = javaVersionString v \/ ("1." +:+ s) = javaVersionString v) /\
             normalizeJavaVersion ctx s = (ctx, v)) \/
  ((s ∉ ["1.6"; "6"; "1.7"; "7"; "1.8"; "8"; "1.9"; "9"; "11"; "17"]) /\
   exists format args,
     normalizeJavaVersion ctx s =
       (PropertyErrorf ctx "java_version" format args, JAVA_VERSION_UNSUPPORTED)).
Proof.
  unfold normalizeJavaVersion.
  case_bool_decide as H6.
  { left. exists 6. split; [elem_of_list|]. destruct H6 as [-> | ->]; auto. }
  case_bool_decide as H7.
  { left. exists 7. split; [elem_of_list|]. destruct H7 as [-> | ->]; auto. }
  case_bool_decide as H8.
  { left. exists 8. split; [elem_of_list|]. destruct H8 as [-> | ->]; auto. }
  case_bool_decide as H9.
  { left. exists 9. split; [elem_of_list|]. destruct H9 as [-> | ->]; auto. }
  case_bool_decide as H11.
  { left. exists 11. split; [elem_of_list|]. subst. auto. }
  case_bool_decide as H17.
  { left. exists 17. split; [elem_of_list|]. subst. auto. }
  right. split.
  - rewrite !elem_of_cons, elem_of_nil. tauto.
  - case_bool_decide; eauto.
Qed.

(** X2. [normalizeJavaVersion] reports an error exactly when it answers
    [JAVA_VERSION_UNSUPPORTED], and the error is about [java_version]. When
    it reports nothing, the context is unchanged, the level is one of 6, 7, 8,
    9, 11 and 17, and the name given is the name of that level, with or
    without its leading [1.]. *)
Theorem normalizeJavaVersion_error_iff (ctx : ModuleContext) (s : string) :
  let after := (normalizeJavaVersion ctx s).1 in
  let v := (normalizeJavaVersion ctx s).2 in
  (reported ctx after <> [] <-> v = JAVA_VERSION_UNSUPPORTED) /\
  (forall e, e ∈ reported ctx after -> exists format args,
       e = PropertyErrorOf "java_version" format args) /\
  (v <> JAVA_VERSION_UNSUPPORTED ->
     after = ctx /\ v ∈ [6; 7; 8; 9; 11; 17] /\
     (s = javaVersionString v \/ ("1." +:+ s) = javaVersionString v)).
Proof.
  cbv zeta. unfold reported.
  destruct (normalizeJavaVersion_cases ctx s)
    as [(v & Hv & Hname & ->) | (Hs & format & args & ->)]; simpl.
  - rewrite drop_all.
    assert (Hne : v <> JAVA_VERSION_UNSUPPORTED).
    { intros ->. rewrite !elem_of_cons, elem_of_nil in Hv.
      unfold JAVA_VERSION_UNSUPPORTED in Hv. lia. }
    split; [split; [done | by intros ?]|].
    split; [intros e He; by apply not_elem_of_nil in He|]. done.
  - rewrite drop_app_length. split; [done|]. split; [|done].
    intros e He. apply list_elem_of_singleton in He as ->. eauto.
Qed.

(** X3. A language level from level 9 on goes by the names 1.9, 9, 11 and 17:
    the level that [java_version] names uses system modules exactly for
    these four names. *)
Theorem usesJavaModules_normalizeJavaVersion (ctx : ModuleContext) (s : string) :
  usesJavaModules (normalizeJavaVersion ctx s).2 = true <-> s ∈ ["1.9"; "9"; "11"; "17"].
Proof.
  destruct (normalizeJavaVersion_cases ctx s)
    as [(v & Hv & Hname & ->) | (Hs & format & args & ->)]; simpl.
  - rewrite <- (bool_decide_eq_true (s ∈ _)).
    rewrite !elem_of_cons, elem_of_nil in Hv.
    destruct Hv as [-> | [-> | [-> | [-> | [-> | [-> | []]]]]]];
      (destruct Hname as [-> | Hname]; [|vm_compute in Hname; simplify_eq]);
      vm_compute; tauto.
  - split; [done|]. intros Hin. exfalso. apply Hs. revert Hin.
    rewrite !elem_of_cons, !elem_of_nil. tauto.
Qed.

(** X4. For every supported language level, the name given to kotlinc is a
    JVM target that kotlinc supports. *)
Theorem StringForKotlinc_supported (v : javaVersion) :
  javaVersionString v <> "unsupported" ->
  StringForKotlinc v ∈ kotlincJvmTargets.
Proof.
  intros Hv. apply javaVersionString_supported in Hv.
  rewrite !elem_of_cons, elem_of_nil in Hv.
  destruct Hv as [-> | [-> | [-> | [-> | [-> | [-> | []]]]]]];
    apply (bool_decide_unpack _); vm_compute; exact I.
Qed.

Lemma StringForKotlinc_supported_witness : StringForKotlinc 7 ∈ kotlincJvmTargets.
Proof. apply StringForKotlinc_supported. discriminate. Defined.

(** ** Dependency tags *)

(** X5. The name of a uses-library tag tells its SDK version: two such tags
    have the same name exactly when they have the same version, whatever
    their optional flags. Every uses-library tag is annotated as a shared
    dependency and is none of the libs, static libs and jni tags. *)
Theorem makeUsesLibraryDependencyTag_name (v1 v2 : Z) (o1 o2 : bool) :
  (name (usesLibraryTag (makeUsesLibraryDependencyTag v1 o1)) =
   name (usesLibraryTag (makeUsesLibraryDependencyTag v2 o2)) <-> v1 = v2) /\
  LicenseAnnotations (usesLibraryTag (makeUsesLibraryDependencyTag v1 o1))
    = [LicenseAnnotationSharedDependency] /\
  IsLibDepTag (UsesLibraryTag (makeUsesLibraryDependencyTag v1 o1)) = false /\
  IsStaticLibDepTag (UsesLibraryTag (makeUsesLibraryDependencyTag v1 o1)) = false /\
  IsJniDepTag (UsesLibraryTag (makeUsesLibraryDependencyTag v1 o1)) = false.
Proof.
  split; [|done]. simpl. split.
  - intros Hname. simplify_eq/=. by apply (inj pretty).
  - by intros ->.
Qed.

(** ** Dependencies of java_import and of the SDK *)

Lemma newRequests_app (before : BottomUpMutatorContext) (mctx : ModuleContext)
    (added : list DepRequest) :
  newRequests before {| moduleCtx := mctx; requested := requested before ++ added |}
    = added.
Proof. unfold newRequests. simpl. apply drop_app_length. Qed.

Lemma namesWithTag_app (tag : DependencyTag) (l k : list DepRequest) :
  namesWithTag tag (l ++ k) = namesWithTag tag l ++ namesWithTag tag k.
Proof. unfold namesWithTag. by rewrite filter_app, map_app. Qed.

Lemma namesWithTag_same (call : AddCall) (vs : list Variation) (tag : DependencyTag)
    (names : list string) :
  namesWithTag tag (map (mkDepRequest call vs tag) names) = names.
Proof.
  unfold namesWithTag. induction names as [|n names IHnames]; [done|].
  simpl. rewrite filter_cons. simpl. case_decide; [|done]. simpl. by f_equal.
Qed.

Lemma namesWithTag_other (call : AddCall) (vs : list Variation)
    (tag other : DependencyTag) (names : list string) :
  other <> tag ->
  namesWithTag tag (map (mkDepRequest call vs other) names) = [].
Proof.
  intros Hne. unfold namesWithTag. induction names as [|n names IHnames]; [done|].
  simpl. rewrite filter_cons. simpl. by case_decide.
Qed.

(** What [sdkDeps] adds, as one list. *)
Lemma sdkDeps_requested `{JavaCollaborators} `{JavaConfig}
    (ctx : BottomUpMutatorContext) (sdkContext : SdkSpec) (d : dexer) :
  let sdkDep := (decodeSdkDep (moduleCtx ctx) sdkContext).2 in
  let add := mkDepRequest ViaAddVariationDependencies [] in
  sdkDeps ctx sdkContext d =
    {| moduleCtx := (decodeSdkDep (moduleCtx ctx) sdkContext).1;
       requested :=
         requested ctx ++
         ((if sdkDep.useModule sdkDep then
             map (add bootClasspathTag) (sdkDep.bootclasspath sdkDep) ++
             map (add java9LibTag) (sdkDep.java9Classpath sdkDep) ++
             map (add sdkLibTag) (sdkDep.classpath sdkDep) ++
             (if effectiveOptimizeEnabled d && sdkDep.hasStandardLibs sdkDep
              then map (add proguardRaiseTag) LegacyCorePlatformBootclasspathLibraries
              else []) ++
             (if effectiveOptimizeEnabled d && sdkDep.hasFrameworkLibs sdkDep
              then map (add proguardRaiseTag) FrameworkLibraries
              else [])
           else []) ++
          (if bool_decide (sdkDep.systemModules sdkDep ≠ EmptyString)
           then [add systemModulesTag (sdkDep.systemModules sdkDep)]
           else [])) |}.
Proof.
  cbv zeta. unfold sdkDeps.
  destruct (decodeSdkDep (moduleCtx ctx) sdkContext) as [mctx sdkDep]. simpl.
  unfold AddVariationDependencies, addRequests.
  destruct (sdkDep.useModule sdkDep),
    (effectiveOptimizeEnabled d && sdkDep.hasStandardLibs sdkDep),
    (effectiveOptimizeEnabled d && sdkDep.hasFrameworkLibs sdkDep),
    (bool_decide (sdkDep.systemModules sdkDep ≠ EmptyString));
    simpl; f_equal; rewrite <- ?app_assoc, ?app_nil_r; reflexivity.
Qed.

(** X6. [sdkDeps] keeps the dependencies requested before it and raises
    libraries for proguard in one of three ways only: none, the legacy core
    platform libraries, or these followed by the framework libraries. The
    framework libraries are never raised without the legacy ones, and nothing
    is raised for an SDK that is not built from modules or when the module is
    not optimized. *)
Theorem sdkDeps_proguard_raise `{JavaCollaborators} `{JavaConfig}
    (ctx : BottomUpMutatorContext) (sdkContext : SdkSpec) (d : dexer) :
  let sdkDep := (decodeSdkDep (moduleCtx ctx) sdkContext).2 in
  let after := sdkDeps ctx sdkContext d in
  requested after = requested ctx ++ newRequests ctx after /\
  namesWithTag proguardRaiseTag (newRequests ctx after) =
    (if sdkDep.useModule sdkDep && effectiveOptimizeEnabled d &&
        negb (sdkDep.noStandardLibs sdkDep)
     then LegacyCorePlatformBootclasspathLibraries ++
          (if sdkDep.noFrameworksLibs sdkDep then [] else FrameworkLibraries)
     else []).
Proof.
  cbv zeta. rewrite sdkDeps_requested. cbv zeta. rewrite newRequests_app.
  split; [done|].
  unfold sdkDep.hasStandardLibs, sdkDep.hasFrameworkLibs.
  destruct (sdkDep.useModule _), (effectiveOptimizeEnabled d),
    (sdkDep.noStandardLibs _), (sdkDep.noFrameworksLibs _),
    (bool_decide (sdkDep.systemModules _ ≠ EmptyString)); simpl;
    rewrite ?namesWithTag_app, ?namesWithTag_same,
      ?(namesWithTag_other _ _ proguardRaiseTag bootClasspathTag),
      ?(namesWithTag_other _ _ proguardRaiseTag java9LibTag),
      ?(namesWithTag_other _ _ proguardRaiseTag sdkLibTag),
      ?(namesWithTag_other _ _ proguardRaiseTag systemModulesTag),
      ?app_nil_r by done; try done.
Qed.

(** X7. The libs dependencies that [Import.DepsMutator] requests are the
    [libs] property, name for name and in its order; it requests no static
    libs dependency; and a variant that is not for the device, or that does
    not compile to dex, requests nothing else and reports nothing. *)
Theorem Import_DepsMutator_libs `{JavaCollaborators} `{JavaConfig}
    (j : ImportModule.t) (d : dexer) (ctx : BottomUpMutatorContext) :
  let after := ImportMethods.DepsMutator j d ctx in
  namesWithTag libTag (newRequests ctx after)
    = ImportModule.Libs (ImportModule.properties j) /\
  namesWithTag staticLibTag (newRequests ctx after) = [] /\
  (Device (moduleCtx ctx) && Bool (ImportModule.Compile_dex j) = false ->
   moduleCtx after = moduleCtx ctx /\
   map reqTag (newRequests ctx after)
     = map (fun _ => libTag) (ImportModule.Libs (ImportModule.properties j))).
Proof.
  cbv zeta. unfold ImportMethods.DepsMutator.
  change (AddVariationDependencies ctx [] libTag
            (ImportModule.Libs (ImportModule.properties j)))
    with {| moduleCtx := moduleCtx ctx;
            requested := requested ctx ++
              map (mkDepRequest ViaAddVariationDependencies [] libTag)
                (ImportModule.Libs (ImportModule.properties j)) |}.
  cbn [moduleCtx].
  destruct (Device (moduleCtx ctx) && Bool (ImportModule.Compile_dex j)).
  - rewrite sdkDeps_requested. cbv zeta. cbn [moduleCtx requested].
    destruct (decodeSdkDep (moduleCtx ctx) (ImportModule.SdkVersion j)) as [mctx sd].
    simpl. rewrite <- app_assoc, newRequests_app.
    destruct (sdkDep.useModule sd), (effectiveOptimizeEnabled d && sdkDep.hasStandardLibs sd),
      (effectiveOptimizeEnabled d && sdkDep.hasFrameworkLibs sd),
      (bool_decide (sdkDep.systemModules sd ≠ EmptyString)); simpl;
      rewrite ?namesWithTag_app, ?namesWithTag_same,
        ?(namesWithTag_other _ _ _ bootClasspathTag),
        ?(namesWithTag_other _ _ _ java9LibTag),
        ?(namesWithTag_other _ _ _ sdkLibTag),
        ?(namesWithTag_other _ _ _ proguardRaiseTag),
        ?(namesWithTag_other _ _ _ systemModulesTag),
        ?(namesWithTag_other _ _ staticLibTag libTag),
        ?app_nil_r by done; done.
  - rewrite newRequests_app, namesWithTag_same, namesWithTag_other by done.
    split; [done|]. split; [done|]. intros _. split; [done|].
    by rewrite map_map.
Qed.

(** ** The classpaths of java_import *)

Lemma addHeaderJars_sublist (tag : DependencyTag) (dep : JavaInfo)
    (flags : javaBuilderFlags) :
  dexClasspath flags `sublist_of` classpath flags ->
  dexClasspath (ImportModule.addHeaderJars tag dep flags)
    `sublist_of` classpath (ImportModule.addHeaderJars tag dep flags).
Proof.
  intros Hsub. unfold ImportModule.addHeaderJars.
  destruct (bool_decide (tag = libTag) || bool_decide (tag = sdkLibTag)); simpl.
  { by apply sublist_app. }
  destruct (bool_decide (tag = staticLibTag)); simpl.
  { by apply sublist_inserts_r. }
  by destruct (bool_decide (tag = bootClasspathTag)).
Qed.

Lemma visitDirectDep_sublist `{Dexpreopt} `{Android} (j : ImportModule.t)
    (acc : ModuleContext * javaBuilderFlags * ClassLoaderContextMap)
    (edge : DependencyTag * Module) :
  dexClasspath acc.1.2 `sublist_of` classpath acc.1.2 ->
  dexClasspath (ImportModule.visitDirectDep j acc edge).1.2
    `sublist_of` classpath (ImportModule.visitDirectDep j acc edge).1.2.
Proof.
  destruct acc as [[ctx flags] clcMap], edge as [tag module]. simpl. intros Hsub.
  destruct (addCLCFromDep ctx tag module clcMap) as [ctx' clcMap']. simpl.
  destruct (JavaInfoProvider module) as [dep|].
  { by apply addHeaderJars_sublist. }
  destruct (asSdkLibraryDependency module) as [dep|]; [|done].
  destruct (bool_decide (tag = libTag) || bool_decide (tag = sdkLibTag)); [|done].
  simpl. by apply sublist_inserts_r.
Qed.

Lemma visitDirectDeps_sublist `{Dexpreopt} `{Android} (j : ImportModule.t)
    (ctx : ModuleContext) (directDeps : list (DependencyTag * Module)) :
  dexClasspath (ImportModule.visitDirectDeps j ctx directDeps).1.2
    `sublist_of` classpath (ImportModule.visitDirectDeps j ctx directDeps).1.2.
Proof.
  unfold ImportModule.visitDirectDeps.
  assert (Hstart : dexClasspath (ctx, zeroFlags, (∅ : ClassLoaderContextMap)).1.2
                     `sublist_of` classpath (ctx, zeroFlags, (∅ : ClassLoaderContextMap)).1.2)
    by (simpl; constructor).
  revert Hstart. generalize (ctx, zeroFlags, (∅ : ClassLoaderContextMap)).
  induction directDeps as [|edge rest IHrest]; intros acc Hacc; [done|].
  simpl. apply IHrest. by apply visitDirectDep_sublist.
Qed.

Lemma deviceActions_sublist `{Android} `{JavaCollaborators} `{ContextMethods}
    `{DexpreopterMethods} `{filepath.Methods} (j : ImportModule.t)
    (ctx : ModuleContext) (flags : javaBuilderFlags) (jarName : string)
    (outputFile : Path) :
  dexClasspath flags `sublist_of` classpath flags ->
  dexClasspath (ImportModule.dexFlags (ImportModule.deviceActions j ctx flags jarName outputFile))
    `sublist_of`
  classpath (ImportModule.dexFlags (ImportModule.deviceActions j ctx flags jarName outputFile)).
Proof.
  intros Hsub. unfold ImportModule.deviceActions.
  destruct (negb (Device ctx)); [done|].
  destruct (ForPrebuiltApex (ApexInfoProvider ctx)).
  { destruct (FindDeapexerProviderForModule ctx) as [ctx' [di|]]; [|done].
    destruct (PrebuiltExportPath di _); [|done].
    cbn. by destruct (dexpreopt ctx' _ _). }
  destruct (Bool (ImportModule.Compile_dex j)); [|done].
  destruct (decodeSdkDep ctx (ImportModule.SdkVersion j)) as [ctx1 sdkDep].
  assert (Hadd : dexClasspath (ImportModule.addSdkDep ctx1 sdkDep flags).2
                   `sublist_of` classpath (ImportModule.addSdkDep ctx1 sdkDep flags).2).
  { unfold ImportModule.addSdkDep.
    destruct (sdkDep.invalidVersion sdkDep); [done|].
    destruct (sdkDep.useFiles sdkDep); [|done]. simpl. by apply sublist_inserts_r. }
  destruct (ImportModule.addSdkDep ctx1 sdkDep flags) as [ctx2 flags2].
  destruct (compileDex ctx2 _) as [ctx3 dexOutputFile].
  by destruct (Failed ctx3).
Qed.

(** X8. The flags with which [Import.GenerateAndroidBuildActions] ends keep
    the d8 classpath inside the javac classpath: whatever the dependencies
    and their tags, the jars of [dexClasspath] are jars of [classpath], in the
    same order. *)
Theorem Import_dexClasspath_sublist `{Dexpreopt} `{Android} `{JavaCollaborators}
    `{ContextMethods} `{DexpreopterMethods} `{filepath.Methods}
    (j : ImportModule.t) (ctx : ModuleContext)
    (directDeps : list (DependencyTag * Module)) :
  let flags := ImportModule.flagsAfter
                 (ImportModule.GenerateAndroidBuildActions j ctx directDeps) in
  dexClasspath flags `sublist_of` classpath flags.
Proof.
  cbv zeta. unfold ImportModule.GenerateAndroidBuildActions.
  pose proof (visitDirectDeps_sublist j ctx directDeps) as Hsub.
  destruct (ImportModule.visitDirectDeps j ctx directDeps) as [[ctx' flags] clcMap].
  simpl in *. by apply deviceActions_sublist.
Qed.

(** ** Uncompressed dex *)

(** [setUncompressedDex] is the call of [setUncompressDex] followed by the
    dereference, which does not panic. *)
Lemma setAndReadUncompressDex_total `{ContextMethods} `{DexpreopterMethods}
    (ctx : ModuleContext) (dp : dexpreopter.t) (d : dexer) :
  setAndReadUncompressDex ctx dp d = Some (setUncompressedDex ctx dp d).
Proof.
  unfold setAndReadUncompressDex, setUncompressedDex, setUncompressDex.
  by destruct (Uncompress_dex d) as [b|] eqn:Hd; simpl; rewrite ?Hd.
Qed.

(** X9. After [setUncompressDex] the dereference of [Uncompress_dex] never
    panics, and the dexpreopter gets the value that the property then holds.
    A value set by the user is kept as it is; without one, a variant for an
    apex stores its dex uncompressed. The value is decided once: a second
    call, in whatever context, changes nothing. *)
Theorem setUncompressDex_once `{ContextMethods} `{DexpreopterMethods}
    (ctx ctx2 : ModuleContext) (dp dp2 : dexpreopter.t) (d : dexer) :
  exists dp' d',
    setAndReadUncompressDex ctx dp d = Some (dp', d') /\
    Uncompress_dex d' = Some (dexpreopter.uncompressedDex dp') /\
    (forall b, Uncompress_dex d = Some b ->
               d' = d /\ dexpreopter.uncompressedDex dp' = b) /\
    (Uncompress_dex d = None -> IsForPlatform (ApexInfoProvider ctx) = false ->
     dexpreopter.uncompressedDex dp' = true) /\
    setUncompressDex ctx2 dp2 d' = d'.
Proof.
  unfold setAndReadUncompressDex, setUncompressDex.
  destruct (Uncompress_dex d) as [b|] eqn:Hd; simpl.
  - rewrite Hd. eexists _, _. split; [reflexivity|]. simpl. rewrite Hd.
    split; [done|]. split; [by intros b' [= ->]|]. split; [done|]. done.
  - eexists _, _. split; [reflexivity|]. simpl.
    split; [done|]. split; [done|]. split; [|done]. intros _ Hapex.
    unfold shouldUncompressDex. by rewrite Hapex.
Qed.

(** ** dex_import: the rule and the installation *)

(** X10. [DexImport.GenerateAndroidBuildActions] panics exactly when [Jars]
    is empty, and it goes on with the first jar when there are several: the
    input of the rule is the path that [ExpandSource] gives for [Jars[0]], in
    the context that the check of [Jars] leaves. When it ends, the jar that
    the rule makes is the dex jar of the module; a variant for an apex is
    hidden from make, stores its dex uncompressed and installs nothing, and
    the platform variant installs that one jar, under the name of its stem. *)
Theorem DexImport_rule_and_install `{Android} `{ContextMethods} `{DexpreopterMethods}
    (j : DexImport.t) (ctx : ModuleContext) :
  let jars := DexImport.Jars (DexImport.properties j) in
  let checked :=
    if bool_decide (length jars ≠ 1%nat)
    then PropertyErrorf ctx "jars" DexImport.jarsFormat [] else ctx in
  let result := DexImport.GenerateAndroidBuildActions j ctx in
  ((exists c, result = Panicked c) <-> jars = []) /\
  (forall f, result = Done f ->
     (exists jar,
        jars !! 0%nat = Some jar /\
        DexImport.ruleInput (DexImport.rule f) = (ExpandSource checked jar "jars").2) /\
     DexImport.DexJarBuildPath (DexImport.moduleAfter f)
       = Some (DexImport.ruleOutput (DexImport.rule f)) /\
     (IsForPlatform (ApexInfoProvider ctx) = false ->
        DexImport.hideApexVariantFromMake (DexImport.moduleAfter f) = true /\
        (exists input temporary output,
           DexImport.rule f = DexImport.UncompressDexRule input temporary output) /\
        DexImport.installs f = []) /\
     (IsForPlatform (ApexInfoProvider ctx) = true ->
        exists dir,
          DexImport.installs f =
            [DexImport.mkInstall dir
               (DexImport.StemOf j +:+ ".jar")
               (DexImport.ruleOutput (DexImport.rule f))])).
Proof.
  cbv zeta. unfold DexImport.GenerateAndroidBuildActions.
  set (ctx0 := if bool_decide _ then _ else ctx).
  assert (Hapex : ApexInfoProvider ctx0 = ApexInfoProvider ctx).
  { unfold ctx0. by destruct (bool_decide _). }
  destruct (DexImport.Jars (DexImport.properties j)) as [|jar jars] eqn:Hjars.
  { simpl. split; [split; [done | eauto]|]. by intros f [=]. }
  cbn [lookup list_lookup].
  destruct (ExpandSource ctx0 jar "jars") as [ctx1 inputJar] eqn:Hexpand.
  destruct (dexpreopt ctx1 _ _) as [ctx2 dp2].
  split; [split; [by intros [c [=]] | by intros [=]]|].
  intros f [= <-]. cbn. rewrite Hapex.
  set (un := shouldUncompressDex ctx0 _).
  assert (Hun : IsForPlatform (ApexInfoProvider ctx) = false -> un = true).
  { intros Hplat. unfold un, shouldUncompressDex. by rewrite Hapex, Hplat. }
  split.
  { exists jar. split; [done|]. rewrite Hexpand. by destruct un. }
  split.
  { unfold DexImport.DexJarBuildPath. cbn. by destruct un. }
  split.
  - intros Hplat. specialize (Hun Hplat). clearbody un. subst un.
    rewrite Hplat. cbn. eauto 10.
  - intros Hplat. rewrite Hplat. eexists. by destruct un.
Qed.

(** ** java_import and the prebuilt apex *)

Lemma visitDirectDep_ctx `{Dexpreopt} `{Android} (j : ImportModule.t)
    (acc : ModuleContext * javaBuilderFlags * ClassLoaderContextMap)
    (edge : DependencyTag * Module) :
  (ImportModule.visitDirectDep j acc edge).1.1 = acc.1.1.
Proof.
  destruct acc as [[ctx flags] clcMap], edge as [tag module]. simpl.
  pose proof (addCLCFromDep_ctx ctx tag module clcMap) as Hctx.
  by destruct (addCLCFromDep ctx tag module clcMap).
Qed.

Lemma visitDirectDeps_ctx `{Dexpreopt} `{Android} (j : ImportModule.t)
    (ctx : ModuleContext) (directDeps : list (DependencyTag * Module)) :
  (ImportModule.visitDirectDeps j ctx directDeps).1.1 = ctx.
Proof.
  unfold ImportModule.visitDirectDeps.
  change ctx with (ctx, zeroFlags, (∅ : ClassLoaderContextMap)).1.1 at 2.
  generalize (ctx, zeroFlags, (∅ : ClassLoaderContextMap)).
  induction directDeps as [|edge rest IHrest]; intros acc; [done|].
  simpl. rewrite IHrest. apply visitDirectDep_ctx.
Qed.

(** X11. The files that [Import.GenerateAndroidBuildActions] asks the
    deapexer for are the files that [RequiredFilesFromPrebuiltApex] lists for
    a profile guided module: the dex jar and, next to it, its [.prof]. For a
    device variant made for a prebuilt apex whose deapexer is found: when the
    deapexer does not export the dex jar, the function reports the internal
    error and nothing else, and the dex jar of the module stays as it was;
    when it exports it, the export becomes the dex jar of the module, the
    install path is the path of that file under the apex, and the context
    that the function ends with is the one that [dexpreopt] returns for the
    export, called with that install path and with the exported profile, if
    there is one. In both cases the [JavaInfo] is published. *)
Theorem Import_required_file_is_dex_jar `{Dexpreopt} `{Android} `{JavaCollaborators}
    `{ContextMethods} `{DexpreopterMethods} `{filepath.Methods}
    (j : ImportModule.t) (ctx ctx' : ModuleContext)
    (di : DeapexerInfo) (directDeps : list (DependencyTag * Module)) :
  Device ctx = true ->
  ForPrebuiltApex (ApexInfoProvider ctx) = true ->
  FindDeapexerProviderForModule ctx = (ctx', Some di) ->
  let g := ImportModule.GenerateAndroidBuildActions j ctx directDeps in
  exists file,
    (forall dp, dexpreopter.Profile_guided dp = Some true ->
       ImportMethods.RequiredFilesFromPrebuiltApex j dp = [file; file +:+ ".prof"]) /\
    (forall dp, head (ImportMethods.RequiredFilesFromPrebuiltApex j dp) = Some file) /\
    (PrebuiltExportPath di file = None ->
       ImportModule.ctxAfter g =
         ModuleErrorf ctx'
           "internal error: no dex implementation jar available from prebuilt APEX %s"
           [ApexModuleName di] /\
       ImportModule.dexJarFile (ImportModule.moduleAfter g) = ImportModule.dexJarFile j /\
       ImportModule.dexpreopter (ImportModule.moduleAfter g) = ImportModule.dexpreopter j /\
       is_Some (ImportModule.JavaInfoSet g)) /\
    (forall dexOutputPath, PrebuiltExportPath di file = Some dexOutputPath ->
       let installPath :=
         PathForModuleInPartitionInstall ctx'
           ["apex"; ApexVariationName (ApexInfoProvider ctx); file] in
       (exists dp,
          dexpreopt ctx' dp dexOutputPath
            = (ImportModule.ctxAfter g,
               ImportModule.dexpreopter (ImportModule.moduleAfter g)) /\
          dexpreopter.installPath dp
            = Some (getInstallPath ctx' (ImportModule.dexpreopter j) installPath) /\
          Some (dexpreopter.uncompressedDex dp)
            = Uncompress_dex (ImportModule.dexer (ImportModule.moduleAfter g)) /\
          dexpreopter.inputProfilePathOnHost dp
            = match PrebuiltExportPath di (file +:+ ".prof") with
              | Some profilePath => Some profilePath
              | None => dexpreopter.inputProfilePathOnHost (ImportModule.dexpreopter j)
              end) /\
       ImportModule.dexJarFile (ImportModule.moduleAfter g) = Some dexOutputPath /\
       ImportModule.dexJarInstallFile (ImportModule.moduleAfter g) = Some installPath /\
       is_Some (ImportModule.JavaInfoSet g)).
Proof.
  intros Hdevice Hapex Hfind. cbv zeta.
  exists (ImportModule.apexRootRelativePathToJavaLib (ImportModule.BaseModuleName j)).
  split.
  { intros dp Hguided.
    unfold ImportMethods.RequiredFilesFromPrebuiltApex,
      requiredFilesFromPrebuiltApexForImport. by rewrite Hguided. }
  split.
  { intros dp.
    unfold ImportMethods.RequiredFilesFromPrebuiltApex,
      requiredFilesFromPrebuiltApexForImport.
    by destruct (BoolDefault _ _). }
  unfold ImportModule.GenerateAndroidBuildActions.
  pose proof (visitDirectDeps_ctx j ctx directDeps) as Hctx.
  destruct (ImportModule.visitDirectDeps j ctx directDeps) as [[ctx0 flags] clcMap].
  simpl in Hctx. subst ctx0. cbn.
  unfold ImportModule.deviceActions. rewrite Hdevice, Hapex, Hfind. cbn.
  destruct (PrebuiltExportPath di
              (ImportModule.apexRootRelativePathToJavaLib (ImportModule.BaseModuleName j)))
    as [dexOutputPath|]; cbn.
  - split; [done|]. intros p [= <-].
    match goal with |- context [dexpreopt ctx' ?dp dexOutputPath] =>
      set (handed := dp); destruct (dexpreopt ctx' handed dexOutputPath) as [ctx2 dp2] eqn:Hrun
    end.
    cbn. split; [|repeat split; eauto]. exists handed. split; [done|].
    unfold handed.
    destruct (PrebuiltExportPath di _) as [profilePath|]; cbn;
      (split; [done|]); (split; [|done]);
      unfold setUncompressDex;
      by destruct (Uncompress_dex (ImportModule.dexer j)) as [b|] eqn:Hset.
  - split; [|done]. intros _. repeat split; eauto.
Qed.

Lemma Import_required_file_is_dex_jar_witness :
  let g :=
    @ImportModule.GenerateAndroidBuildActions sampleDexpreopt sampleAndroid
      sampleApexCollaborators sampleContextMethods sampleDexpreopterMethods
      sampleFilepath (sampleImport "core-oj") (sampleApexCtx "core-oj") [] in
  ImportModule.dexJarFile (ImportModule.moduleAfter g)
    = Some "out/deapexer/javalib/core-oj.jar" /\
  ImportModule.dexJarInstallFile (ImportModule.moduleAfter g)
    = Some "install/apex/com.android.art/javalib/core-oj.jar".
Proof.
  destruct (@Import_required_file_is_dex_jar sampleDexpreopt sampleAndroid
              sampleApexCollaborators sampleContextMethods sampleDexpreopterMethods
              sampleFilepath (sampleImport "core-oj")
              (sampleApexCtx "core-oj") (sampleApexCtx "core-oj") sampleDeapexerInfo []
              eq_refl eq_refl eq_refl) as (file & Hfiles & _ & _ & Hdex).
  specialize (Hfiles sampleDexpreopter eq_refl). injection Hfiles as <- _.
  destruct (Hdex _ eq_refl) as (_ & Hjar & Hinstall & _).
  cbv zeta. split; [exact Hjar | exact Hinstall].
Defined.

(** ** What java_import answers about its jars *)

(** X12. When [Import.GenerateAndroidBuildActions] publishes a [JavaInfo],
    the methods of the module agree with it: [HeaderJars] and
    [ImplementationAndResourcesJars] give the header jars of the [JavaInfo],
    which are one jar, and [OutputFiles] gives that same jar, without error,
    for the tags it supports. *)
Theorem Import_methods_agree `{Dexpreopt} `{Android} `{JavaCollaborators}
    `{ContextMethods} `{DexpreopterMethods} `{filepath.Methods}
    (j : ImportModule.t) (ctx : ModuleContext)
    (directDeps : list (DependencyTag * Module)) (info : JavaInfo) :
  let g := ImportModule.GenerateAndroidBuildActions j ctx directDeps in
  ImportModule.JavaInfoSet g = Some info ->
  length (HeaderJars info) = 1%nat /\
  ImportMethods.HeaderJars (ImportModule.moduleAfter g) = HeaderJars info /\
  ImportMethods.ImplementationAndResourcesJars (ImportModule.moduleAfter g)
    = ImplementationAndResourcesJars info /\
  ImportMethods.OutputFiles (ImportModule.moduleAfter g) EmptyString
    = (map Some (HeaderJars info), None) /\
  ImportMethods.OutputFiles (ImportModule.moduleAfter g) ".jar"
    = (map Some (HeaderJars info), None).
Proof.
  cbv zeta. unfold ImportModule.GenerateAndroidBuildActions.
  destruct (ImportModule.visitDirectDeps j ctx directDeps) as [[ctx0 flags] clcMap].
  cbn. destruct (ImportModule.returned _); [done|]. by intros [= <-].
Qed.

Lemma Import_methods_agree_witness :
  ImportMethods.HeaderJars
    (ImportModule.moduleAfter
       (@ImportModule.GenerateAndroidBuildActions sampleDexpreopt sampleAndroid
          sampleCollaborators sampleContextMethods sampleDexpreopterMethods
          sampleFilepath (sampleImport "a") (sampleCtx "a") []))
  = ["out/a/combined/a.jar"].
Proof.
  exact (proj1 (proj2
    (@Import_methods_agree sampleDexpreopt sampleAndroid sampleCollaborators
       sampleContextMethods sampleDexpreopterMethods sampleFilepath
       (sampleImport "a") (sampleCtx "a") [] _ eq_refl))).
Defined.

(** X13. [Import.OutputFiles] answers with an error exactly for a tag other
    than the empty one and [.jar], and then with no path. It does not look at
    the jar: on a module that has not generated its build actions it answers
    with a list that holds one nil path, where [HeaderJars] answers with no
    path at all. *)
Theorem Import_OutputFiles_tags (j : ImportModule.t) (tag : string) :
  (is_Some (ImportMethods.OutputFiles j tag).2 <-> tag ∉ [EmptyString; ".jar"]) /\
  (is_Some (ImportMethods.OutputFiles j tag).2 -> (ImportMethods.OutputFiles j tag).1 = []) /\
  (ImportModule.combinedClasspathFile j = None -> tag ∈ [EmptyString; ".jar"] ->
   ImportMethods.OutputFiles j tag = ([None], None) /\ ImportMethods.HeaderJars j = []).
Proof.
  unfold ImportMethods.OutputFiles, ImportMethods.HeaderJars.
  rewrite !elem_of_cons, elem_of_nil.
  case_bool_decide as Htag; simpl.
  - split; [split; [by intros [? [=]] | tauto]|].
    split; [by intros [? [=]]|]. by intros -> _.
  - split; [split; [tauto | eauto]|]. split; [done|]. tauto.
Qed.

(** ** java_test_host: device binaries *)

Lemma nonempty_nil {A : Type} : bool_decide (0 < length (@nil A))%nat = false.
Proof. apply bool_decide_eq_false_2. simpl. lia. Qed.

Lemma nonempty_cons {A : Type} (x : A) (l : list A) :
  bool_decide (0 < length (x :: l))%nat = true.
Proof. apply bool_decide_eq_true_2. simpl. lia. Qed.

Lemma newRequests_same (ctx : BottomUpMutatorContext) (mctx : ModuleContext) :
  newRequests ctx {| moduleCtx := mctx; requested := requested ctx |} = [].
Proof. unfold newRequests. simpl. apply drop_all. Qed.

Lemma newRequests_refl (ctx : BottomUpMutatorContext) : newRequests ctx ctx = [].
Proof. unfold newRequests. apply drop_all. Qed.

Lemma elem_of_map {A B : Type} (f : A -> B) (l : list A) (y : B) :
  y ∈ map f l <-> exists x, y = f x /\ x ∈ l.
Proof.
  rewrite list_elem_of_In, in_map_iff. split.
  - intros (x & <- & Hx). exists x. by rewrite list_elem_of_In.
  - intros (x & -> & Hx). exists x. by rewrite <- list_elem_of_In.
Qed.

Lemma fold_left_append {A B : Type} (g : A -> B) (l : list A) (init : list B) :
  fold_left (fun acc x => acc ++ [g x]) l init = init ++ map g l.
Proof.
  revert init. induction l as [|x l IHl]; intros init; simpl.
  - by rewrite app_nil_r.
  - by rewrite IHl, <- app_assoc.
Qed.

(** The push-file options name the device binaries, one for one. *)
Lemma pushFileKeys_configs (Join : list string -> string) (j : TestHost.t) :
  TestHost.pushFileKeys (TestHost.configs Join j) = TestHost.dataDeviceBins j.
Proof.
  unfold TestHost.pushFileKeys, TestHost.configs.
  case_bool_decide as Hlen; simpl.
  - rewrite app_nil_r.
    rewrite (fold_left_append
               (fun bin => TestHost.mkOption "push-file" bin
                             (Join [Join ["/data/local/tests/unrestricted/"; TestHost.Name j]; bin]))).
    simpl. rewrite filter_cons. simpl. clear Hlen.
    induction (TestHost.dataDeviceBins j) as [|bin bins IHbins]; [done|].
    simpl. rewrite ?filter_cons. simpl. by f_equal.
  - destruct (TestHost.dataDeviceBins j); [done|]. simpl in Hlen. lia.
Qed.

(** Goals made of [is_Some], equations between constructors and connectives. *)
Local Ltac some_solver :=
  unfold is_Some, not; simpl;
  repeat first
    [ progress intros
    | match goal with
      | |- _ /\ _ => split
      | |- _ <-> _ => split
      | Hc : _ /\ _ |- _ => destruct Hc
      | Ho : _ \/ _ |- _ => destruct Ho
      | He : exists _, _ |- _ => destruct He
      | Hi : ?a = ?a -> _ |- _ => specialize (Hi eq_refl)
      | Hs : Some _ = Some _ |- _ => injection Hs as <-
      end ];
  try discriminate; try contradiction;
  first [ solve [eauto 4] | left; solve [some_solver] | right; solve [some_solver] ].

(** X14. [addDataDeviceBinsDeps] reports at most one error, and each is a
    property error on the list that could not be served. It reports nothing
    exactly when every list that is not empty has a target it can use: a
    32-bit or a 64-bit device target for [data_device_bins_both] and
    [data_device_bins_prefer32], a 32-bit one for [data_device_bins_32], a
    64-bit one for [data_device_bins_64]. [data_device_bins_first] never
    fails. *)
Theorem TestHost_device_bins_errors `{TargetConfig} (j : TestHost.t)
    (ctx : BottomUpMutatorContext) :
  let props := TestHost.testHostProperties j in
  let target32 := head (FirstTarget AndroidTargets "lib32") in
  let target64 := head (FirstTarget AndroidTargets "lib64") in
  let after := TestHost.addDataDeviceBinsDeps j ctx in
  let errors := reported (moduleCtx ctx) (moduleCtx after) in
  (length errors <= 1)%nat /\
  (errors = [] <->
     (TestHost.Data_device_bins_both props = [] \/ is_Some target32 \/ is_Some target64) /\
     (TestHost.Data_device_bins_prefer32 props = [] \/ is_Some target32 \/ is_Some target64) /\
     (TestHost.Data_device_bins_32 props = [] \/ is_Some target32) /\
     (TestHost.Data_device_bins_64 props = [] \/ is_Some target64)) /\
  (forall e, e ∈ errors ->
     exists property format,
       e = PropertyErrorOf property format [TargetsText] /\
       property ∈ ["data_device_bins_both"; "data_device_bins_prefer32";
                   "data_device_bins_32"; "data_device_bins_64"]).
Proof.
  cbv zeta. unfold TestHost.addDataDeviceBinsDeps.
  destruct j as [name [native first both d64 prefer32 d32]].
  cbn [TestHost.testHostProperties TestHost.Data_device_bins_first
       TestHost.Data_device_bins_both TestHost.Data_device_bins_64
       TestHost.Data_device_bins_prefer32 TestHost.Data_device_bins_32].
  destruct (head (FirstTarget AndroidTargets "lib32")) as [t32|];
    destruct (head (FirstTarget AndroidTargets "lib64")) as [t64|];
    destruct first as [|f first]; destruct both as [|b both];
    destruct prefer32 as [|p prefer32]; destruct d32 as [|x d32];
    destruct d64 as [|y d64];
    rewrite ?nonempty_nil, ?nonempty_cons;
    cbn [andThen finish moduleCtx AddFarVariationDependencies addRequests
         MutatorPropertyErrorf];
    rewrite ?nonempty_nil, ?nonempty_cons;
    cbn [andThen finish moduleCtx AddFarVariationDependencies addRequests
         MutatorPropertyErrorf];
    rewrite ?reported_refl, ?reported_PropertyErrorf.
  all: split; [simpl; lia|].
  all: split;
    [|intros e He;
      first [by apply not_elem_of_nil in He
            |apply list_elem_of_singleton in He as ->;
             eexists _, _; split; [reflexivity|]; rewrite !elem_of_cons; tauto]].
  all: split;
    [first [discriminate | intros _; repeat split; eauto]
    |first [done
           |intros (Hboth & Hprefer & H32 & H64); exfalso;
            repeat match goal with
                   | Hor : _ \/ _ |- _ => destruct Hor as [Hor | Hor]
                   | Hs : is_Some None |- _ => by destruct Hs
                   | Heq : _ :: _ = [] |- _ => discriminate Heq
                   end]].
Qed.

(** X15. The binaries that [TestHost.GenerateAndroidBuildActions] tells
    Tradefed to push are the binaries that [addDataDeviceBinsDeps] asks for:
    the keys of the push-file options are [dataDeviceBins], in order; every
    dependency that [addDataDeviceBinsDeps] requests is a far dependency
    tagged [dataDeviceBinsTag] on one of them; and when it reports no error,
    each of them has a requested dependency. *)
Theorem TestHost_pushed_bins_are_deps `{TargetConfig} (Join : list string -> string)
    (j : TestHost.t) (ctx : BottomUpMutatorContext) :
  let after := TestHost.addDataDeviceBinsDeps j ctx in
  let keys := TestHost.pushFileKeys (TestHost.configs Join j) in
  keys = TestHost.dataDeviceBins j /\
  (forall r, r ∈ newRequests ctx after ->
     reqCall r = ViaAddFarVariationDependencies /\
     reqTag r = dataDeviceBinsTag /\
     reqName r ∈ keys) /\
  (reported (moduleCtx ctx) (moduleCtx after) = [] ->
   forall key, key ∈ keys ->
     exists r, r ∈ newRequests ctx after /\ reqName r = key).
Proof.
  cbv zeta. rewrite pushFileKeys_configs. split; [done|].
  unfold TestHost.addDataDeviceBinsDeps, TestHost.dataDeviceBins.
  destruct j as [name [native first both d64 prefer32 d32]].
  cbn [TestHost.testHostProperties TestHost.Data_device_bins_first
       TestHost.Data_device_bins_both TestHost.Data_device_bins_64
       TestHost.Data_device_bins_prefer32 TestHost.Data_device_bins_32].
  rewrite app_nil_l.
  destruct (head (FirstTarget AndroidTargets "lib32")) as [t32|];
    destruct (head (FirstTarget AndroidTargets "lib64")) as [t64|];
    destruct first as [|f first]; destruct both as [|b both];
    destruct prefer32 as [|p prefer32]; destruct d32 as [|x d32];
    destruct d64 as [|y d64];
    rewrite ?nonempty_nil, ?nonempty_cons;
    unfold AddFarVariationDependencies, addRequests, MutatorPropertyErrorf;
    cbn [andThen finish moduleCtx requested];
    rewrite ?nonempty_nil, ?nonempty_cons;
    cbn [andThen finish moduleCtx requested];
    rewrite <- ?app_assoc;
    rewrite ?newRequests_app, ?newRequests_same, ?newRequests_refl,
      ?reported_refl, ?reported_PropertyErrorf.
  all: split;
    [intros r Hr; rewrite ?elem_of_app, ?elem_of_map in Hr;
     repeat match goal with
            | Hor : _ \/ _ |- _ => destruct Hor as [Hor | Hor]
            | Hex : exists _, _ /\ _ |- _ => destruct Hex as (n & -> & Hn)
            | Hnil : _ ∈ [] |- _ => by apply not_elem_of_nil in Hnil
            end;
     (split; [done|]); (split; [done|]); cbn [reqName];
     rewrite ?elem_of_app; tauto
    |first
       [discriminate
       |intros _ key Hkey;
        repeat match goal with
               | Hin : _ ∈ _ ++ _ |- _ => apply elem_of_app in Hin as [Hin | Hin]
               | Hnil : _ ∈ [] |- _ => by apply not_elem_of_nil in Hnil
               end;
        eexists (mkDepRequest ViaAddFarVariationDependencies _ dataDeviceBinsTag key);
        (split; [|reflexivity]);
        rewrite ?elem_of_app, ?elem_of_map; eauto 20]].
Qed.

(** ** java_binary *)

(** X16. The variant of a binary for an architecture is the wrapper variant:
    it installs one executable, named after the module (with [.bat] on
    Windows), whose source is the wrapper file of the module, and it does not
    go on to compile a jar. It reports nothing exactly when a wrapper is
    given, or when the variant is not for Windows and, on the device, a main
    class is given; and when it reports nothing the wrapper that it installs
    is not nil. The wrapper rule is emitted only for a device variant
    without a wrapper and with a main class. *)
Theorem Binary_wrapper_variant `{Android} `{ContextMethods} `{SourcePaths} `{BinaryMethods}
    (j : Binary.t) (ctx : ModuleContext) :
  ArchIsCommon ctx = false ->
  let g := Binary.GenerateAndroidBuildActions j ctx in
  let props := Binary.binaryProps j in
  Binary.isWrapperVariant (Binary.moduleAfter g) = true /\
  Binary.thenLibrary g = false /\
  (exists dir,
     Binary.installed g =
       Some (Binary.mkExecutable dir
               (ModuleName ctx +:+ (if Windows ctx then ".bat" else EmptyString))
               (Binary.wrapperFile (Binary.moduleAfter g)))) /\
  is_Some (Binary.binaryFile (Binary.moduleAfter g)) /\
  (reported ctx (Binary.ctxAfter g) = [] <->
     is_Some (Binary.Wrapper props) \/
     (Windows ctx = false /\
      (Device ctx = true -> is_Some (Binary.Main_class props)))) /\
  (reported ctx (Binary.ctxAfter g) = [] ->
     is_Some (Binary.wrapperFile (Binary.moduleAfter g))) /\
  (is_Some (Binary.wrapperRule g) <->
     Binary.Wrapper props = None /\ Device ctx = true /\
     is_Some (Binary.Main_class props)).
Proof.
  intros Harch. cbv zeta. unfold Binary.GenerateAndroidBuildActions.
  rewrite Harch.
  destruct j as [[wrapper mainClass jni] manifest stemProp stem0 override variant wf bf].
  cbn [Binary.binaryProps Binary.Wrapper Binary.Main_class Binary.withStem
       Binary.wrapperFile Binary.Stem Binary.stem].
  destruct wrapper as [w|], (Windows ctx) eqn:Hwin, (Device ctx) eqn:Hdev,
    mainClass as [m|];
    cbn; rewrite ?Hdev; cbn;
    rewrite ?reported_refl; unfold reported; cbn;
    rewrite <- ?app_assoc, ?drop_app_length.
  all: split; [done|]; split; [done|]; split; [eauto|]; split; [eauto|].
  all: some_solver.
Qed.

Lemma Binary_wrapper_variant_witness :
  is_Some
    (Binary.wrapperFile
       (Binary.moduleAfter
          (@Binary.GenerateAndroidBuildActions sampleAndroid sampleContextMethods
             sampleSourcePaths (sampleBinaryMethods false) sampleBinary (sampleCtx "tool")))).
Proof.
  exact (proj1 (proj2 (proj2 (proj2 (proj2 (proj2
    (@Binary_wrapper_variant sampleAndroid sampleContextMethods
       sampleSourcePaths (sampleBinaryMethods false) sampleBinary (sampleCtx "tool") eq_refl))))))
    eq_refl).
Defined.

(** X17. The common variant of a binary installs no wrapper and goes on to
    compile the jar. It reports an error exactly when [main_class] and
    [manifest] are both set; the manifest for the main class is generated,
    and overrides the manifest of the module, whenever [main_class] is set,
    error or not; without [main_class] the override is left as it was. *)
Theorem Binary_common_variant `{Android} `{ContextMethods} `{SourcePaths} `{BinaryMethods}
    (j : Binary.t) (ctx : ModuleContext) :
  ArchIsCommon ctx = true ->
  let g := Binary.GenerateAndroidBuildActions j ctx in
  let props := Binary.binaryProps j in
  Binary.installed g = None /\
  Binary.thenLibrary g = true /\
  Binary.isWrapperVariant (Binary.moduleAfter g) = Binary.isWrapperVariant j /\
  (reported ctx (Binary.ctxAfter g) <> [] <->
     is_Some (Binary.Main_class props) /\ is_Some (Binary.Manifest j)) /\
  (forall mainClass, Binary.Main_class props = Some mainClass ->
     exists manifestFile,
       Binary.mainClassManifest g = Some (manifestFile, mainClass) /\
       Binary.overrideManifest (Binary.moduleAfter g) = Some manifestFile) /\
  (Binary.Main_class props = None ->
     Binary.mainClassManifest g = None /\
     Binary.overrideManifest (Binary.moduleAfter g) = Binary.overrideManifest j).
Proof.
  intros Harch. cbv zeta. unfold Binary.GenerateAndroidBuildActions.
  rewrite Harch.
  destruct j as [[wrapper mainClass jni] manifest stemProp stem0 override variant wf bf].
  cbn [Binary.binaryProps Binary.Wrapper Binary.Main_class Binary.withStem
       Binary.Manifest].
  destruct mainClass as [m|], manifest as [mf|]; cbn;
    rewrite ?reported_refl, ?reported_PropertyErrorf.
  all: split; [done|]; split; [done|]; split; [done|].
  all: some_solver.
Qed.

Lemma Binary_common_variant_witness :
  Binary.thenLibrary
    (@Binary.GenerateAndroidBuildActions sampleAndroid sampleContextMethods
       sampleSourcePaths (sampleBinaryMethods true) sampleBinary (sampleCtx "tool")) = true.
Proof.
  exact (proj1 (proj2
    (@Binary_common_variant sampleAndroid sampleContextMethods
       sampleSourcePaths (sampleBinaryMethods true) sampleBinary (sampleCtx "tool") eq_refl))).
Defined.

(** X18. The variant that installs the wrapper is the variant that depends
    on what the wrapper runs: whenever [Binary.GenerateAndroidBuildActions]
    installs an executable, [Binary.DepsMutator] on that variant requests,
    with [binaryInstallTag], the common variant of the module itself, and,
    with [jniInstallTag], the [jni_libs] of the binary, and it does not ask
    for the dependencies of the jar. *)
Theorem Binary_wrapper_depends_on_jar `{Android} `{ContextMethods} `{SourcePaths} `{BinaryMethods}
    (j : Binary.t) (ctx : BottomUpMutatorContext) :
  is_Some (Binary.installed (Binary.GenerateAndroidBuildActions j (moduleCtx ctx))) ->
  let after := Binary.DepsMutator j ctx in
  moduleCtx after = moduleCtx ctx /\
  namesWithTag jniInstallTag (newRequests ctx after)
    = Binary.Jni_libs (Binary.binaryProps j) /\
  filter (fun r => reqTag r = binaryInstallTag) (newRequests ctx after)
    = [mkDepRequest ViaAddVariationDependencies [mkVariation "arch" CommonArchString]
         binaryInstallTag (ModuleName (moduleCtx ctx))].
Proof.
  intros Hinstalled. cbv zeta.
  assert (Harch : ArchIsCommon (moduleCtx ctx) = false).
  { revert Hinstalled. unfold Binary.GenerateAndroidBuildActions.
    destruct (ArchIsCommon (moduleCtx ctx)); [|done].
    destruct (Binary.Main_class _); by intros [? [=]]. }
  unfold Binary.DepsMutator. rewrite Harch. cbn [negb].
  unfold AddVariationDependencies, addRequests. cbn [moduleCtx requested].
  rewrite <- app_assoc, newRequests_app.
  split; [done|].
  split.
  - rewrite namesWithTag_app, namesWithTag_same.
    rewrite (namesWithTag_other _ _ jniInstallTag binaryInstallTag) by done.
    by rewrite app_nil_r.
  - rewrite filter_app.
    assert (Hnone : filter (fun r => reqTag r = binaryInstallTag)
                      (map (mkDepRequest ViaAddVariationDependencies [] jniInstallTag)
                         (Binary.Jni_libs (Binary.binaryProps j))) = []).
    { induction (Binary.Jni_libs (Binary.binaryProps j)) as [|n names IHnames]; [done|].
      simpl. rewrite filter_cons. simpl. first [by case_decide | done]. }
    rewrite Hnone. simpl. rewrite filter_cons. simpl. first [by case_decide | done].
Qed.

Lemma Binary_wrapper_depends_on_jar_witness :
  namesWithTag jniInstallTag
    (newRequests (sampleMutatorCtx "tool")
       (@Binary.DepsMutator (sampleBinaryMethods false) sampleBinary
          (sampleMutatorCtx "tool")))
  = ["libjni"].
Proof.
  exact (proj1 (proj2
    (@Binary_wrapper_depends_on_jar sampleAndroid sampleContextMethods
       sampleSourcePaths (sampleBinaryMethods false) sampleBinary (sampleMutatorCtx "tool")
       (ex_intro _ _ eq_refl)))).
Defined.

(** ** java_api_library: the order of the API files *)

Section ApiFiles.
Context `{ApiScopes}.

Lemma fold_left_filter_append (scope : string) (l acc : Paths) :
  fold_left
    (fun sortedSrcFiles sourceFileName =>
       if bool_decide (Base sourceFileName = scope)
       then sortedSrcFiles ++ [sourceFileName]
       else sortedSrcFiles) l acc
  = acc ++ ApiLibrary.filesOfScope l scope.
Proof.
  unfold ApiLibrary.filesOfScope. revert acc. induction l as [|f l IHl]; intros acc; simpl.
  - by rewrite app_nil_r.
  - rewrite IHl, filter_cons. case_bool_decide as Hf.
    + rewrite decide_True by done. by rewrite <- app_assoc.
    + by rewrite decide_False by done.
Qed.

Lemma fold_left_flat_map {A B : Type} (g : A -> list B) (l : list A) (acc : list B) :
  fold_left (fun acc x => acc ++ g x) l acc = acc ++ flat_map g l.
Proof.
  revert acc. induction l as [|x l IHl]; intros acc; simpl.
  - by rewrite app_nil_r.
  - by rewrite IHl, <- app_assoc.
Qed.

(** The sorted files are the files of the first scope, then those of the
    second, and so on. *)
Lemma sortApiFilesByApiScope_chunks (ctx : ModuleContext) (srcFiles : Paths) :
  (ApiLibrary.sortApiFilesByApiScope ctx srcFiles).2
    = flat_map (ApiLibrary.filesOfScope srcFiles) scopeOrderedSourceFileNames.
Proof.
  unfold ApiLibrary.sortApiFilesByApiScope. cbn [snd].
  cut (forall acc,
         fold_left
           (fun sortedSrcFiles scopeSourceFileName =>
              fold_left
                (fun sortedSrcFiles sourceFileName =>
                   if bool_decide (Base sourceFileName = scopeSourceFileName)
                   then sortedSrcFiles ++ [sourceFileName]
                   else sortedSrcFiles)
                srcFiles sortedSrcFiles)
           scopeOrderedSourceFileNames acc
         = acc ++ flat_map (ApiLibrary.filesOfScope srcFiles) scopeOrderedSourceFileNames).
  { intros Hacc. apply (Hacc []). }
  induction scopeOrderedSourceFileNames as [|scope scopes IHscopes]; intros acc;
    cbn [fold_left flat_map].
  - by rewrite app_nil_r.
  - by rewrite fold_left_filter_append, IHscopes, app_assoc.
Qed.

Lemma elem_of_chunks (scopes : list string) (srcFiles : Paths) (f : Path) :
  f ∈ flat_map (ApiLibrary.filesOfScope srcFiles) scopes <-> f ∈ srcFiles /\ Base f ∈ scopes.
Proof.
  rewrite elem_of_flat_map. unfold ApiLibrary.filesOfScope. split.
  - intros (scope & Hscope & Hf). apply list_elem_of_filter in Hf as [<- Hf]. done.
  - intros [Hf Hscope]. exists (Base f). split; [done|].
    by apply list_elem_of_filter.
Qed.

Lemma chunks_Permutation (scopes : list string) (srcFiles : Paths) :
  NoDup scopes ->
  flat_map (ApiLibrary.filesOfScope srcFiles) scopes ≡ₚ filter (fun f => Base f ∈ scopes) srcFiles.
Proof.
  intros Hnodup. induction Hnodup as [|scope scopes Hnotin Hnodup IHscopes]; simpl.
  - induction srcFiles as [|f l IHl]; [done|].
    rewrite filter_cons, decide_False; [done|]. apply not_elem_of_nil.
  - rewrite IHscopes. unfold ApiLibrary.filesOfScope. clear IHscopes.
    induction srcFiles as [|f l IHl]; [done|].
    rewrite !filter_cons.
    destruct (decide (Base f = scope)) as [Heq|Hne].
    + rewrite decide_False by (by rewrite Heq).
      rewrite decide_True by (rewrite Heq; left).
      simpl. by rewrite IHl.
    + destruct (decide (Base f ∈ scopes)) as [Hin|Hnin].
      * rewrite decide_True by (by right).
        rewrite <- Permutation_middle. by rewrite IHl.
      * rewrite decide_False; [done|].
        rewrite elem_of_cons. tauto.
Qed.

Lemma length_filter_eq {A : Type} (P : A -> Prop) `{!forall x, Decision (P x)}
    (l : list A) :
  length (filter P l) = length l <-> Forall P l.
Proof.
  induction l as [|x l IHl]; simpl.
  - split; [constructor | done].
  - rewrite filter_cons. destruct (decide (P x)) as [Hx|Hx]; simpl.
    + rewrite Forall_cons. split.
      * intros [= Hlen]. split; [done|]. by apply IHl.
      * intros [_ Hl]. f_equal. by apply IHl.
    + pose proof (length_filter P l) as Hle. split; [lia|].
      intros Hall. by apply Forall_cons in Hall as [? _].
Qed.

Lemma filter_all {A : Type} (P : A -> Prop) `{!forall x, Decision (P x)} (l : list A) :
  Forall P l -> filter P l = l.
Proof.
  induction 1 as [|x l Hx Hl IHl]; [done|].
  by rewrite filter_cons, decide_True, IHl.
Qed.

(** The error of the sort, by what was added to the errors. *)
Lemma sortApiFilesByApiScope_reported (ctx : ModuleContext) (srcFiles : Paths) :
  reported ctx (ApiLibrary.sortApiFilesByApiScope ctx srcFiles).1 =
    if bool_decide (length srcFiles ≠
                    length (ApiLibrary.sortApiFilesByApiScope ctx srcFiles).2)
    then [ModuleErrorOf "Unrecognizable source file found within %s" srcFiles]
    else [].
Proof.
  unfold ApiLibrary.sortApiFilesByApiScope. cbn [fst snd].
  case_bool_decide.
  - unfold reported, ModuleErrorf. simpl. apply drop_app_length.
  - apply reported_refl.
Qed.

(** X19. When the names of the scopes are distinct, [sortApiFilesByApiScope]
    reports its error exactly when a source file has a base name that is no
    scope file name; and when it reports nothing, the sorted files are the
    source files in another order: none is lost and none is repeated. In
    every case a sorted file is a source file with a recognised name. *)
Theorem sortApiFilesByApiScope_error_iff (ctx : ModuleContext) (srcFiles : Paths) :
  NoDup scopeOrderedSourceFileNames ->
  let result := ApiLibrary.sortApiFilesByApiScope ctx srcFiles in
  (reported ctx result.1 <> [] <->
     exists f, f ∈ srcFiles /\ Base f ∉ scopeOrderedSourceFileNames) /\
  (reported ctx result.1 = [] -> result.2 ≡ₚ srcFiles) /\
  (forall f, f ∈ result.2 <->
     f ∈ srcFiles /\ Base f ∈ scopeOrderedSourceFileNames).
Proof.
  intros Hnodup. cbv zeta.
  rewrite sortApiFilesByApiScope_reported, sortApiFilesByApiScope_chunks.
  pose proof (chunks_Permutation _ srcFiles Hnodup) as Hperm.
  pose proof (length_filter_eq (fun f => Base f ∈ scopeOrderedSourceFileNames) srcFiles)
    as Hlen.
  rewrite <- Hperm in Hlen.
  assert (Hall : length srcFiles ≠ length (flat_map (ApiLibrary.filesOfScope srcFiles) scopeOrderedSourceFileNames)
                 <-> exists f, f ∈ srcFiles /\ Base f ∉ scopeOrderedSourceFileNames).
  { split.
    - intros Hne.
      assert (Hnot : ~ Forall (fun f => Base f ∈ scopeOrderedSourceFileNames) srcFiles).
      { intros Hforall. apply Hne. symmetry. by apply Hlen. }
      apply not_Forall_Exists in Hnot; [|apply _].
      apply Exists_exists in Hnot as (f & Hf & Hbase). by exists f.
    - intros (f & Hf & Hbase) Heq. symmetry in Heq. apply Hlen in Heq.
      rewrite Forall_forall in Heq. by apply Hbase, Heq. }
  split; [|split].
  - case_bool_decide as Hne.
    + split; [intros _; by apply Hall | done].
    + split; [done|]. intros Hex. apply Hall in Hex. exfalso. by apply Hex.
  - case_bool_decide as Hne; [done|]. intros _.
    rewrite Hperm. rewrite filter_all; [done|].
    apply Hlen. by symmetry.
  - intros f. apply elem_of_chunks.
Qed.

Lemma StronglySorted_all {A : Type} (R : A -> A -> Prop) (l : list A) :
  (forall a b, a ∈ l -> b ∈ l -> R a b) -> StronglySorted R l.
Proof.
  induction l as [|x l IHl]; intros HR; constructor.
  - apply IHl. intros a b Ha Hb. apply HR; by right.
  - apply Forall_forall. intros b Hb. apply HR; [left | by right].
Qed.

Lemma StronglySorted_impl {A : Type} (R R' : A -> A -> Prop) (l : list A) :
  StronglySorted R l ->
  (forall a b, a ∈ l -> b ∈ l -> R a b -> R' a b) ->
  StronglySorted R' l.
Proof.
  induction 1 as [|x l Hsorted IHl Hx]; intros HR; constructor.
  - apply IHl. intros a b Ha Hb. apply HR; by right.
  - rewrite Forall_forall in Hx |- *. intros b Hb.
    apply HR; [left | by right | by apply Hx].
Qed.

Lemma StronglySorted_append {A : Type} (R : A -> A -> Prop) (l k : list A) :
  StronglySorted R l -> StronglySorted R k ->
  (forall a b, a ∈ l -> b ∈ k -> R a b) ->
  StronglySorted R (l ++ k).
Proof.
  induction 1 as [|x l Hsorted IHl Hx]; intros Hk HR; [done|].
  simpl. constructor.
  - apply IHl; [done|]. intros a b Ha Hb. apply HR; [by right | done].
  - apply Forall_app. split; [done|].
    apply Forall_forall. intros b Hb. apply HR; [left | done].
Qed.

Lemma filter_none {A : Type} (P : A -> Prop) `{!forall x, Decision (P x)} (l : list A) :
  (forall x, x ∈ l -> ~ P x) -> filter P l = [].
Proof.
  induction l as [|x l IHl]; intros Hl; [done|].
  rewrite filter_cons, decide_False by (apply Hl; left).
  apply IHl. intros y Hy. apply Hl. by right.
Qed.

(** The files come out by scope, from the first scope to the last. *)
Lemma chunks_sorted (scopes : list string) (srcFiles : Paths) :
  NoDup scopes ->
  StronglySorted
    (fun a b => (scopeIndex scopes (Base a) <= scopeIndex scopes (Base b))%nat)
    (flat_map (ApiLibrary.filesOfScope srcFiles) scopes).
Proof.
  intros Hnodup. induction Hnodup as [|scope scopes Hnotin Hnodup IHscopes]; simpl.
  { constructor. }
  apply StronglySorted_append.
  - apply StronglySorted_all. intros a b Ha _.
    apply list_elem_of_filter in Ha as [Ha _].
    rewrite bool_decide_eq_true_2 by done. lia.
  - apply (StronglySorted_impl _ _ _ IHscopes). intros a b Ha Hb Hle.
    apply elem_of_chunks in Ha as [_ Ha]. apply elem_of_chunks in Hb as [_ Hb].
    assert (Hna : Base a <> scope) by (intros Heq; by rewrite Heq in Ha).
    assert (Hnb : Base b <> scope) by (intros Heq; by rewrite Heq in Hb).
    rewrite (bool_decide_eq_false_2 _ Hna), (bool_decide_eq_false_2 _ Hnb). lia.
  - intros a b Ha _. apply list_elem_of_filter in Ha as [Ha _].
    rewrite bool_decide_eq_true_2 by done. lia.
Qed.

(** The files of one scope keep the order that they have in the sources. *)
Lemma chunks_stable (scopes : list string) (srcFiles : Paths) (scope : string) :
  NoDup scopes -> scope ∈ scopes ->
  ApiLibrary.filesOfScope (flat_map (ApiLibrary.filesOfScope srcFiles) scopes) scope = ApiLibrary.filesOfScope srcFiles scope.
Proof.
  intros Hnodup. induction Hnodup as [|first scopes Hnotin Hnodup IHscopes]; intros Hin.
  { by apply not_elem_of_nil in Hin. }
  simpl. unfold ApiLibrary.filesOfScope at 1. rewrite filter_app.
  destruct (decide (scope = first)) as [->|Hne].
  - rewrite (filter_all _ (ApiLibrary.filesOfScope srcFiles first)).
    + rewrite (filter_none _ (flat_map (ApiLibrary.filesOfScope srcFiles) scopes)); [by rewrite app_nil_r|].
      intros f Hf Hbase. apply elem_of_chunks in Hf as [_ Hf]. by rewrite Hbase in Hf.
    + apply Forall_forall. intros f Hf. by apply list_elem_of_filter in Hf as [? _].
  - rewrite (filter_none _ (ApiLibrary.filesOfScope srcFiles first)).
    + simpl. apply IHscopes. apply elem_of_cons in Hin as [?|?]; done.
    + intros f Hf Hbase. apply list_elem_of_filter in Hf as [Hf _]. congruence.
Qed.

Lemma flat_map_ext_elem {A B : Type} (g1 g2 : A -> list B) (l : list A) :
  (forall x, x ∈ l -> g1 x = g2 x) -> flat_map g1 l = flat_map g2 l.
Proof.
  induction l as [|x l IHl]; intros Hext; [done|].
  simpl. rewrite Hext by left. f_equal. apply IHl. intros y Hy. apply Hext. by right.
Qed.

(** X20. When the names of the scopes are distinct, the files that
    [sortApiFilesByApiScope] returns go from the narrowest scope to the
    widest: a file never comes before a file of a narrower scope. Files of
    the same scope keep the order of the sources. And the sort is idempotent:
    sorting its result again returns it unchanged and reports nothing. *)
Theorem sortApiFilesByApiScope_sorted (ctx ctx2 : ModuleContext) (srcFiles : Paths) :
  NoDup scopeOrderedSourceFileNames ->
  let sorted := (ApiLibrary.sortApiFilesByApiScope ctx srcFiles).2 in
  StronglySorted
    (fun a b => (scopeIndex scopeOrderedSourceFileNames (Base a)
                 <= scopeIndex scopeOrderedSourceFileNames (Base b))%nat)
    sorted /\
  (forall scope, scope ∈ scopeOrderedSourceFileNames ->
     filter (fun f => Base f = scope) sorted = filter (fun f => Base f = scope) srcFiles) /\
  ApiLibrary.sortApiFilesByApiScope ctx2 sorted = (ctx2, sorted).
Proof.
  intros Hnodup. cbv zeta. rewrite sortApiFilesByApiScope_chunks.
  split; [by apply chunks_sorted|].
  split; [intros scope Hscope; by apply chunks_stable|].
  assert (Hagain : (ApiLibrary.sortApiFilesByApiScope ctx2
                      (flat_map (ApiLibrary.filesOfScope srcFiles) scopeOrderedSourceFileNames)).2
                   = flat_map (ApiLibrary.filesOfScope srcFiles) scopeOrderedSourceFileNames).
  { rewrite sortApiFilesByApiScope_chunks. apply flat_map_ext_elem.
    intros scope Hscope. by apply chunks_stable. }
  revert Hagain. unfold ApiLibrary.sortApiFilesByApiScope. cbn [snd].
  intros ->. by rewrite bool_decide_eq_false_2 by (by intros Hne).
Qed.

End ApiFiles.

Lemma sortApiFilesByApiScope_error_iff_witness :
  (@ApiLibrary.sortApiFilesByApiScope sampleApiScopes (sampleCtx "api")
     ["b/system-current.txt"; "a/current.txt"]).2
  ≡ₚ ["b/system-current.txt"; "a/current.txt"].
Proof.
  apply (proj1 (proj2
    (@sortApiFilesByApiScope_error_iff sampleApiScopes (sampleCtx "api")
       ["b/system-current.txt"; "a/current.txt"]
       ltac:(by apply (bool_decide_unpack _)))));
    reflexivity.
Defined.

Lemma sortApiFilesByApiScope_sorted_witness :
  (@ApiLibrary.sortApiFilesByApiScope sampleApiScopes (sampleCtx "api")
     ["b/system-current.txt"; "a/current.txt"; "c/current.txt"]).2
  = ["a/current.txt"; "c/current.txt"; "b/system-current.txt"] /\
  StronglySorted
    (fun a b => (scopeIndex (@scopeOrderedSourceFileNames sampleApiScopes)
                   (@Base sampleApiScopes a)
                 <= scopeIndex (@scopeOrderedSourceFileNames sampleApiScopes)
                      (@Base sampleApiScopes b))%nat)
    ["a/current.txt"; "c/current.txt"; "b/system-current.txt"].
Proof.
  split; [reflexivity|].
  exact (proj1
    (@sortApiFilesByApiScope_sorted sampleApiScopes (sampleCtx "api") (sampleCtx "api")
       ["b/system-current.txt"; "a/current.txt"; "c/current.txt"]
       ltac:(by apply (bool_decide_unpack _)))).
Defined.

(** ** java_api_library: the visit of the dependencies *)

Lemma visitDep_Panicked `{SourcePaths} (directDeps : list (DependencyTag * ApiLibrary.Dep))
    (ctx : ModuleContext) :
  fold_left ApiLibrary.visitDep directDeps (Panicked ctx) = Panicked ctx.
Proof. induction directDeps as [|edge rest IHrest]; [done|]. apply IHrest. Qed.

(** One step of the visit: it panics at such an edge, and at no other; when it
    goes on it has reported nothing and has added the jars of the edge. *)
Lemma visitDep_Done `{SourcePaths} (c : ApiLibrary.Collected)
    (edge : DependencyTag * ApiLibrary.Dep) :
  (ApiLibrary.panicsAt edge /\
   exists ctx', ApiLibrary.visitDep (Done c) edge = Panicked ctx' /\
     (AllowMissingDependencies (ApiLibrary.visitCtx c) = true ->
      ctx' = ApiLibrary.visitCtx c)) \/
  (~ ApiLibrary.panicsAt edge /\
   exists c', ApiLibrary.visitDep (Done c) edge = Done c' /\
     ApiLibrary.visitCtx c' = ApiLibrary.visitCtx c /\
     ApiLibrary.srcFiles c' =
       ApiLibrary.srcFiles c ++
       (if bool_decide (edge.1 = javaApiContributionTag) then
          match ApiFile (ApiLibrary.apiImportInfo edge.2) with
          | Some file => [PathForSource (ApiLibrary.visitCtx c) file]
          | None => []
          end
        else []) /\
     ApiLibrary.classPaths c' =
       ApiLibrary.classPaths c ++
       (if bool_decide (edge.1 = libTag)
        then HeaderJars (ApiLibrary.javaInfo edge.2) else []) /\
     ApiLibrary.staticLibs c' =
       ApiLibrary.staticLibs c ++
       (if bool_decide (edge.1 = staticLibTag)
        then HeaderJars (ApiLibrary.javaInfo edge.2) else [])).
Proof.
  destruct edge as [tag dep]. unfold ApiLibrary.visitDep, ApiLibrary.panicsAt.
  cbn [fst snd].
  case_bool_decide as Hcontribution.
  { subst tag.
    rewrite (bool_decide_eq_false_2 (javaApiContributionTag = libTag)) by done.
    rewrite (bool_decide_eq_false_2 (javaApiContributionTag = staticLibTag)) by done.
    destruct (ApiFile (ApiLibrary.apiImportInfo dep)) as [file|] eqn:Hfile.
    - right. split; [intros [[_ [=]] | [[=] _]]|].
      rewrite bool_decide_eq_false_2 by done. cbn.
      eexists. split; [reflexivity|]. cbn. by rewrite !app_nil_r.
    - left. split; [by left|].
      rewrite bool_decide_eq_true_2 by done. cbn.
      eexists. split; [reflexivity|]. by intros ->. }
  case_bool_decide as Hlib.
  { subst tag. right. split; [intros [[[=] _] | [[=] _]]|].
    rewrite (bool_decide_eq_false_2 (libTag = staticLibTag)) by done.
    eexists. split; [reflexivity|]. cbn. by rewrite !app_nil_r. }
  case_bool_decide as Hstatic.
  { subst tag. right. split; [intros [[[=] _] | [[=] _]]|].
    eexists. split; [reflexivity|]. cbn. by rewrite !app_nil_r. }
  case_bool_decide as Hsrcs.
  { subst tag.
    destruct (HeaderJars (ApiLibrary.javaInfo dep)) as [|jar jars] eqn:Hjars; cbn.
    - left. split; [by right|]. eauto.
    - right. split; [intros [[[=] _] | [_ [=]]]|].
      eexists. split; [reflexivity|]. cbn. by rewrite !app_nil_r. }
  right. split; [intros [[? _] | [? _]]; done|].
  eexists. split; [reflexivity|]. by rewrite !app_nil_r.
Qed.

(** The visit as a whole, from the variables [c]. *)
Lemma visit_cases `{SourcePaths} (directDeps : list (DependencyTag * ApiLibrary.Dep))
    (c : ApiLibrary.Collected) :
  ((exists edge, edge ∈ directDeps /\ ApiLibrary.panicsAt edge) /\
   exists ctx', fold_left ApiLibrary.visitDep directDeps (Done c) = Panicked ctx' /\
     (AllowMissingDependencies (ApiLibrary.visitCtx c) = true ->
      ctx' = ApiLibrary.visitCtx c)) \/
  ((forall edge, edge ∈ directDeps -> ~ ApiLibrary.panicsAt edge) /\
   exists c', fold_left ApiLibrary.visitDep directDeps (Done c) = Done c' /\
     ApiLibrary.visitCtx c' = ApiLibrary.visitCtx c /\
     ApiLibrary.srcFiles c' =
       ApiLibrary.srcFiles c ++
       flat_map (fun edge : DependencyTag * ApiLibrary.Dep =>
                   if bool_decide (edge.1 = javaApiContributionTag) then
                     match ApiFile (ApiLibrary.apiImportInfo edge.2) with
                     | Some file => [PathForSource (ApiLibrary.visitCtx c) file]
                     | None => []
                     end
                   else []) directDeps /\
     ApiLibrary.classPaths c' =
       ApiLibrary.classPaths c ++
       flat_map (fun edge : DependencyTag * ApiLibrary.Dep =>
                   if bool_decide (edge.1 = libTag)
                   then HeaderJars (ApiLibrary.javaInfo edge.2) else []) directDeps /\
     ApiLibrary.staticLibs c' =
       ApiLibrary.staticLibs c ++
       flat_map (fun edge : DependencyTag * ApiLibrary.Dep =>
                   if bool_decide (edge.1 = staticLibTag)
                   then HeaderJars (ApiLibrary.javaInfo edge.2) else []) directDeps).
Proof.
  revert c. induction directDeps as [|edge rest IHrest]; intros c.
  { right. split; [intros edge Hedge; by apply not_elem_of_nil in Hedge|].
    exists c. cbn. by rewrite !app_nil_r. }
  cbn [fold_left].
  destruct (visitDep_Done c edge)
    as [[Hbad (ctx' & -> & Hctx')] | [Hgood (c1 & -> & Hctx1 & Hsrc1 & Hcp1 & Hsl1)]].
  { left. split; [exists edge; split; [left | done]|].
    exists ctx'. by rewrite visitDep_Panicked. }
  destruct (IHrest c1)
    as [[(bad & Hin & Hbad) (ctx' & -> & Hctx')]
       | [Hall (c' & -> & Hctx & Hsrc & Hcp & Hsl)]].
  - left. split; [exists bad; split; [by right | done]|].
    exists ctx'. split; [done|]. rewrite <- Hctx1. exact Hctx'.
  - right. split.
    { intros e He. apply elem_of_cons in He as [->|He]; [done | by apply Hall]. }
    exists c'. split; [done|]. cbn [flat_map].
    rewrite Hctx, Hsrc, Hcp, Hsl, Hctx1, Hsrc1, Hcp1, Hsl1, <- !app_assoc. done.
Qed.

(** X21. The visit of the dependencies of a [java_api_library] panics
    exactly when a contribution provides no API file (the nil path is asked
    for its string) or the full API surface stub provides no header jar (the
    first one is indexed). Tolerating missing dependencies does not avoid the
    panic: it only leaves it without any reported error. In particular the
    library panics on every [java_api_contribution] that has no [api_file]. *)
Theorem ApiLibrary_panics_iff `{SourcePaths} `{ApiScopes}
    (properties : ApiLibrary.JavaApiLibraryProperties) (ctx : ModuleContext)
    (directDeps : list (DependencyTag * ApiLibrary.Dep)) :
  let result := ApiLibrary.collectApiFiles properties ctx directDeps in
  ((exists ctx', result = Panicked ctx') <->
     exists tag dep, (tag, dep) ∈ directDeps /\
       ((tag = javaApiContributionTag /\ ApiFile (ApiLibrary.apiImportInfo dep) = None) \/
        (tag = depApiSrcsTag /\ HeaderJars (ApiLibrary.javaInfo dep) = []))) /\
  (AllowMissingDependencies ctx = true ->
   forall ctx', result = Panicked ctx' -> ctx' = ctx) /\
  (forall (ap : JavaApiContribution.t) (ctx0 : ModuleContext) (name : string)
          (info : JavaInfo),
     JavaApiContribution.Api_file ap = None ->
     (javaApiContributionTag,
      ApiLibrary.mkDep name (JavaApiContribution.GenerateAndroidBuildActions ap ctx0) info)
       ∈ directDeps ->
     exists ctx', result = Panicked ctx').
Proof.
  cbv zeta. unfold ApiLibrary.collectApiFiles.
  set (start := {| ApiLibrary.visitCtx := ctx; ApiLibrary.srcFiles := [];
                   ApiLibrary.classPaths := []; ApiLibrary.staticLibs := [];
                   ApiLibrary.depApiSrcsStubsJar := None |}).
  assert (Hiff : (exists ctx',
                    match fold_left ApiLibrary.visitDep directDeps (Done start) with
                    | Panicked ctx1 => Panicked ctx1
                    | Done c =>
                        let '(ctx2, files) :=
                          ApiLibrary.sortApiFilesByApiScope
                            (if bool_decide
                                  (fold_left
                                     (fun srcFiles api =>
                                        srcFiles ++ [PathForModuleSrc (ApiLibrary.visitCtx c) api])
                                     (ApiLibrary.Api_files properties) (ApiLibrary.srcFiles c) = []) &&
                                negb (AllowMissingDependencies (ApiLibrary.visitCtx c))
                             then ModuleErrorf (ApiLibrary.visitCtx c)
                                    "Error: %s has an empty api file."
                                    [ModuleName (ApiLibrary.visitCtx c)]
                             else ApiLibrary.visitCtx c)
                            (fold_left
                               (fun srcFiles api =>
                                  srcFiles ++ [PathForModuleSrc (ApiLibrary.visitCtx c) api])
                               (ApiLibrary.Api_files properties) (ApiLibrary.srcFiles c)) in
                        Done {| ApiLibrary.visitCtx := ctx2; ApiLibrary.srcFiles := files;
                                ApiLibrary.classPaths := ApiLibrary.classPaths c;
                                ApiLibrary.staticLibs := ApiLibrary.staticLibs c;
                                ApiLibrary.depApiSrcsStubsJar :=
                                  ApiLibrary.depApiSrcsStubsJar c |}
                    end = Panicked ctx') <->
                 exists edge : DependencyTag * ApiLibrary.Dep,
                   edge ∈ directDeps /\ ApiLibrary.panicsAt edge).
  { destruct (visit_cases directDeps start)
      as [[Hbad (ctx' & -> & _)] | [Hall (c' & -> & _)]].
    - split; [done | eauto].
    - split.
      + intros [ctx' Heq]. by destruct (ApiLibrary.sortApiFilesByApiScope _ _).
      + intros (edge & Hin & Hbad). by destruct (Hall edge Hin). }
  split; [|split].
  - rewrite Hiff. split.
    + intros ([tag dep] & Hin & Hbad). by exists tag, dep.
    + intros (tag & dep & Hin & Hbad). by exists (tag, dep).
  - intros Hallow ctx'.
    destruct (visit_cases directDeps start)
      as [[_ (ctx1 & -> & Hctx1)] | [_ (c' & -> & _)]].
    + intros [= <-]. by apply Hctx1.
    + by destruct (ApiLibrary.sortApiFilesByApiScope _ _).
  - intros ap ctx0 name info Hfile Hin. apply Hiff.
    eexists. split; [exact Hin|]. left. split; [done|].
    cbn. unfold JavaApiContribution.GenerateAndroidBuildActions. by rewrite Hfile.
Qed.

Lemma reported_two (ctx : ModuleContext) (first second : bool)
    (format1 format2 : string) (args1 args2 : list string) :
  let ctx1 := if first then ModuleErrorf ctx format1 args1 else ctx in
  reported ctx (if second then ModuleErrorf ctx1 format2 args2 else ctx1)
  = (if first then [ModuleErrorOf format1 args1] else []) ++
    (if second then [ModuleErrorOf format2 args2] else []).
Proof.
  destruct first, second; unfold reported, ModuleErrorf; simpl;
    rewrite <- ?app_assoc, ?drop_app_length, ?drop_all; done.
Qed.

(** X22. When the visit of a [java_api_library] ends without panic, it has
    reported nothing, and: the classpath is made of the header jars of the
    libs dependencies and the jars to merge of those of the static libs
    dependencies, in the order of the visit; the API files given to metalava
    are those of the contributions and of [api_files] whose base name is a
    scope file name; and the error about an empty API file is reported
    exactly when there is no API file at all and missing dependencies are not
    tolerated. *)
Theorem ApiLibrary_collected `{SourcePaths} `{ApiScopes}
    (properties : ApiLibrary.JavaApiLibraryProperties) (ctx : ModuleContext)
    (directDeps : list (DependencyTag * ApiLibrary.Dep)) (c : ApiLibrary.Collected) :
  ApiLibrary.collectApiFiles properties ctx directDeps = Done c ->
  let apiFiles :=
    flat_map (fun edge : DependencyTag * ApiLibrary.Dep =>
                if bool_decide (edge.1 = javaApiContributionTag) then
                  match ApiFile (ApiLibrary.apiImportInfo edge.2) with
                  | Some file => [PathForSource ctx file]
                  | None => []
                  end
                else []) directDeps ++
    map (PathForModuleSrc ctx) (ApiLibrary.Api_files properties) in
  ApiLibrary.classPaths c =
    flat_map (fun edge : DependencyTag * ApiLibrary.Dep =>
                if bool_decide (edge.1 = libTag)
                then HeaderJars (ApiLibrary.javaInfo edge.2) else []) directDeps /\
  ApiLibrary.staticLibs c =
    flat_map (fun edge : DependencyTag * ApiLibrary.Dep =>
                if bool_decide (edge.1 = staticLibTag)
                then HeaderJars (ApiLibrary.javaInfo edge.2) else []) directDeps /\
  (forall f, f ∈ ApiLibrary.srcFiles c <->
     f ∈ apiFiles /\ Base f ∈ scopeOrderedSourceFileNames) /\
  (ModuleErrorOf "Error: %s has an empty api file." [ModuleName ctx]
     ∈ reported ctx (ApiLibrary.visitCtx c) <->
   apiFiles = [] /\ AllowMissingDependencies ctx = false).
Proof.
  unfold ApiLibrary.collectApiFiles.
  destruct (visit_cases directDeps
              {| ApiLibrary.visitCtx := ctx; ApiLibrary.srcFiles := [];
                 ApiLibrary.classPaths := []; ApiLibrary.staticLibs := [];
                 ApiLibrary.depApiSrcsStubsJar := None |})
    as [[_ (ctx' & -> & _)] | [_ (c' & -> & Hctx & Hsrc & Hcp & Hsl)]]; [done|].
  cbn in Hctx, Hsrc, Hcp, Hsl. rewrite Hctx, Hsrc.
  rewrite (fold_left_append (PathForModuleSrc ctx)).
  set (apiFiles := _ ++ map (PathForModuleSrc ctx) _).
  pose proof (sortApiFilesByApiScope_chunks
                (if bool_decide (apiFiles = []) && negb (AllowMissingDependencies ctx)
                 then ModuleErrorf ctx "Error: %s has an empty api file." [ModuleName ctx]
                 else ctx) apiFiles) as Hsorted.
  unfold ApiLibrary.sortApiFilesByApiScope in *. cbn [snd] in Hsorted.
  intros [= <-]. cbv zeta. cbn [ApiLibrary.classPaths ApiLibrary.staticLibs
    ApiLibrary.srcFiles ApiLibrary.visitCtx]. rewrite Hcp, Hsl.
  split; [done|]. split; [done|]. split.
  { intros f. rewrite Hsorted. apply elem_of_chunks. }
  rewrite (reported_two ctx). rewrite elem_of_app.
  destruct (bool_decide (apiFiles = []) && negb (AllowMissingDependencies ctx))
    eqn:Hfirst.
  - apply andb_true_iff in Hfirst as [Hempty Hallow].
    apply bool_decide_eq_true_1 in Hempty. apply negb_true_iff in Hallow.
    split; [done|]. intros _. left. left.
  - split.
    + intros [Hin | Hin]; [by apply not_elem_of_nil in Hin|].
      destruct (bool_decide (length apiFiles ≠ _)); [|by apply not_elem_of_nil in Hin].
      by apply list_elem_of_singleton in Hin.
    + intros [Hempty Hallow]. rewrite Hallow in Hfirst.
      by rewrite (bool_decide_eq_true_2 _ Hempty) in Hfirst.
Qed.

Lemma ApiLibrary_collected_witness :
  exists c,
    @ApiLibrary.collectApiFiles sampleSourcePaths sampleApiScopes
      sampleApiLibraryProperties (sampleCtx "api") sampleApiDeps = Done c /\
    ApiLibrary.classPaths c = ["lib.jar"] /\
    ApiLibrary.srcFiles c = ["src/api/current.txt"; "contribution/system-current.txt"].
Proof.
  eexists. split; [reflexivity|]. split; [|reflexivity].
  exact (proj1
    (@ApiLibrary_collected sampleSourcePaths sampleApiScopes
       sampleApiLibraryProperties (sampleCtx "api") sampleApiDeps _ eq_refl)).
Defined.

Lemma fold_left_AddDependency (tag : DependencyTag) (names : list string)
    (ctx : BottomUpMutatorContext) :
  fold_left (fun ctx name => AddDependency ctx tag name) names ctx
  = {| moduleCtx := moduleCtx ctx;
       requested := requested ctx ++ map (mkDepRequest ViaAddDependency [] tag) names |}.
Proof.
  revert ctx. induction names as [|n names IHnames]; intros ctx; simpl.
  - rewrite app_nil_r. by destruct ctx.
  - rewrite IHnames. unfold AddDependency, addRequests. simpl.
    by rewrite <- app_assoc.
Qed.

(** X23. The dependencies that [ApiLibrary.DepsMutator] requests are those
    that the visit of [GenerateAndroidBuildActions] has a case for: the
    contributions, the libs, the static libs and the full API surface stub,
    each under the tag of its case, name for name and in the order of the
    properties; nothing else is requested, and the stub at most once. *)
Theorem ApiLibrary_DepsMutator_tags (properties : ApiLibrary.JavaApiLibraryProperties)
    (ctx : BottomUpMutatorContext) :
  let new := newRequests ctx (ApiLibrary.DepsMutator properties ctx) in
  namesWithTag javaApiContributionTag new = ApiLibrary.Api_contributions properties /\
  namesWithTag libTag new = ApiLibrary.Libs properties /\
  namesWithTag staticLibTag new = ApiLibrary.Static_libs properties /\
  namesWithTag depApiSrcsTag new
    = match ApiLibrary.Full_api_surface_stub properties with
      | Some stub => [stub]
      | None => []
      end /\
  (forall r, r ∈ new ->
     reqTag r ∈ [javaApiContributionTag; libTag; staticLibTag; depApiSrcsTag]).
Proof.
  cbv zeta. unfold ApiLibrary.DepsMutator.
  rewrite fold_left_AddDependency.
  unfold AddVariationDependencies, addRequests. cbn [moduleCtx requested].
  destruct (ApiLibrary.Full_api_surface_stub properties) as [stub|];
    cbn [moduleCtx requested]; rewrite <- ?app_assoc, newRequests_app;
    rewrite !namesWithTag_app, !namesWithTag_same;
    rewrite ?(namesWithTag_other _ _ javaApiContributionTag libTag),
      ?(namesWithTag_other _ _ javaApiContributionTag staticLibTag),
      ?(namesWithTag_other _ _ javaApiContributionTag depApiSrcsTag),
      ?(namesWithTag_other _ _ libTag javaApiContributionTag),
      ?(namesWithTag_other _ _ libTag staticLibTag),
      ?(namesWithTag_other _ _ libTag depApiSrcsTag),
      ?(namesWithTag_other _ _ staticLibTag javaApiContributionTag),
      ?(namesWithTag_other _ _ staticLibTag libTag),
      ?(namesWithTag_other _ _ staticLibTag depApiSrcsTag),
      ?(namesWithTag_other _ _ depApiSrcsTag javaApiContributionTag),
      ?(namesWithTag_other _ _ depApiSrcsTag libTag),
      ?(namesWithTag_other _ _ depApiSrcsTag staticLibTag) by done;
    rewrite ?app_nil_r;
    (split; [done|]); (split; [done|]); (split; [done|]); (split; [done|]);
    intros r; rewrite ?elem_of_app, !elem_of_map.
  - intros [(n & -> & _) | [(n & -> & _) | [(n & -> & _) | (n & -> & _)]]];
      cbn [reqTag]; rewrite !elem_of_cons; tauto.
  - intros [(n & -> & _) | [(n & -> & _) | (n & -> & _)]];
      cbn [reqTag]; rewrite !elem_of_cons; tauto.
Qed.

(** ** Installation of java_library and java_import *)


(** ** Members of an SDK snapshot *)

(** X25. [testSdkMemberProperties.PopulateFromVariant] panics exactly when
    the test does not have one implementation jar. Otherwise the snapshot
    that [AddToPropertySet] makes copies that jar to the path that the [jars]
    property names, and the test config, when there is one, to the path that
    [test_config] names; nothing else is copied and no other property is
    added. *)
Theorem testSdkMember_snapshot `{SnapshotMethods} (implementationJars : Paths)
    (testConfig : option Path) (osPrefix name : string) :
  (testSdkMemberProperties.PopulateFromVariant implementationJars testConfig = None <->
     length implementationJars <> 1%nat) /\
  (forall p,
     testSdkMemberProperties.PopulateFromVariant implementationJars testConfig = Some p ->
     let s := testSdkMemberProperties.AddToPropertySet p osPrefix name in
     let jarPath := sdkSnapshotFilePathForJar osPrefix name in
     let configPath := sdkSnapshotFilePathForMember osPrefix name testConfigSuffix in
     exists jar,
       implementationJars = [jar] /\
       copied s =
         (jar, jarPath) ::
         match testConfig with Some config => [(config, configPath)] | None => [] end /\
       added s =
         ("jars", StringsValue [jarPath]) ::
         match testConfig with
         | Some _ => [("test_config", StringValue configPath)]
         | None => []
         end).
Proof.
  unfold testSdkMemberProperties.PopulateFromVariant.
  case_bool_decide as Hlen.
  - split; [done|]. by intros p [=].
  - split; [split; [done | by intros ?]|].
    intros p [= <-]. destruct implementationJars as [|jar [|other jars]]; try done.
    exists jar. unfold testSdkMemberProperties.AddToPropertySet. cbn.
    by destruct testConfig.
Qed.

(** What [AddToPropertySet] copies for the aidl include directories. *)
Lemma aidl_copies {A B C : Type} (glob : A -> list B) (g : B -> C) (dirs : list A)
    (init : list C) :
  fold_left
    (fun copied dir =>
       fold_left (fun copied file => copied ++ [g file]) (glob dir) copied)
    dirs init
  = init ++ flat_map (fun dir => map g (glob dir)) dirs.
Proof.
  revert init. induction dirs as [|dir dirs IHdirs]; intros init; simpl.
  - by rewrite app_nil_r.
  - by rewrite fold_left_append, IHdirs, app_assoc.
Qed.

(** X26. A library goes into the snapshot as follows, from
    [PopulateFromVariant] to [AddToPropertySet]. The [dex_preopt] property
    set is always added, once; it holds [profile_guided], and then as true,
    exactly for a variant whose dexpreopt result is profile guided. When
    there is a jar to export, it is the first file copied, to the path that
    [jars], the first property, names; when there is none, no [jars]
    property is added. A member type that only copies the jar copies at most
    one file. [min_sdk_version] is added exactly when the variant sets it,
    also when the replacement of codenames failed, which is the only source
    of an error. *)
Theorem librarySdkMember_snapshot `{SourcePaths} `{SnapshotMethods}
    (snapshotPathGetter : string -> string -> string) (onlyCopyJarToSnapshot : bool)
    (ctx sdkModuleContext : ModuleContext) (j : librarySdkMemberProperties.Variant)
    (osPrefix name : string) :
  let populated := librarySdkMemberProperties.PopulateFromVariant ctx j in
  let s := librarySdkMemberProperties.AddToPropertySet snapshotPathGetter
             onlyCopyJarToSnapshot sdkModuleContext populated.2 osPrefix name in
  filter (fun kv => kv.1 = "dex_preopt") (added s) =
    [("dex_preopt",
      SetValue (if librarySdkMemberProperties.Profile_guided j
                then [("profile_guided", BoolValue true)] else []))] /\
  (forall jar, librarySdkMemberProperties.jarToExport j = Some jar ->
     head (copied s) = Some (jar, snapshotPathGetter osPrefix name) /\
     head (added s) = Some ("jars", StringsValue [snapshotPathGetter osPrefix name])) /\
  (librarySdkMemberProperties.jarToExport j = None ->
     filter (fun kv => kv.1 = "jars") (added s) = []) /\
  (onlyCopyJarToSnapshot = true -> (length (copied s) <= 1)%nat) /\
  ((exists v, ("min_sdk_version", StringValue v) ∈ added s) <->
     is_Some (librarySdkMemberProperties.Min_sdk_version j)) /\
  (reported ctx populated.1 <> [] <->
     is_Some (librarySdkMemberProperties.Min_sdk_version j) /\
     is_Some (ReplaceFinalizedCodenames
                (librarySdkMemberProperties.minSdkVersionString j)).2).
Proof.
  cbv zeta.
  unfold librarySdkMemberProperties.PopulateFromVariant,
    librarySdkMemberProperties.AddToPropertySet.
  destruct j as [jar dirs packages minSdk minString guided].
  cbn [librarySdkMemberProperties.jarToExport librarySdkMemberProperties.aidlIncludeDirs
       librarySdkMemberProperties.permittedPackages
       librarySdkMemberProperties.Min_sdk_version
       librarySdkMemberProperties.minSdkVersionString
       librarySdkMemberProperties.Profile_guided].
  destruct (ReplaceFinalizedCodenames minString) as [canonical err].
  rewrite (aidl_copies (fun dir => GlobWithDeps (dir +:+ "/**/*.aidl"))
             (fun file => (PathForSource sdkModuleContext file,
                           filepathJoin [aidlIncludeDir; file]))).
  destruct jar as [jar|], minSdk as [v|], err as [e|], guided, packages as [|pkg packages],
    onlyCopyJarToSnapshot;
    cbn; (case_bool_decide as Hlen; cbn in Hlen; [|try lia]; try lia);
    rewrite ?reported_refl; unfold reported, ModuleErrorf; cbn;
    rewrite ?drop_app_length.
  all: split; [done|].
  all: split; [first [by intros ? [=] | by intros ? [= <-]]|].
  all: split; [first [done | by intros [=]]|].
  all: split; [first [intros _; lia | by intros [=]]|].
  all: rewrite ?elem_of_cons, ?elem_of_nil; unfold is_Some; split.
  all: split.
  all: try (intros _; eauto 8; fail).
  all: try (by intros [? [=]]).
  all: try (by intros [[? [=]] ?]).
  all: try (by intros [? [? [=]]]).
  all: try done.
  all: try (intros _; eexists; rewrite !elem_of_cons; eauto 8; fail).
  all: try (intros [? Hin]; rewrite !elem_of_cons, elem_of_nil in Hin;
            repeat destruct Hin as [Hin|Hin]; by simplify_eq).
Qed.

(** ** The further parts, run on the concrete build *)

(** An import that compiles to dex against an SDK made of modules asks for
    the modules of the SDK after its own libs; nothing is optimized, so nothing
    is raised for proguard. *)
Example Import_DepsMutator_sample :
  map (fun r => (name (match reqTag r with JavaTag t => t | _ => tagNamed "" end), reqName r))
    (requested
       (@ImportMethods.DepsMutator sampleModuleCollaborators sampleJavaConfig
          (sampleImport "a") (mkDexer None false) (sampleMutatorCtx "a")))
  = [("bootclasspath", "core-oj"); ("bootclasspath", "core-libart");
     ("java9lib", "framework"); ("sdklib", "android_stubs_current");
     ("system modules", "core-current-stubs-system-modules")].
Proof. vm_compute. reflexivity. Qed.

(** With a 64-bit device target only, [data_device_bins_32] would fail; the
    sample has none, and the other lists fall on the 64-bit target. *)
Example TestHost_sample :
  let after := @TestHost.addDataDeviceBinsDeps sampleTargetConfig sampleTestHost
                 (sampleMutatorCtx "host-test") in
  map reqName (requested after) = ["bin-first"; "bin-both"; "bin-prefer32"; "bin-64"] /\
  errs (moduleCtx after) = [] /\
  TestHost.pushFileKeys (TestHost.configs (String.concat "/") sampleTestHost)
    = ["bin-first"; "bin-both"; "bin-prefer32"; "bin-64"].
Proof. vm_compute. repeat split. Qed.

(** A device library with [hostdex] installs the host dex jar and the jar. *)
Example Library_install_sample :
  map asName (@LibraryInstall.install sampleAndroid sampleContextMethods
                sampleHostDexPaths sampleLibraryInstall (sampleCtx "core"))
  = ["core-hostdex.jar"; "core.jar"].
Proof. vm_compute. reflexivity. Qed.

(** The snapshot of a library with a jar, a minimum SDK version, permitted
    packages and a profile. *)
Example librarySdkMember_sample :
  let populated := @librarySdkMemberProperties.PopulateFromVariant sampleSnapshotMethods
                     (sampleCtx "mylib") sampleLibraryVariant in
  map fst (added (@librarySdkMemberProperties.AddToPropertySet sampleSourcePaths
                    sampleSnapshotMethods
                    (@sdkSnapshotFilePathForJar sampleSnapshotMethods) true
                    (sampleCtx "sdk") populated.2 "" "mylib"))
  = ["jars"; "min_sdk_version"; "permitted_packages"; "dex_preopt"].
Proof. vm_compute. reflexivity. Qed.

(** A [dex_import] for the platform with two jars reports the error, goes on
    with the first jar, copies it and installs the copy. *)
Example DexImport_sample :
  match @DexImport.GenerateAndroidBuildActions sampleAndroid sampleContextMethods
          sampleDexpreopterMethods (sampleDexImport ["classes.jar"; "other.jar"])
          (sampleCtx "dex") with
  | Done f =>
      Some (DexImport.rule f, map DexImport.installName (DexImport.installs f),
            errs (DexImport.ctxAfter f))
  | Panicked _ => None
  end
  = Some (DexImport.CpRule "classes.jar" "out/dex/dex.jar", ["dex.jar"],
          [PropertyErrorOf "jars" DexImport.jarsFormat []]).
Proof. vm_compute. reflexivity. Qed.
